(** * Thecus N5550 board support (n5550_board.c)

    A shallow embedding of the board initialiser: the static pin tables, the
    GPIO controller lookup, the chipset GPIO fixup, the set-up of the two
    PCA9532 dimmers and the init/exit sequencing.  The kernel services the
    module calls (PCI lookup, configuration space, port I/O, module
    references, I2C and platform device registration) are modelled by a
    small kernel state; every call the module makes is also recorded as an
    [event], so that the order and the number of calls can be stated. *)

From Stdlib Require Import ZArith String Ascii List Bool Lia.
From stdpp Require Import base list.
Import ListNotations.

Local Open Scope string_scope.
Local Open Scope list_scope.
Local Open Scope Z_scope.

(** ** C integers *)

(** [u32]: the value of an unsigned 32-bit object after arithmetic. *)
Definition u32 (z : Z) : Z := z mod 2 ^ 32.

(** [errno] values of <linux/errno.h> used by the module. *)
Definition EBUSY  : Z := 16.
Definition ENODEV : Z := 19.
Definition EINVAL : Z := 22.

(** [strcmp]: zero exactly when both strings are equal. *)
Definition strcmp (a b : string) : Z :=
  match String.compare a b with
  | Eq => 0
  | Lt => -1
  | Gt => 1
  end.

Definition nl : string := String (ascii_of_nat 10) EmptyString.

(** ** Kernel objects *)

Record gpio_chip := {
  label : option string;      (* NULL is [None] *)
  base  : Z                   (* int *)
}.

Record i2c_adapter := {
  owner : nat;                (* the module owning the adapter *)
  nr    : nat                 (* the bus number of the adapter *)
}.

Record pci_dev := {
  vendor  : Z;
  device  : Z;
  drvdata : option i2c_adapter
}.

Inductive leds_gpio_defstate :=
  | LEDS_GPIO_DEFSTATE_OFF
  | LEDS_GPIO_DEFSTATE_ON
  | LEDS_GPIO_DEFSTATE_KEEP.

Record gpio_led := {
  name            : string;
  default_trigger : option string;
  gpio            : Z;        (* unsigned *)
  active_low      : Z;
  default_state   : leds_gpio_defstate
}.

(** The pin types and states of <linux/leds-pca9532.h>; the first
    constructor of each is the value 0 of an entry left out of an
    initialiser. *)
Inductive pca9532_type :=
  | PCA9532_TYPE_NONE
  | PCA9532_TYPE_LED
  | PCA9532_TYPE_N2100_BEEP
  | PCA9532_TYPE_GPIO.

Inductive pca9532_state :=
  | PCA9532_OFF
  | PCA9532_ON
  | PCA9532_PWM0
  | PCA9532_PWM1.

Record pca9532_led := {
  led_name  : option string;
  led_type  : pca9532_type;
  led_state : pca9532_state
}.

Record pca9532_platform_data := {
  leds : list pca9532_led;
  pwm  : list Z;
  psc  : list Z
}.

Record i2c_board_info := {
  type          : string;
  addr          : Z;
  platform_data : pca9532_platform_data
}.

(** A platform device, by its name and instance id; the platform data of
    the one device of this module is the LED table. *)
Record platform_device := {
  pdev_name : string;
  pdev_id   : Z
}.

Definition same_platform_device (p q : platform_device) : bool :=
  String.eqb (pdev_name p) (pdev_name q) && (pdev_id p =? pdev_id q).

(** An I2C client.  One adapter has at most one client at a bus address,
    so that adapter, type and address say which client it is. *)
Record i2c_client := {
  client_adapter : i2c_adapter;
  client_type    : string;
  client_addr    : Z
}.

Definition same_client (c c' : i2c_client) : bool :=
  Nat.eqb (owner (client_adapter c)) (owner (client_adapter c')) &&
  Nat.eqb (nr (client_adapter c)) (nr (client_adapter c')) &&
  String.eqb (client_type c) (client_type c') &&
  (client_addr c =? client_addr c').

(** A [struct i2c_client *]: NULL, an error pointer [ERR_PTR(err)] with
    [err] a negative errno, or the address of a client. *)
Inductive i2c_client_ptr :=
  | NULL
  | ERR_PTR (err : Z)
  | ptr (c : i2c_client).

(** ** Calls into the kernel, as observed *)

Inductive event :=
  | ev_pr_warn (fmt : string) (args : list Z)
  | ev_pr_debug (fmt : string) (args : list Z)
  | ev_pci_get_device (vendor device : Z) (dev : option nat)
  | ev_pci_dev_put (dev : nat)
  | ev_pci_read_config_dword (dev : nat) (reg val : Z)
  | ev_pci_write_config_byte (dev : nat) (reg val : Z)
  | ev_inl (port val : Z)
  | ev_outl (val port : Z)
  | ev_try_module_get (m : nat) (ok : bool)
  | ev_module_put (m : nat)
  | ev_i2c_new_client_device (adapter : i2c_adapter) (info : i2c_board_info)
                             (client : i2c_client_ptr)
  | ev_i2c_unregister_device (client : i2c_client_ptr)
  | ev_platform_device_register (pdev : platform_device)
                                (pdata : list gpio_led) (ret : Z)
  | ev_platform_device_unregister (pdev : platform_device).

(** ** Kernel and module state *)

Record kernel := {
  (* registered GPIO controllers, in the order gpiochip_find visits them *)
  gpio_chips : list gpio_chip;
  (* PCI functions on the bus; a device is named by its position *)
  pci_devices : list pci_dev;
  pci_refcount : nat -> Z;
  (* configuration space of each PCI function, one byte per offset *)
  pci_config : nat -> Z -> Z;
  (* I/O port space, one byte per port *)
  io_ports : Z -> Z;
  (* modules that are being removed: try_module_get fails on them *)
  module_going : nat -> bool;
  module_refcount : nat -> Z;
  (* the errno (16 for EBUSY, ...) with which i2c_new_client_device fails
     at a bus address, when it does *)
  i2c_failure : Z -> option positive;
  i2c_clients : list i2c_client;
  (* what platform_device_register will return *)
  platform_register_ret : Z;
  platform_devices : list platform_device;
  (* the module's static variables *)
  n5550_ich_gpio_leds : list gpio_led;
  n5550_pca9532_0_client : i2c_client_ptr;
  n5550_pca9532_1_client : i2c_client_ptr
}.

Definition set_pci_refcount (f : nat -> Z) (k : kernel) : kernel :=
  {| gpio_chips := gpio_chips k; pci_devices := pci_devices k;
     pci_refcount := f; pci_config := pci_config k; io_ports := io_ports k;
     module_going := module_going k; module_refcount := module_refcount k;
     i2c_failure := i2c_failure k; i2c_clients := i2c_clients k;
     platform_register_ret := platform_register_ret k;
     platform_devices := platform_devices k;
     n5550_ich_gpio_leds := n5550_ich_gpio_leds k;
     n5550_pca9532_0_client := n5550_pca9532_0_client k;
     n5550_pca9532_1_client := n5550_pca9532_1_client k |}.

Definition set_pci_config (f : nat -> Z -> Z) (k : kernel) : kernel :=
  {| gpio_chips := gpio_chips k; pci_devices := pci_devices k;
     pci_refcount := pci_refcount k; pci_config := f; io_ports := io_ports k;
     module_going := module_going k; module_refcount := module_refcount k;
     i2c_failure := i2c_failure k; i2c_clients := i2c_clients k;
     platform_register_ret := platform_register_ret k;
     platform_devices := platform_devices k;
     n5550_ich_gpio_leds := n5550_ich_gpio_leds k;
     n5550_pca9532_0_client := n5550_pca9532_0_client k;
     n5550_pca9532_1_client := n5550_pca9532_1_client k |}.

Definition set_io_ports (f : Z -> Z) (k : kernel) : kernel :=
  {| gpio_chips := gpio_chips k; pci_devices := pci_devices k;
     pci_refcount := pci_refcount k; pci_config := pci_config k; io_ports := f;
     module_going := module_going k; module_refcount := module_refcount k;
     i2c_failure := i2c_failure k; i2c_clients := i2c_clients k;
     platform_register_ret := platform_register_ret k;
     platform_devices := platform_devices k;
     n5550_ich_gpio_leds := n5550_ich_gpio_leds k;
     n5550_pca9532_0_client := n5550_pca9532_0_client k;
     n5550_pca9532_1_client := n5550_pca9532_1_client k |}.

Definition set_module_refcount (f : nat -> Z) (k : kernel) : kernel :=
  {| gpio_chips := gpio_chips k; pci_devices := pci_devices k;
     pci_refcount := pci_refcount k; pci_config := pci_config k;
     io_ports := io_ports k;
     module_going := module_going k; module_refcount := f;
     i2c_failure := i2c_failure k; i2c_clients := i2c_clients k;
     platform_register_ret := platform_register_ret k;
     platform_devices := platform_devices k;
     n5550_ich_gpio_leds := n5550_ich_gpio_leds k;
     n5550_pca9532_0_client := n5550_pca9532_0_client k;
     n5550_pca9532_1_client := n5550_pca9532_1_client k |}.

Definition set_i2c_clients (l : list i2c_client) (k : kernel) : kernel :=
  {| gpio_chips := gpio_chips k; pci_devices := pci_devices k;
     pci_refcount := pci_refcount k; pci_config := pci_config k;
     io_ports := io_ports k;
     module_going := module_going k; module_refcount := module_refcount k;
     i2c_failure := i2c_failure k; i2c_clients := l;
     platform_register_ret := platform_register_ret k;
     platform_devices := platform_devices k;
     n5550_ich_gpio_leds := n5550_ich_gpio_leds k;
     n5550_pca9532_0_client := n5550_pca9532_0_client k;
     n5550_pca9532_1_client := n5550_pca9532_1_client k |}.

Definition set_platform_devices (l : list platform_device) (k : kernel) : kernel :=
  {| gpio_chips := gpio_chips k; pci_devices := pci_devices k;
     pci_refcount := pci_refcount k; pci_config := pci_config k;
     io_ports := io_ports k;
     module_going := module_going k; module_refcount := module_refcount k;
     i2c_failure := i2c_failure k; i2c_clients := i2c_clients k;
     platform_register_ret := platform_register_ret k;
     platform_devices := l;
     n5550_ich_gpio_leds := n5550_ich_gpio_leds k;
     n5550_pca9532_0_client := n5550_pca9532_0_client k;
     n5550_pca9532_1_client := n5550_pca9532_1_client k |}.

Definition set_n5550_ich_gpio_leds (l : list gpio_led) (k : kernel) : kernel :=
  {| gpio_chips := gpio_chips k; pci_devices := pci_devices k;
     pci_refcount := pci_refcount k; pci_config := pci_config k;
     io_ports := io_ports k;
     module_going := module_going k; module_refcount := module_refcount k;
     i2c_failure := i2c_failure k; i2c_clients := i2c_clients k;
     platform_register_ret := platform_register_ret k;
     platform_devices := platform_devices k;
     n5550_ich_gpio_leds := l;
     n5550_pca9532_0_client := n5550_pca9532_0_client k;
     n5550_pca9532_1_client := n5550_pca9532_1_client k |}.

Definition set_n5550_pca9532_0_client (c : i2c_client_ptr) (k : kernel) : kernel :=
  {| gpio_chips := gpio_chips k; pci_devices := pci_devices k;
     pci_refcount := pci_refcount k; pci_config := pci_config k;
     io_ports := io_ports k;
     module_going := module_going k; module_refcount := module_refcount k;
     i2c_failure := i2c_failure k; i2c_clients := i2c_clients k;
     platform_register_ret := platform_register_ret k;
     platform_devices := platform_devices k;
     n5550_ich_gpio_leds := n5550_ich_gpio_leds k;
     n5550_pca9532_0_client := c;
     n5550_pca9532_1_client := n5550_pca9532_1_client k |}.

Definition set_n5550_pca9532_1_client (c : i2c_client_ptr) (k : kernel) : kernel :=
  {| gpio_chips := gpio_chips k; pci_devices := pci_devices k;
     pci_refcount := pci_refcount k; pci_config := pci_config k;
     io_ports := io_ports k;
     module_going := module_going k; module_refcount := module_refcount k;
     i2c_failure := i2c_failure k; i2c_clients := i2c_clients k;
     platform_register_ret := platform_register_ret k;
     platform_devices := platform_devices k;
     n5550_ich_gpio_leds := n5550_ich_gpio_leds k;
     n5550_pca9532_0_client := n5550_pca9532_0_client k;
     n5550_pca9532_1_client := c |}.

(** Point update of a table indexed by [nat] or by [Z]. *)
Definition upd_nat {A} (f : nat -> A) (i : nat) (v : A) : nat -> A :=
  fun j => if Nat.eqb j i then v else f j.

Definition upd_Z {A} (f : Z -> A) (i : Z) (v : A) : Z -> A :=
  fun j => if j =? i then v else f j.

(** Byte-addressed space: the dword read at [a], little-endian, and the
    dword [v] stored at [a]. *)
Definition le_dword (mem : Z -> Z) (a : Z) : Z :=
  Z.lor (Z.land (mem a) 0xff)
    (Z.lor (Z.shiftl (Z.land (mem (a + 1)) 0xff) 8)
       (Z.lor (Z.shiftl (Z.land (mem (a + 2)) 0xff) 16)
              (Z.shiftl (Z.land (mem (a + 3)) 0xff) 24))).

Definition byte_of (v : Z) (i : Z) : Z := Z.land (Z.shiftr v (8 * i)) 0xff.

Definition store_dword (mem : Z -> Z) (a v : Z) : Z -> Z :=
  upd_Z (upd_Z (upd_Z (upd_Z mem a (byte_of v 0)) (a + 1) (byte_of v 1))
               (a + 2) (byte_of v 2))
        (a + 3) (byte_of v 3).

(** ** The monad of module code: state passing plus the calls made *)

Definition M (A : Type) : Type := kernel -> A * kernel * list event.

Definition ret {A} (a : A) : M A := fun k => (a, k, []).

Definition bind {A B} (m : M A) (f : A -> M B) : M B :=
  fun k =>
    let '(a, k1, e1) := m k in
    let '(b, k2, e2) := f a k1 in
    (b, k2, e1 ++ e2).

Notation "'do' x <- m ; f" := (bind m (fun x => f))
  (at level 10, x name, m at level 100, f at level 200).
Notation "'do_' m ; f" := (bind m (fun _ => f))
  (at level 10, m at level 100, f at level 200).

Definition emit (e : event) : M unit := fun k => (tt, k, [e]).
Definition get {A} (f : kernel -> A) : M A := fun k => (f k, k, []).
Definition modify (f : kernel -> kernel) : M unit := fun k => (tt, f k, []).

Definition value {A} (r : A * kernel * list event) : A := r.1.1.
Definition state {A} (r : A * kernel * list event) : kernel := r.1.2.
Definition events {A} (r : A * kernel * list event) : list event := r.2.

(** ** Kernel services *)

Definition pr_warn (fmt : string) (args : list Z) : M unit :=
  emit (ev_pr_warn fmt args).

Definition pr_debug (fmt : string) (args : list Z) : M unit :=
  emit (ev_pr_debug fmt args).

(** [pci_get_device(vendor, device, NULL)]: the first function on the bus
    with that identity, with a reference taken on it. *)
Fixpoint pci_scan (v d : Z) (i : nat) (l : list pci_dev) : option nat :=
  match l with
  | [] => None
  | pd :: rest =>
      if (vendor pd =? v) && (device pd =? d) then Some i
      else pci_scan v d (S i) rest
  end.

Definition pci_get_device (v d : Z) : M (option nat) :=
  do r <- get (fun k => pci_scan v d 0 (pci_devices k));
  do_ emit (ev_pci_get_device v d r);
  match r with
  | None => ret None
  | Some dev =>
      do_ modify (fun k =>
            set_pci_refcount
              (upd_nat (pci_refcount k) dev (pci_refcount k dev + 1)) k);
      ret (Some dev)
  end.

Definition pci_dev_put (dev : nat) : M unit :=
  do_ modify (fun k =>
        set_pci_refcount
          (upd_nat (pci_refcount k) dev (pci_refcount k dev - 1)) k);
  emit (ev_pci_dev_put dev).

Definition pci_get_drvdata (dev : nat) : M (option i2c_adapter) :=
  get (fun k => match pci_devices k !! dev with
                | Some pd => drvdata pd
                | None => None
                end).

(** Configuration space is byte addressed; a dword is read little-endian. *)
Definition config_byte (cfg : Z -> Z) (reg : Z) : Z := Z.land (cfg reg) 0xff.

Definition config_dword (cfg : Z -> Z) (reg : Z) : Z :=
  Z.lor (config_byte cfg reg)
    (Z.lor (Z.shiftl (config_byte cfg (reg + 1)) 8)
       (Z.lor (Z.shiftl (config_byte cfg (reg + 2)) 16)
              (Z.shiftl (config_byte cfg (reg + 3)) 24))).

Definition pci_read_config_dword (dev : nat) (reg : Z) : M Z :=
  do val <- get (fun k => config_dword (pci_config k dev) reg);
  do_ emit (ev_pci_read_config_dword dev reg val);
  ret val.

Definition pci_write_config_byte (dev : nat) (reg val : Z) : M unit :=
  do_ modify (fun k =>
        set_pci_config
          (upd_nat (pci_config k) dev (upd_Z (pci_config k dev) reg val)) k);
  emit (ev_pci_write_config_byte dev reg val).

(** What a 32-bit read of an I/O port returns: the four bytes from
    [port] on. *)
Definition port_value (k : kernel) (port : Z) : Z := le_dword (io_ports k) port.

Definition inl (port : Z) : M Z :=
  do val <- get (fun k => port_value k port);
  do_ emit (ev_inl port val);
  ret val.

Definition outl (val port : Z) : M unit :=
  do_ modify (fun k => set_io_ports (store_dword (io_ports k) port val) k);
  emit (ev_outl val port).

Definition try_module_get (m : nat) : M bool :=
  do going <- get (fun k => module_going k m);
  if going then
    do_ emit (ev_try_module_get m false);
    ret false
  else
    do_ modify (fun k =>
          set_module_refcount
            (upd_nat (module_refcount k) m (module_refcount k m + 1)) k);
    do_ emit (ev_try_module_get m true);
    ret true.

Definition module_put (m : nat) : M unit :=
  do_ modify (fun k =>
        set_module_refcount
          (upd_nat (module_refcount k) m (module_refcount k m - 1)) k);
  emit (ev_module_put m).

(** [i2c_new_client_device]: the new client, or [ERR_PTR(-errno)] when the
    client cannot be created.  It never returns NULL. *)
Definition i2c_new_client_device (adapter : i2c_adapter) (info : i2c_board_info)
  : M i2c_client_ptr :=
  do failure <- get (fun k => i2c_failure k (addr info));
  match failure with
  | Some errno =>
      do_ emit (ev_i2c_new_client_device adapter info (ERR_PTR (Z.neg errno)));
      ret (ERR_PTR (Z.neg errno))
  | None =>
      let c := {| client_adapter := adapter; client_type := type info;
                  client_addr := addr info |} in
      do_ modify (fun k => set_i2c_clients (c :: i2c_clients k) k);
      do_ emit (ev_i2c_new_client_device adapter info (ptr c));
      ret (ptr c)
  end.

(** [i2c_unregister_device]: takes the one client handed over off the
    registered clients; does nothing on NULL and on an error pointer. *)
Definition i2c_unregister_device (client : i2c_client_ptr) : M unit :=
  do_ match client with
      | ptr c =>
          modify (fun k =>
            set_i2c_clients
              (List.filter (fun c' => negb (same_client c' c))
                           (i2c_clients k)) k)
      | NULL | ERR_PTR _ => ret tt
      end;
  emit (ev_i2c_unregister_device client).

Definition platform_device_register (pdev : platform_device) : M Z :=
  do r <- get platform_register_ret;
  do pdata <- get n5550_ich_gpio_leds;
  do_ (if r =? 0
       then modify (fun k => set_platform_devices (pdev :: platform_devices k) k)
       else ret tt);
  do_ emit (ev_platform_device_register pdev pdata r);
  ret r.

Definition platform_device_unregister (pdev : platform_device) : M unit :=
  do_ modify (fun k =>
        set_platform_devices
          (List.filter (fun p => negb (same_platform_device p pdev))
                       (platform_devices k)) k);
  emit (ev_platform_device_unregister pdev).

(** [gpiochip_find(data, match)]: the first registered controller on which
    the callback returns non-zero. *)
Fixpoint gpiochip_scan (match_ : gpio_chip -> Z) (l : list gpio_chip)
  : option gpio_chip :=
  match l with
  | [] => None
  | gc :: rest =>
      if match_ gc =? 0 then gpiochip_scan match_ rest else Some gc
  end.

Definition gpiochip_find (match_ : gpio_chip -> Z) : M (option gpio_chip) :=
  get (fun k => gpiochip_scan match_ (gpio_chips k)).

(** ** Disk activity LEDs on the ICH10R GPIO pins *)

Definition n5550_def_trigger : string := "blkdev".

Definition n5550_ich_gpio_leds_init : list gpio_led :=
  [ {| name := "n5550:green:disk-act-0";
       default_trigger := Some n5550_def_trigger; gpio := 0;
       active_low := 1; default_state := LEDS_GPIO_DEFSTATE_OFF |};
    {| name := "n5550:green:disk-act-1";
       default_trigger := Some n5550_def_trigger; gpio := 0;
       active_low := 1; default_state := LEDS_GPIO_DEFSTATE_OFF |};
    {| name := "n5550:green:disk-act-2";
       default_trigger := Some n5550_def_trigger; gpio := 0;
       active_low := 1; default_state := LEDS_GPIO_DEFSTATE_OFF |};
    {| name := "n5550:green:disk-act-3";
       default_trigger := Some n5550_def_trigger; gpio := 0;
       active_low := 1; default_state := LEDS_GPIO_DEFSTATE_OFF |};
    {| name := "n5550:green:disk-act-4";
       default_trigger := Some n5550_def_trigger; gpio := 0;
       active_low := 1; default_state := LEDS_GPIO_DEFSTATE_OFF |} ].

(** [ARRAY_SIZE(n5550_ich_gpio_leds)], the [num_leds] of the platform data. *)
Definition n5550_ich_gpio_led_data_num_leds : nat :=
  length n5550_ich_gpio_leds_init.

Definition n5550_ich_gpio_led_pdev : platform_device :=
  {| pdev_name := "leds-gpio"; pdev_id := -1 |}.

(** GPIO numbers of LEDS are not contiguous *)
Definition n5550_ich_gpio_led_offsets : list Z := [0; 2; 3; 4; 5].

Definition n5550_match_ich_gpiochip (gc : gpio_chip) : Z :=
  match label gc with
  | None => 0
  | Some l => if strcmp l "gpio_ich" =? 0 then 1 else 0
  end.

Definition n5550_get_ich_gpiobase : M Z :=
  do gc <- gpiochip_find n5550_match_ich_gpiochip;
  match gc with
  | None =>
      do_ pr_warn ("Couldn't find ICH GPIO chip" ++ nl)%string [];
      ret (- ENODEV)
  | Some gc =>
      if base gc <? 0 then
        do_ pr_warn ("ICH GPIO chip has invalid base (%d)" ++ nl)%string [base gc];
        ret (- EINVAL)
      else
        do_ pr_debug ("n5550_board: ICH GPIO base: %d" ++ nl)%string [base gc];
        ret (base gc)
  end.

(** The loop of [n5550_ich_gpio_led_setup]: [n] iterations from index [i]. *)
Definition set_gpio (pin : Z) (l : gpio_led) : gpio_led :=
  {| name := name l; default_trigger := default_trigger l; gpio := pin;
     active_low := active_low l; default_state := default_state l |}.

Fixpoint led_loop (n i : nat) (base : Z) (leds : list gpio_led) : list gpio_led :=
  match n with
  | O => leds
  | S n' =>
      led_loop n' (S i) base
        (alter (set_gpio (u32 (base + default 0 (n5550_ich_gpio_led_offsets !! i))))
               i leds)
  end.

Definition n5550_ich_gpio_led_setup : M Z :=
  do base <- n5550_get_ich_gpiobase;
  if base <? 0 then ret base
  else
    do_ modify (fun k =>
          set_n5550_ich_gpio_leds
            (led_loop n5550_ich_gpio_led_data_num_leds 0 base
                      (n5550_ich_gpio_leds k)) k);
    platform_device_register n5550_ich_gpio_led_pdev.

Definition n5550_ich_gpio_led_cleanup : M unit :=
  platform_device_unregister n5550_ich_gpio_led_pdev.

(** ** The N5550 BIOS does not correctly mark the GPIO pins as usable *)

(** PCI ID of the ICH10R LPC controller; [PCI_VENDOR_ID_INTEL] is the
    value of <linux/pci_ids.h>. *)
Definition PCI_VENDOR_ID_INTEL : Z := 0x8086.
Definition N5550_ICH_PCI_VENDOR : Z := PCI_VENDOR_ID_INTEL.
Definition N5550_ICH_LPC_PCI_DEV : Z := 0x3a16.
Definition N5550_ICH_I2C_PCI_DEV : Z := 0x3a30.

(** PCI configuration registers *)
Definition N5550_ICH_PCI_GPIO_BASE : Z := 0x48.
Definition N5550_ICH_PCI_GPIO_CTRL : Z := 0x4c.

(** I/O port offsets *)
Definition N5550_ICH_GPIO_USE_SEL_0 : Z := 0x00.
Definition N5550_ICH_GPIO_USE_SEL_1 : Z := 0x30.
Definition N5550_ICH_GPIO_USE_SEL_2 : Z := 0x40.

(** Enable GPIO pins 0, 2, 3, 4, 5, 9, 28, and 34 *)
Definition N5550_ICH_GPIO_PINS_0 : Z :=
  Z.lor (Z.shiftl 1 0)
    (Z.lor (Z.shiftl 1 2)
       (Z.lor (Z.shiftl 1 3)
          (Z.lor (Z.shiftl 1 4)
             (Z.lor (Z.shiftl 1 5)
                (Z.lor (Z.shiftl 1 9) (Z.shiftl 1 28)))))).

Definition N5550_ICH_GPIO_PINS_1 : Z := Z.shiftl 1 (34 - 32).

Definition n5550_ich_gpio_setup : M Z :=
  do dev <- pci_get_device N5550_ICH_PCI_VENDOR N5550_ICH_LPC_PCI_DEV;
  match dev with
  | None => ret (- ENODEV)
  | Some dev =>
      do gpio_io_base <- pci_read_config_dword dev N5550_ICH_PCI_GPIO_BASE;
      let gpio_io_base := Z.land gpio_io_base 0x0000ff80 in
      (* Ensure ICH GPIO function is on *)
      do_ pci_write_config_byte dev N5550_ICH_PCI_GPIO_CTRL 0x10;
      do gpio_pins <- inl (u32 (gpio_io_base + N5550_ICH_GPIO_USE_SEL_0));
      let gpio_pins := Z.lor gpio_pins N5550_ICH_GPIO_PINS_0 in
      do_ outl gpio_pins (u32 (gpio_io_base + N5550_ICH_GPIO_USE_SEL_0));
      do gpio_pins <- inl (u32 (gpio_io_base + N5550_ICH_GPIO_USE_SEL_1));
      let gpio_pins := Z.lor gpio_pins N5550_ICH_GPIO_PINS_1 in
      do_ outl gpio_pins (u32 (gpio_io_base + N5550_ICH_GPIO_USE_SEL_1));
      do_ pci_dev_put dev;
      ret 0
  end.

(** ** Other LEDs are controlled by 2 NXP PCA9532 dimmers *)

Definition n5550_pca9532_0_pdata : pca9532_platform_data :=
  {| leds :=
       [ {| led_name := Some "n5550:red:disk-stat-0";
            led_type := PCA9532_TYPE_LED; led_state := PCA9532_OFF |};
         {| led_name := Some "n5550:red:disk-stat-1";
            led_type := PCA9532_TYPE_LED; led_state := PCA9532_OFF |};
         {| led_name := Some "n5550:red:disk-stat-2";
            led_type := PCA9532_TYPE_LED; led_state := PCA9532_OFF |};
         {| led_name := Some "n5550:red:disk-stat-3";
            led_type := PCA9532_TYPE_LED; led_state := PCA9532_OFF |};
         {| led_name := Some "n5550:red:disk-stat-4";
            led_type := PCA9532_TYPE_LED; led_state := PCA9532_OFF |};
         {| led_name := None; led_type := PCA9532_TYPE_NONE; led_state := PCA9532_OFF |};
         {| led_name := None; led_type := PCA9532_TYPE_NONE; led_state := PCA9532_OFF |};
         {| led_name := None; led_type := PCA9532_TYPE_NONE; led_state := PCA9532_OFF |};
         {| led_name := None; led_type := PCA9532_TYPE_NONE; led_state := PCA9532_OFF |};
         {| led_name := None; led_type := PCA9532_TYPE_NONE; led_state := PCA9532_OFF |};
         {| led_name := None; led_type := PCA9532_TYPE_NONE; led_state := PCA9532_OFF |};
         {| led_name := None; led_type := PCA9532_TYPE_NONE; led_state := PCA9532_OFF |};
         {| led_name := None; led_type := PCA9532_TYPE_NONE; led_state := PCA9532_OFF |};
         {| led_name := None; led_type := PCA9532_TYPE_NONE; led_state := PCA9532_OFF |};
         {| led_name := None; led_type := PCA9532_TYPE_NONE; led_state := PCA9532_OFF |};
         {| led_name := None; led_type := PCA9532_TYPE_NONE; led_state := PCA9532_OFF |} ];
     pwm := [0; 0];
     psc := [0; 0] |}.

Definition n5550_pca9532_0_info : i2c_board_info :=
  {| type := "pca9532"; addr := 0x64; platform_data := n5550_pca9532_0_pdata |}.

Definition n5550_pca9532_1_pdata : pca9532_platform_data :=
  {| leds :=
       [ {| led_name := None; led_type := PCA9532_TYPE_GPIO; led_state := PCA9532_OFF |};
         {| led_name := None; led_type := PCA9532_TYPE_GPIO; led_state := PCA9532_OFF |};
         {| led_name := None; led_type := PCA9532_TYPE_GPIO; led_state := PCA9532_OFF |};
         {| led_name := None; led_type := PCA9532_TYPE_GPIO; led_state := PCA9532_OFF |};
         {| led_name := None; led_type := PCA9532_TYPE_NONE; led_state := PCA9532_OFF |};
         {| led_name := None; led_type := PCA9532_TYPE_NONE; led_state := PCA9532_OFF |};
         {| led_name := None; led_type := PCA9532_TYPE_NONE; led_state := PCA9532_OFF |};
         {| led_name := None; led_type := PCA9532_TYPE_NONE; led_state := PCA9532_OFF |};
         {| led_name := None; led_type := PCA9532_TYPE_NONE; led_state := PCA9532_OFF |};
         {| led_name := Some "n5550:orange:busy";
            led_type := PCA9532_TYPE_LED; led_state := PCA9532_OFF |};
         {| led_name := Some "n5550:blue:usb";
            led_type := PCA9532_TYPE_LED; led_state := PCA9532_OFF |};
         {| led_name := None; led_type := PCA9532_TYPE_NONE; led_state := PCA9532_OFF |};
         {| led_name := Some "n5550:red:fail";
            led_type := PCA9532_TYPE_LED; led_state := PCA9532_OFF |};
         {| led_name := None; led_type := PCA9532_TYPE_NONE; led_state := PCA9532_OFF |};
         {| led_name := None; led_type := PCA9532_TYPE_NONE; led_state := PCA9532_OFF |};
         {| led_name := None; led_type := PCA9532_TYPE_GPIO; led_state := PCA9532_OFF |} ];
     pwm := [0; 0];
     psc := [0; 0] |}.

Definition n5550_pca9532_1_info : i2c_board_info :=
  {| type := "pca9532"; addr := 0x62; platform_data := n5550_pca9532_1_pdata |}.

Definition n5550_pca9532_setup : M Z :=
  do dev <- pci_get_device N5550_ICH_PCI_VENDOR N5550_ICH_I2C_PCI_DEV;
  match dev with
  | None => ret (- ENODEV)
  | Some dev =>
      do adapter <- pci_get_drvdata dev;
      match adapter with
      | None =>
          do_ pci_dev_put dev;
          ret (- ENODEV)
      | Some adapter =>
          do got <- try_module_get (owner adapter);
          if negb got then
            do_ pci_dev_put dev;
            ret (- EBUSY)
          else
            do c0 <- i2c_new_client_device adapter n5550_pca9532_0_info;
            do_ modify (set_n5550_pca9532_0_client c0);
            match c0 with
            | NULL =>
                do_ module_put (owner adapter);
                do_ pci_dev_put dev;
                ret (- ENODEV)
            | _ =>
                do c1 <- i2c_new_client_device adapter n5550_pca9532_1_info;
                do_ modify (set_n5550_pca9532_1_client c1);
                match c1 with
                | NULL =>
                    do c <- get n5550_pca9532_0_client;
                    do_ i2c_unregister_device c;
                    do_ module_put (owner adapter);
                    do_ pci_dev_put dev;
                    ret (- ENODEV)
                | _ =>
                    do_ module_put (owner adapter);
                    do_ pci_dev_put dev;
                    ret 0
                end
            end
      end
  end.

Definition n5550_pca9532_cleanup : M unit :=
  do c0 <- get n5550_pca9532_0_client;
  do_ i2c_unregister_device c0;
  do c1 <- get n5550_pca9532_1_client;
  i2c_unregister_device c1.

(** ** Module init and exit *)

Definition n5550_board_init : M Z :=
  do r <- n5550_pca9532_setup;
  if negb (r =? 0) then
    do_ pr_warn ("n5550_pca9532_setup failed (%d)" ++ nl)%string [r];
    ret r
  else
    do r <- n5550_ich_gpio_setup;
    if negb (r =? 0) then
      do_ pr_warn ("n5550_ich_gpio_setup failed (%d)" ++ nl)%string [r];
      (* error: *)
      do_ n5550_pca9532_cleanup;
      ret r
    else
      do r <- n5550_ich_gpio_led_setup;
      if negb (r =? 0) then
        do_ pr_warn ("n5550_ich_gpio_led_setup failed (%d)" ++ nl)%string [r];
        (* error: *)
        do_ n5550_pca9532_cleanup;
        ret r
      else
        ret 0.

Definition n5550_board_exit : M unit :=
  do_ n5550_pca9532_cleanup;
  n5550_ich_gpio_led_cleanup.

(** ** A concrete machine for examples

    An N5550 as the module expects it: the LPC bridge and the SMBus
    controller on the PCI bus, the i801 adapter bound, the ICH GPIO chip
    registered third with base 100. *)
Definition machine (chips : list gpio_chip) (devs : list pci_dev)
    (going : nat -> bool) (failure : Z -> option positive) (pdev_ret : Z)
  : kernel :=
  {| gpio_chips := chips;
     pci_devices := devs;
     pci_refcount := fun _ => 1;
     pci_config := fun _ reg => if reg =? 0x49 then 0x05 else 0;
     io_ports := fun _ => 0;
     module_going := going;
     module_refcount := fun _ => 0;
     i2c_failure := failure;
     i2c_clients := [];
     platform_register_ret := pdev_ret;
     platform_devices := [];
     n5550_ich_gpio_leds := n5550_ich_gpio_leds_init;
     n5550_pca9532_0_client := NULL;
     n5550_pca9532_1_client := NULL |}.

Definition i801 : i2c_adapter := {| owner := 7%nat; nr := 0%nat |}.

Definition n5550_chips : list gpio_chip :=
  [ {| label := Some "other"; base := 0 |};
    {| label := None; base := 32 |};
    {| label := Some "gpio_ich"; base := 100 |} ].

Definition n5550_pci : list pci_dev :=
  [ {| vendor := 0x8086; device := 0x3a30; drvdata := Some i801 |};
    {| vendor := 0x10ec; device := 0x8168; drvdata := None |};
    {| vendor := 0x8086; device := 0x3a16; drvdata := None |} ].

Definition board (chips : list gpio_chip) (devs : list pci_dev) : kernel :=
  machine chips devs (fun _ => false) (fun _ => None) 0.

Definition n5550 : kernel := board n5550_chips n5550_pci.

(** The same machine while the SMBus driver is being removed. *)
Definition n5550_i801_going : kernel :=
  machine n5550_chips n5550_pci (fun _ => true) (fun _ => None) 0.

(** The same machine with bus address 0x62 busy: no client can be created
    there, i2c_new_client_device fails with -EBUSY. *)
Definition n5550_second_refused : kernel :=
  machine n5550_chips n5550_pci (fun _ => false)
          (fun a => if a =? 0x62 then Some 16%positive else None) 0.

(** The N5550 with a second I2C adapter, owned by another module, that
    already has a client at bus address 0x64. *)
Definition other_adapter : i2c_adapter := {| owner := 9%nat; nr := 1%nat |}.

Definition other_client : i2c_client :=
  {| client_adapter := other_adapter; client_type := "eeprom";
     client_addr := 0x64 |}.

Definition n5550_two_buses : kernel := set_i2c_clients [other_client] n5550.

(** An N5550 on which no controller is labelled "gpio_ich". *)
Definition n5550_no_ich : kernel :=
  board [ {| label := Some "other"; base := 0 |};
          {| label := None; base := 32 |} ] n5550_pci.

(** * Vocabulary of the statements *)

(** ** Reading traces *)

Definition is_log (e : event) : bool :=
  match e with
  | ev_pr_warn _ _ | ev_pr_debug _ _ => true
  | _ => false
  end.

(** The controller label the module looks for. *)
Definition is_ich (gc : gpio_chip) : Prop := label gc = Some "gpio_ich".

(** Where the two PCI functions of the chipset are found. *)
Definition lpc_at (k : kernel) : option nat :=
  pci_scan N5550_ICH_PCI_VENDOR N5550_ICH_LPC_PCI_DEV 0 (pci_devices k).

(** The I/O base the fixup works at, from the LPC bridge's configuration. *)
Definition gpio_io_base_of (k : kernel) (dev : nat) : Z :=
  Z.land (config_dword (pci_config k dev) N5550_ICH_PCI_GPIO_BASE) 0x0000ff80.

Definition is_register_write (e : event) : bool :=
  match e with
  | ev_pci_write_config_byte _ _ _ | ev_outl _ _ => true
  | _ => false
  end.

Definition smbus_at (k : kernel) : option nat :=
  pci_scan N5550_ICH_PCI_VENDOR N5550_ICH_I2C_PCI_DEV 0 (pci_devices k).

(** One step of symbolic execution, keeping tables and arithmetic folded. *)
Ltac run_step :=
  cbn -[n5550_pca9532_0_info n5550_pca9532_1_info upd_nat upd_Z Z.add Z.sub
        Z.opp Z.land Z.lor u32 config_dword].

(** Splits a goal about [n5550_pca9532_setup k] into the exits of the
    function, one per outcome of the calls it makes. *)
Ltac pca9532_exits k :=
  unfold n5550_pca9532_setup, pci_get_device, pci_get_drvdata, try_module_get,
    i2c_new_client_device, i2c_unregister_device, module_put, pci_dev_put,
    bind, get, emit, modify, ret;
  fold (smbus_at k);
  let dev := fresh "dev" in
  let pd := fresh "pd" in
  let a := fresh "a" in
  destruct (smbus_at k) as [dev|] eqn:?Hdev; run_step;
  [ destruct (pci_devices k !! dev) as [pd|] eqn:?Hpd; run_step;
    [ destruct (drvdata pd) as [a|] eqn:?Hdrv; run_step;
      [ destruct (module_going k (owner a)) eqn:?Hgoing; run_step;
        [ | destruct (i2c_failure k (addr n5550_pca9532_0_info)) eqn:?Hfail0;
            run_step;
            destruct (i2c_failure k (addr n5550_pca9532_1_info)) eqn:?Hfail1;
            run_step ]
      | ]
    | ]
  | ].

(** ** Reference disciplines on a trace *)

Definition count (p : event -> bool) (t : list event) : nat :=
  length (List.filter p t).

Fixpoint drop_one (x : nat) (l : list nat) : list nat :=
  match l with
  | [] => []
  | y :: l' => if Nat.eqb x y then l' else y :: drop_one x l'
  end.

(** [held_after acq rel held t]: the references held after the calls of
    [t], starting from [held]; [None] when [t] drops a reference that is
    not held at that point. *)
Fixpoint held_after (acq rel : event -> option nat) (held : list nat)
    (t : list event) : option (list nat) :=
  match t with
  | [] => Some held
  | e :: t' =>
      match acq e, rel e with
      | Some x, _ => held_after acq rel (x :: held) t'
      | None, Some x =>
          if existsb (Nat.eqb x) held
          then held_after acq rel (drop_one x held) t'
          else None
      | None, None => held_after acq rel held t'
      end
  end.

Definition pci_acquired (e : event) : option nat :=
  match e with
  | ev_pci_get_device _ _ (Some dev) => Some dev
  | _ => None
  end.

Definition pci_released (e : event) : option nat :=
  match e with
  | ev_pci_dev_put dev => Some dev
  | _ => None
  end.

Definition module_acquired (e : event) : option nat :=
  match e with
  | ev_try_module_get m true => Some m
  | _ => None
  end.

Definition module_released (e : event) : option nat :=
  match e with
  | ev_module_put m => Some m
  | _ => None
  end.



Definition is_i2c_unregister_device (e : event) : bool :=
  match e with
  | ev_i2c_unregister_device _ => true
  | _ => false
  end.

Definition is_some {A} (o : option A) : bool :=
  match o with
  | Some _ => true
  | None => false
  end.

Definition is_platform_device_register (e : event) : bool :=
  match e with
  | ev_platform_device_register _ _ _ => true
  | _ => false
  end.

Definition is_platform_device_unregister (e : event) : bool :=
  match e with
  | ev_platform_device_unregister _ => true
  | _ => false
  end.

Definition failed (fn : string) (err : Z) : event :=
  ev_pr_warn (fn ++ " failed (%d)" ++ nl)%string [err].

(** The clients the set-up leaves in the module's two pointers. *)
Definition pca9532_0_on (a : i2c_adapter) : i2c_client :=
  {| client_adapter := a; client_type := "pca9532"; client_addr := 0x64 |}.

Definition pca9532_1_on (a : i2c_adapter) : i2c_client :=
  {| client_adapter := a; client_type := "pca9532"; client_addr := 0x62 |}.

(** [precedes p q t]: going through [t], a call satisfying [p] is met
    before any call satisfying [q]. *)
Fixpoint precedes (p q : event -> bool) (t : list event) : bool :=
  match t with
  | [] => false
  | e :: t' => if p e then true else if q e then false else precedes p q t'
  end.

(** The tail of a failed init that rolls the dimmers back: the log line
    and the clean-up's two calls, on what the module's two pointers hold. *)
Definition rollback (fn : string) (err : Z) (p0 p1 : i2c_client_ptr)
  : list event :=
  [ failed fn err;
    ev_i2c_unregister_device p0;
    ev_i2c_unregister_device p1 ].

(** The client a pointer points to, if any. *)
Definition client_at (p : i2c_client_ptr) : list i2c_client :=
  match p with
  | ptr c => [c]
  | NULL | ERR_PTR _ => []
  end.

(** The registered clients without the one a pointer points to. *)
Definition unregistered (p : i2c_client_ptr) (l : list i2c_client)
  : list i2c_client :=
  match p with
  | ptr c => List.filter (fun c' => negb (same_client c' c)) l
  | NULL | ERR_PTR _ => l
  end.

(** Every call of [q] in [t] comes after all calls of [p]. *)
Fixpoint all_before (p q : event -> bool) (t : list event) : bool :=
  match t with
  | [] => true
  | e :: t' => if q e then negb (existsb p t') else all_before p q t'
  end.

(** The role of one pin, as the board wiring has it: an LED with its name
    and initial state, a pin of the chip's GPIO function, or nothing. *)
Inductive PinRoleSlot :=
  | Led (led : string) (initial : pca9532_state)
  | MultiplexedGpio (initial : pca9532_state)
  | Absent.

Definition pin_role (l : pca9532_led) : option PinRoleSlot :=
  match led_type l, led_name l with
  | PCA9532_TYPE_LED, Some n => Some (Led n (led_state l))
  | PCA9532_TYPE_GPIO, None => Some (MultiplexedGpio (led_state l))
  | PCA9532_TYPE_NONE, None => Some Absent
  | _, _ => None
  end.

Definition digit (i : nat) : string :=
  String (ascii_of_nat (48 + i)) EmptyString.

(** The role of slot [i] of a table ([None]: no such slot). *)
Definition slot (pdata : pca9532_platform_data) (i : nat)
  : option (option PinRoleSlot) :=
  pin_role <$> (leds pdata !! i).

(** ** The machine as the set-up steps need it *)

(** The SMBus bridge is on the bus with its adapter bound, and the
    adapter's owner can be pinned. *)
Definition smbus_ready (k : kernel) : Prop :=
  exists dev pd a,
    smbus_at k = Some dev /\ pci_devices k !! dev = Some pd /\
    drvdata pd = Some a /\ module_going k (owner a) = false.

(** The machine [k] with i2c_new_client_device failing as [f] says. *)
Definition set_i2c_failure (f : Z -> option positive) (k : kernel) : kernel :=
  {| gpio_chips := gpio_chips k; pci_devices := pci_devices k;
     pci_refcount := pci_refcount k; pci_config := pci_config k;
     io_ports := io_ports k;
     module_going := module_going k; module_refcount := module_refcount k;
     i2c_failure := f; i2c_clients := i2c_clients k;
     platform_register_ret := platform_register_ret k;
     platform_devices := platform_devices k;
     n5550_ich_gpio_leds := n5550_ich_gpio_leds k;
     n5550_pca9532_0_client := n5550_pca9532_0_client k;
     n5550_pca9532_1_client := n5550_pca9532_1_client k |}.

(** What i2c_new_client_device returns for a board info on an adapter. *)
Definition i2c_new_result (k : kernel) (a : i2c_adapter) (info : i2c_board_info)
  : i2c_client_ptr :=
  match i2c_failure k (addr info) with
  | Some errno => ERR_PTR (Z.neg errno)
  | None => ptr {| client_adapter := a; client_type := type info;
                   client_addr := addr info |}
  end.

(** The adapter is bound, but its owner is being removed. *)
Definition smbus_owner_going (k : kernel) : Prop :=
  exists dev pd a,
    smbus_at k = Some dev /\ pci_devices k !! dev = Some pd /\
    drvdata pd = Some a /\ module_going k (owner a) = true.


(** Writes the two bus addresses as numbers, in goal and hypotheses. *)
Ltac fold_addrs :=
  change (addr n5550_pca9532_0_info) with 0x64 in *;
  change (addr n5550_pca9532_1_info) with 0x62 in *.

(** The port an I/O call is made on. *)
Definition port_of (e : event) : option Z :=
  match e with
  | ev_inl port _ | ev_outl _ port => Some port
  | _ => None
  end.

(** The pins named in the comment above [N5550_ICH_GPIO_PINS_0], by the
    bit that stands for them in the first register (pins 0 to 31) and in
    the second (pins 32 to 63). *)
Definition enabled_pins_0 : list Z := [0; 2; 3; 4; 5; 9; 28].
Definition enabled_pins_1 : list Z := [34 - 32].

(** A controller labelled "gpio_ich" is registered, and the first such
    controller has a base that is not negative. *)
Definition ich_gpio_usable (k : kernel) : Prop :=
  exists pre gc post,
    gpio_chips k = pre ++ gc :: post /\
    Forall (fun c => label c <> Some "gpio_ich") pre /\
    label gc = Some "gpio_ich" /\
    0 <= base gc.

(** The N5550 when platform_device_register fails with -ENOMEM. *)
Definition n5550_no_memory : kernel :=
  machine n5550_chips n5550_pci (fun _ => false) (fun _ => None) (-12).

(** A call that neither takes nor drops a reference. *)
Definition neutral (acq rel : event -> option nat) (e : event) : bool :=
  negb (is_some (acq e)) && negb (is_some (rel e)).

Definition is_pr_warn (e : event) : bool :=
  match e with
  | ev_pr_warn _ _ => true
  | _ => false
  end.

(** The names under which init reports a failed step. *)
Definition init_steps : list string :=
  [ "n5550_pca9532_setup"; "n5550_ich_gpio_setup"; "n5550_ich_gpio_led_setup" ].

(** The step and the error code a "<step> failed (%d)" line of init
    names, for a call that is such a line. *)
Definition failed_step (e : event) : option (string * Z) :=
  match e with
  | ev_pr_warn fmt [err] =>
      option_map (fun fn => (fn, err))
        (List.find (fun fn => String.eqb fmt (fn ++ " failed (%d)" ++ nl))
                   init_steps)
  | _ => None
  end.

(** The steps reported as failed in a trace, in order, with their codes. *)
Fixpoint step_failures (t : list event) : list (string * Z) :=
  match t with
  | [] => []
  | e :: t' =>
      match failed_step e with
      | Some s => s :: step_failures t'
      | None => step_failures t'
      end
  end.

(** * Properties *)

(** ** Controller lookup *)

Lemma strcmp_zero (a b : string) : strcmp a b = 0 <-> a = b.
Proof.
  unfold strcmp. split.
  - intro H. apply String.compare_eq_iff.
    destruct (String.compare a b); [reflexivity | discriminate H ..].
  - intros <-. pose proof (String.compare_antisym a a) as H.
    destruct (String.compare a a); [reflexivity | discriminate H ..].
Qed.

Lemma n5550_match_ich_gpiochip_nonzero (gc : gpio_chip) :
  (n5550_match_ich_gpiochip gc =? 0) = false <-> is_ich gc.
Proof.
  unfold n5550_match_ich_gpiochip, is_ich.
  destruct (label gc) as [l|]; [|split; discriminate].
  destruct (strcmp l "gpio_ich" =? 0) eqn:E.
  - apply Z.eqb_eq, strcmp_zero in E. subst l. split; reflexivity.
  - split; [discriminate|]. intros [= ->].
    assert (strcmp "gpio_ich" "gpio_ich" = 0) as H by (apply strcmp_zero; reflexivity).
    apply Z.eqb_eq in H. congruence.
Qed.

Lemma gpiochip_scan_first (l : list gpio_chip) :
  match gpiochip_scan n5550_match_ich_gpiochip l with
  | None => Forall (fun gc => ~ is_ich gc) l
  | Some gc =>
      exists pre post,
        l = pre ++ gc :: post /\ Forall (fun c => ~ is_ich c) pre /\ is_ich gc
  end.
Proof.
  induction l as [|c l IH]; simpl.
  - constructor.
  - destruct (n5550_match_ich_gpiochip c =? 0) eqn:E.
    + assert (~ is_ich c) as Hc.
      { intro H. apply n5550_match_ich_gpiochip_nonzero in H. congruence. }
      destruct (gpiochip_scan n5550_match_ich_gpiochip l) as [gc|].
      * destruct IH as (pre & post & -> & Hpre & Hgc).
        exists (c :: pre), post. repeat split; auto.
      * constructor; auto.
    + exists [], l. repeat split; auto.
      apply n5550_match_ich_gpiochip_nonzero; exact E.
Qed.

(** C3.  Over any sequence of registered controllers the lookup takes the
    first controller labelled "gpio_ich" (a controller with a NULL label is
    passed over like any other non-matching one): with no such controller
    it returns -ENODEV; with a negative base on the matched controller it
    returns -EINVAL; otherwise it returns that base.  The kernel state is
    left as it was, and the only calls made are log messages. *)
Theorem n5550_get_ich_gpiobase_first_match (k : kernel) :
  let r := n5550_get_ich_gpiobase k in
  state r = k /\
  forallb is_log (events r) = true /\
  ( (Forall (fun gc => label gc <> Some "gpio_ich") (gpio_chips k) /\
     value r = - ENODEV)
    \/
    (exists pre gc post,
        gpio_chips k = pre ++ gc :: post /\
        Forall (fun c => label c <> Some "gpio_ich") pre /\
        label gc = Some "gpio_ich" /\
        ( (base gc < 0 /\ value r = - EINVAL) \/
          (0 <= base gc /\ value r = base gc) )) ).
Proof.
  unfold n5550_get_ich_gpiobase, gpiochip_find, bind, get; simpl.
  pose proof (gpiochip_scan_first (gpio_chips k)) as H.
  destruct (gpiochip_scan n5550_match_ich_gpiochip (gpio_chips k)) as [gc|].
  - destruct H as (pre & post & Hl & Hpre & Hgc).
    destruct (base gc <? 0) eqn:Hb; simpl; repeat split; auto; right;
      exists pre, gc, post; repeat split; auto.
    + left. split; [apply Z.ltb_lt; exact Hb | reflexivity].
    + right. split; [apply Z.ltb_ge; exact Hb | reflexivity].
  - simpl. repeat split; auto.
Qed.

(** The lookup on the three controllers "other", NULL, "gpio_ich". *)
Example n5550_get_ich_gpiobase_third :
  value (n5550_get_ich_gpiobase n5550) = 100.
Proof. reflexivity. Qed.

Example n5550_get_ich_gpiobase_invalid_base :
  value (n5550_get_ich_gpiobase
           (board [ {| label := None; base := 7 |};
                    {| label := Some "gpio_ich"; base := -1 |} ] n5550_pci))
  = - EINVAL.
Proof. reflexivity. Qed.

Example n5550_get_ich_gpiobase_no_chip :
  value (n5550_get_ich_gpiobase
           (board [ {| label := None; base := 7 |};
                    {| label := Some "gpio_ic"; base := 3 |} ] n5550_pci))
  = - ENODEV.
Proof. reflexivity. Qed.

(** ** Chipset GPIO fixup *)

Lemma u32_land (z : Z) : u32 z = Z.land z (Z.ones 32).
Proof. unfold u32. symmetry. apply Z.land_ones. lia. Qed.

Lemma u32_range (z : Z) : 0 <= u32 z < 2 ^ 32.
Proof. unfold u32. apply Z.mod_pos_bound. lia. Qed.

Lemma u32_small (z : Z) : 0 <= z < 2 ^ 32 -> u32 z = z.
Proof. intro H. unfold u32. apply Z.mod_small. exact H. Qed.

Lemma u32_lor (a b : Z) : u32 (Z.lor a b) = Z.lor (u32 a) (u32 b).
Proof. rewrite !u32_land. apply Z.land_lor_distr_l. Qed.

Lemma lor_absorb (a m : Z) : Z.lor (Z.lor a m) m = Z.lor a m.
Proof. rewrite <- Z.lor_assoc, Z.lor_diag. reflexivity. Qed.

(** The masked base leaves room for the register offsets. *)
Lemma iobase_range (v : Z) : 0 <= Z.land v 0xff80 < 2 ^ 16.
Proof.
  replace (Z.land v 0xff80) with (Z.land (Z.land v 0xff80) (Z.ones 16)).
  - rewrite Z.land_ones by lia. apply Z.mod_pos_bound. lia.
  - rewrite <- Z.land_assoc. reflexivity.
Qed.

Lemma shiftl_1_bit (n i : Z) :
  0 <= n -> Z.testbit (Z.shiftl 1 n) i = (n =? i).
Proof.
  intro Hn. rewrite Z.shiftl_1_l. apply Z.pow2_bits_eqb. exact Hn.
Qed.

Lemma N5550_ICH_GPIO_PINS_0_value : N5550_ICH_GPIO_PINS_0 = 0x1000023D.
Proof. reflexivity. Qed.

Lemma N5550_ICH_GPIO_PINS_1_value : N5550_ICH_GPIO_PINS_1 = 0x00000004.
Proof. reflexivity. Qed.

Lemma N5550_ICH_GPIO_PINS_0_bits (i : Z) :
  Z.testbit N5550_ICH_GPIO_PINS_0 i = true <-> In i [0; 2; 3; 4; 5; 9; 28].
Proof.
  unfold N5550_ICH_GPIO_PINS_0.
  rewrite !Z.lor_spec, !shiftl_1_bit by lia.
  rewrite !orb_true_iff, !Z.eqb_eq. simpl. intuition lia.
Qed.

Lemma N5550_ICH_GPIO_PINS_1_bits (i : Z) :
  Z.testbit N5550_ICH_GPIO_PINS_1 i = true <-> i = 2.
Proof.
  unfold N5550_ICH_GPIO_PINS_1. rewrite shiftl_1_bit by lia.
  rewrite Z.eqb_eq. simpl. intuition lia.
Qed.

Lemma n5550_ich_gpio_setup_absent (k : kernel) :
  lpc_at k = None ->
  n5550_ich_gpio_setup k =
    (- ENODEV, k,
     [ev_pci_get_device N5550_ICH_PCI_VENDOR N5550_ICH_LPC_PCI_DEV None]).
Proof.
  unfold lpc_at, n5550_ich_gpio_setup, pci_get_device, bind, get, emit, ret.
  intros ->. reflexivity.
Qed.

Lemma upd_Z_same {A} (f : Z -> A) (i : Z) (v : A) : upd_Z f i v i = v.
Proof. unfold upd_Z. rewrite Z.eqb_refl. reflexivity. Qed.

Lemma upd_Z_other {A} (f : Z -> A) (i j : Z) (v : A) :
  j <> i -> upd_Z f i v j = f j.
Proof. intro H. unfold upd_Z. apply Z.eqb_neq in H. rewrite H. reflexivity. Qed.

Lemma upd_nat_same {A} (f : nat -> A) (i : nat) (v : A) : upd_nat f i v i = v.
Proof. unfold upd_nat. rewrite Nat.eqb_refl. reflexivity. Qed.

(** Taking and dropping one reference leaves every count as it was. *)
Lemma upd_nat_inc_dec (f : nat -> Z) (i d : nat) :
  upd_nat (upd_nat f i (f i + 1)) i (upd_nat f i (f i + 1) i - 1) d = f d.
Proof.
  rewrite upd_nat_same. unfold upd_nat.
  destruct (Nat.eqb d i) eqn:E; [|reflexivity].
  apply Nat.eqb_eq in E. subst d. lia.
Qed.

(** *** Dwords in a byte-addressed space *)

Lemma testbit_ff (j : Z) : Z.testbit 0xff j = (0 <=? j) && (j <? 8).
Proof.
  change 0xff with (Z.ones 8).
  destruct (Z.leb_spec 0 j); destruct (Z.ltb_spec j 8); simpl.
  - apply Z.ones_spec_low. lia.
  - apply Z.ones_spec_high. lia.
  - apply Z.testbit_neg_r. lia.
  - apply Z.testbit_neg_r. lia.
Qed.

Lemma byte_shifted_bit (x s i : Z) :
  0 <= s ->
  Z.testbit (Z.shiftl (Z.land x 0xff) s) i
  = (s <=? i) && (i <? s + 8) && Z.testbit x (i - s).
Proof.
  intro Hs.
  destruct (Z.leb_spec s i).
  - rewrite Z.shiftl_spec by lia. rewrite Z.land_spec, testbit_ff.
    replace (0 <=? i - s) with true by (symmetry; apply Z.leb_le; lia).
    destruct (Z.ltb_spec (i - s) 8); destruct (Z.ltb_spec i (s + 8)); try lia;
      simpl; rewrite ?andb_true_r, ?andb_false_r; reflexivity.
  - simpl. destruct (Z.ltb_spec i 0).
    + apply Z.testbit_neg_r. lia.
    + rewrite Z.shiftl_spec by lia. apply Z.testbit_neg_r. lia.
Qed.

Lemma le_dword_bit (mem : Z -> Z) (a i : Z) :
  Z.testbit (le_dword mem a) i
  = (0 <=? i) && (i <? 32) && Z.testbit (mem (a + i / 8)) (i mod 8).
Proof.
  unfold le_dword.
  rewrite <- (Z.shiftl_0_r (Z.land (mem a) 255)).
  rewrite !Z.lor_spec, !byte_shifted_bit by lia.
  destruct (Z.leb_spec 0 i); destruct (Z.ltb_spec i 32); simpl;
    repeat match goal with
      | |- context [?x <=? ?y] => destruct (Z.leb_spec x y); try lia
      | |- context [?x <? ?y] => destruct (Z.ltb_spec x y); try lia
      end; simpl; rewrite ?orb_false_r; try reflexivity.
  all: match goal with
       | |- Z.testbit (?m ?p) ?j = Z.testbit (?m ?q) ?l =>
           replace q with p by (Z.to_euclidean_division_equations; lia);
           replace l with j by (Z.to_euclidean_division_equations; lia);
           reflexivity
       end.
Qed.

Lemma store_dword_at (mem : Z -> Z) (a v q : Z) :
  store_dword mem a v q =
    if (a <=? q) && (q <? a + 4) then byte_of v (q - a) else mem q.
Proof.
  unfold store_dword, upd_Z.
  destruct (Z.eqb_spec q (a + 3)) as [->|H3].
  { replace (a <=? a + 3) with true by (symmetry; apply Z.leb_le; lia).
    replace (a + 3 <? a + 4) with true by (symmetry; apply Z.ltb_lt; lia).
    simpl. f_equal. lia. }
  destruct (Z.eqb_spec q (a + 2)) as [->|H2].
  { replace (a <=? a + 2) with true by (symmetry; apply Z.leb_le; lia).
    replace (a + 2 <? a + 4) with true by (symmetry; apply Z.ltb_lt; lia).
    simpl. f_equal. lia. }
  destruct (Z.eqb_spec q (a + 1)) as [->|H1].
  { replace (a <=? a + 1) with true by (symmetry; apply Z.leb_le; lia).
    replace (a + 1 <? a + 4) with true by (symmetry; apply Z.ltb_lt; lia).
    simpl. f_equal. lia. }
  destruct (Z.eqb_spec q a) as [->|H0].
  { replace (a <=? a) with true by (symmetry; apply Z.leb_le; lia).
    replace (a <? a + 4) with true by (symmetry; apply Z.ltb_lt; lia).
    simpl. f_equal. lia. }
  destruct (Z.leb_spec a q); destruct (Z.ltb_spec q (a + 4)); simpl;
    try reflexivity.
  lia.
Qed.

Lemma byte_of_bit (v i j : Z) :
  0 <= i ->
  Z.testbit (byte_of v i) j = (0 <=? j) && (j <? 8) && Z.testbit v (8 * i + j).
Proof.
  intro Hi. unfold byte_of. rewrite Z.land_spec, testbit_ff.
  destruct (Z.leb_spec 0 j).
  - rewrite Z.shiftr_spec by lia. rewrite Z.add_comm.
    rewrite andb_comm. reflexivity.
  - simpl. apply andb_false_r.
Qed.

Lemma u32_bit (v i : Z) :
  Z.testbit (u32 v) i = (0 <=? i) && (i <? 32) && Z.testbit v i.
Proof.
  unfold u32.
  destruct (Z.leb_spec 0 i); [|apply Z.testbit_neg_r; lia].
  destruct (Z.ltb_spec i 32); simpl.
  - apply Z.mod_pow2_bits_low. lia.
  - apply Z.mod_pow2_bits_high. lia.
Qed.

(** Bits of a dword read after a dword store. *)
Lemma le_dword_store_bit (mem : Z -> Z) (a v p i : Z) :
  Z.testbit (le_dword (store_dword mem a v) p) i
  = (0 <=? i) && (i <? 32) &&
    (if (a <=? p + i / 8) && (p + i / 8 <? a + 4)
     then Z.testbit v (8 * (p + i / 8 - a) + i mod 8)
     else Z.testbit (mem (p + i / 8)) (i mod 8)).
Proof.
  rewrite le_dword_bit, store_dword_at.
  destruct (Z.leb_spec 0 i); [|reflexivity].
  destruct (Z.ltb_spec i 32); [|reflexivity]. simpl.
  destruct ((a <=? p + i / 8) && (p + i / 8 <? a + 4)) eqn:E; [|reflexivity].
  apply andb_true_iff in E. destruct E as [E1 E2].
  apply Z.leb_le in E1. apply Z.ltb_lt in E2.
  rewrite byte_of_bit by lia.
  replace (0 <=? i mod 8) with true
    by (symmetry; apply Z.leb_le; Z.to_euclidean_division_equations; lia).
  replace (i mod 8 <? 8) with true
    by (symmetry; apply Z.ltb_lt; Z.to_euclidean_division_equations; lia).
  reflexivity.
Qed.

Lemma le_dword_store_same (mem : Z -> Z) (a v : Z) :
  le_dword (store_dword mem a v) a = u32 v.
Proof.
  apply Z.bits_inj'. intros i Hi.
  rewrite le_dword_store_bit, u32_bit.
  destruct (Z.leb_spec 0 i); [|lia].
  destruct (Z.ltb_spec i 32); [|reflexivity]. simpl.
  replace ((a <=? a + i / 8) && (a + i / 8 <? a + 4)) with true.
  - f_equal. Z.to_euclidean_division_equations; lia.
  - symmetry. apply andb_true_iff. split; [apply Z.leb_le | apply Z.ltb_lt];
      Z.to_euclidean_division_equations; lia.
Qed.

Lemma le_dword_store_far (mem : Z -> Z) (a v p : Z) :
  p + 4 <= a \/ a + 4 <= p ->
  le_dword (store_dword mem a v) p = le_dword mem p.
Proof.
  intro Hfar. apply Z.bits_inj'. intros i Hi.
  rewrite le_dword_store_bit, le_dword_bit.
  destruct (Z.leb_spec 0 i); [|lia].
  destruct (Z.ltb_spec i 32); [|reflexivity]. simpl.
  replace ((a <=? p + i / 8) && (p + i / 8 <? a + 4)) with false; [reflexivity|].
  symmetry. apply andb_false_iff.
  destruct Hfar; [left; apply Z.leb_gt | right; apply Z.ltb_ge];
    Z.to_euclidean_division_equations; lia.
Qed.

Lemma le_dword_u32 (mem : Z -> Z) (p : Z) : u32 (le_dword mem p) = le_dword mem p.
Proof.
  apply Z.bits_inj'. intros i Hi. rewrite u32_bit, le_dword_bit.
  destruct ((0 <=? i) && (i <? 32)); reflexivity.
Qed.

Lemma le_dword_ext (mem mem' : Z -> Z) (p : Z) :
  (forall q, mem q = mem' q) -> le_dword mem p = le_dword mem' p.
Proof. intro H. unfold le_dword. rewrite !H. reflexivity. Qed.

(** Storing the old dword OR a mask only sets bits, in every dword. *)
Lemma le_dword_store_or_mono (mem : Z -> Z) (a m p i : Z) :
  Z.testbit (le_dword mem p) i = true ->
  Z.testbit (le_dword (store_dword mem a (Z.lor (le_dword mem a) m)) p) i = true.
Proof.
  rewrite le_dword_store_bit, le_dword_bit.
  destruct ((0 <=? i) && (i <? 32)) eqn:Hi; [|discriminate]. simpl.
  intro Hbit.
  destruct ((a <=? p + i / 8) && (p + i / 8 <? a + 4)) eqn:E; [|exact Hbit].
  apply andb_true_iff in E. destruct E as [E1 E2].
  apply Z.leb_le in E1. apply Z.ltb_lt in E2.
  apply andb_true_iff in Hi. destruct Hi as [H0 H32].
  apply Z.leb_le in H0. apply Z.ltb_lt in H32.
  rewrite Z.lor_spec, le_dword_bit. apply orb_true_iff. left.
  replace (0 <=? 8 * (p + i / 8 - a) + i mod 8) with true
    by (symmetry; apply Z.leb_le; Z.to_euclidean_division_equations; lia).
  replace (8 * (p + i / 8 - a) + i mod 8 <? 32) with true
    by (symmetry; apply Z.ltb_lt; Z.to_euclidean_division_equations; lia).
  simpl.
  replace (a + (8 * (p + i / 8 - a) + i mod 8) / 8) with (p + i / 8)
    by (Z.to_euclidean_division_equations; lia).
  replace ((8 * (p + i / 8 - a) + i mod 8) mod 8) with (i mod 8)
    by (Z.to_euclidean_division_equations; lia).
  exact Hbit.
Qed.

(** *** The run of the fixup when the LPC bridge is there *)

Lemma sel_apart (iobase : Z) :
  iobase + N5550_ICH_GPIO_USE_SEL_0 + 4 <= iobase + N5550_ICH_GPIO_USE_SEL_1.
Proof. unfold N5550_ICH_GPIO_USE_SEL_0, N5550_ICH_GPIO_USE_SEL_1. lia. Qed.

Lemma n5550_ich_gpio_setup_present (k : kernel) (dev : nat) :
  lpc_at k = Some dev ->
  let v := config_dword (pci_config k dev) N5550_ICH_PCI_GPIO_BASE in
  let iobase := Z.land v 0xff80 in
  let sel0 := iobase + N5550_ICH_GPIO_USE_SEL_0 in
  let sel1 := iobase + N5550_ICH_GPIO_USE_SEL_1 in
  let pins0 := Z.lor (port_value k sel0) N5550_ICH_GPIO_PINS_0 in
  let pins1 := Z.lor (port_value k sel1) N5550_ICH_GPIO_PINS_1 in
  let r := n5550_ich_gpio_setup k in
  value r = 0 /\
  events r =
    [ ev_pci_get_device N5550_ICH_PCI_VENDOR N5550_ICH_LPC_PCI_DEV (Some dev);
      ev_pci_read_config_dword dev N5550_ICH_PCI_GPIO_BASE v;
      ev_pci_write_config_byte dev N5550_ICH_PCI_GPIO_CTRL 0x10;
      ev_inl sel0 (port_value k sel0);
      ev_outl pins0 sel0;
      ev_inl sel1 (port_value k sel1);
      ev_outl pins1 sel1;
      ev_pci_dev_put dev ] /\
  io_ports (state r)
    = store_dword (store_dword (io_ports k) sel0 pins0) sel1 pins1 /\
  pci_config (state r) =
    upd_nat (pci_config k) dev
      (upd_Z (pci_config k dev) N5550_ICH_PCI_GPIO_CTRL 0x10) /\
  (forall d, pci_refcount (state r) d = pci_refcount k d) /\
  pci_devices (state r) = pci_devices k.
Proof.
  intros Hdev v iobase sel0 sel1 pins0 pins1 r.
  pose proof (iobase_range v) as Hb. fold iobase in Hb.
  assert (u32 sel0 = sel0) as H0.
  { apply u32_small. unfold sel0, N5550_ICH_GPIO_USE_SEL_0. lia. }
  assert (u32 sel1 = sel1) as H1.
  { apply u32_small. unfold sel1, N5550_ICH_GPIO_USE_SEL_1. lia. }
  assert (forall x, le_dword (store_dword (io_ports k) sel0 x) sel1
                    = le_dword (io_ports k) sel1) as Hfar.
  { intro x. apply le_dword_store_far. right. apply sel_apart. }
  subst r. unfold lpc_at in Hdev.
  unfold n5550_ich_gpio_setup, pci_get_device, pci_read_config_dword,
    pci_write_config_byte, inl, outl, pci_dev_put, bind, get, emit, modify, ret.
  rewrite Hdev.
  cbn -[Z.land Z.lor u32 config_dword upd_Z upd_nat le_dword store_dword].
  fold v. fold iobase. fold sel0. fold sel1. rewrite H0, H1.
  unfold port_value in *.
  cbn [io_ports set_io_ports set_pci_config set_pci_refcount].
  rewrite Hfar.
  repeat split. intro d. apply upd_nat_inc_dec.
Qed.

Lemma config_dword_after_ctrl (cfg : Z -> Z) (val : Z) :
  config_dword (upd_Z cfg N5550_ICH_PCI_GPIO_CTRL val) N5550_ICH_PCI_GPIO_BASE
  = config_dword cfg N5550_ICH_PCI_GPIO_BASE.
Proof. reflexivity. Qed.

Lemma pins_u32 (mem : Z -> Z) (p mask : Z) :
  0 <= mask < 2 ^ 32 ->
  u32 (Z.lor (le_dword mem p) mask) = Z.lor (le_dword mem p) mask.
Proof.
  intro H. rewrite u32_lor, le_dword_u32, (u32_small mask) by exact H.
  reflexivity.
Qed.

(** The I/O port space after the fixup, in terms of the space before it. *)
Lemma n5550_ich_gpio_setup_io (k : kernel) (dev : nat) :
  lpc_at k = Some dev ->
  let sel0 := gpio_io_base_of k dev + N5550_ICH_GPIO_USE_SEL_0 in
  let sel1 := gpio_io_base_of k dev + N5550_ICH_GPIO_USE_SEL_1 in
  io_ports (state (n5550_ich_gpio_setup k)) =
    store_dword
      (store_dword (io_ports k) sel0
         (Z.lor (port_value k sel0) N5550_ICH_GPIO_PINS_0))
      sel1 (Z.lor (port_value k sel1) N5550_ICH_GPIO_PINS_1).
Proof.
  intro Hdev.
  destruct (n5550_ich_gpio_setup_present k dev Hdev) as (_ & _ & Hio & _).
  exact Hio.
Qed.

(** The two registers after the fixup. *)
Lemma n5550_ich_gpio_setup_ports (k : kernel) (dev : nat) :
  lpc_at k = Some dev ->
  let k1 := state (n5550_ich_gpio_setup k) in
  let sel0 := gpio_io_base_of k dev + N5550_ICH_GPIO_USE_SEL_0 in
  let sel1 := gpio_io_base_of k dev + N5550_ICH_GPIO_USE_SEL_1 in
  port_value k1 sel0 = Z.lor (port_value k sel0) N5550_ICH_GPIO_PINS_0 /\
  port_value k1 sel1 = Z.lor (port_value k sel1) N5550_ICH_GPIO_PINS_1.
Proof.
  intros Hdev k1 sel0 sel1.
  pose proof (n5550_ich_gpio_setup_io k dev Hdev) as Hio.
  fold k1 sel0 sel1 in Hio.
  pose proof (sel_apart (gpio_io_base_of k dev)) as Hap. fold sel0 sel1 in Hap.
  unfold port_value. rewrite Hio. split.
  - rewrite le_dword_store_far by (left; exact Hap).
    rewrite le_dword_store_same. apply pins_u32.
    rewrite N5550_ICH_GPIO_PINS_0_value. lia.
  - rewrite le_dword_store_same. apply pins_u32.
    rewrite N5550_ICH_GPIO_PINS_1_value. lia.
Qed.

(** Every dword read of the port space keeps the bits it had. *)
Lemma n5550_ich_gpio_setup_keeps_bits (k : kernel) (dev : nat) (p i : Z) :
  lpc_at k = Some dev ->
  Z.testbit (port_value k p) i = true ->
  Z.testbit (port_value (state (n5550_ich_gpio_setup k)) p) i = true.
Proof.
  intros Hdev Hbit.
  pose proof (n5550_ich_gpio_setup_io k dev Hdev) as Hio. cbv zeta in Hio.
  pose proof (sel_apart (gpio_io_base_of k dev)) as Hap.
  unfold port_value in *. rewrite Hio.
  set (sel0 := gpio_io_base_of k dev + N5550_ICH_GPIO_USE_SEL_0) in *.
  set (sel1 := gpio_io_base_of k dev + N5550_ICH_GPIO_USE_SEL_1) in *.
  set (pins0 := Z.lor (le_dword (io_ports k) sel0) N5550_ICH_GPIO_PINS_0).
  rewrite <- (le_dword_store_far (io_ports k) sel0 pins0 sel1)
    by (right; exact Hap).
  apply le_dword_store_or_mono, le_dword_store_or_mono. exact Hbit.
Qed.

(** Dword reads that do not overlap the two registers are unchanged. *)
Lemma n5550_ich_gpio_setup_far (k : kernel) (dev : nat) (p : Z) :
  lpc_at k = Some dev ->
  let sel0 := gpio_io_base_of k dev + N5550_ICH_GPIO_USE_SEL_0 in
  let sel1 := gpio_io_base_of k dev + N5550_ICH_GPIO_USE_SEL_1 in
  p + 4 <= sel0 \/ sel0 + 4 <= p ->
  p + 4 <= sel1 \/ sel1 + 4 <= p ->
  port_value (state (n5550_ich_gpio_setup k)) p = port_value k p.
Proof.
  intros Hdev sel0 sel1 H0 H1.
  pose proof (n5550_ich_gpio_setup_io k dev Hdev) as Hio.
  fold sel0 sel1 in Hio. unfold port_value. rewrite Hio.
  rewrite !le_dword_store_far by assumption. reflexivity.
Qed.

(** A second run finds the same bridge and the same I/O base, and stores
    what is there already. *)
Lemma n5550_ich_gpio_setup_again (k : kernel) (dev : nat) :
  lpc_at k = Some dev ->
  let k1 := state (n5550_ich_gpio_setup k) in
  let k2 := state (n5550_ich_gpio_setup k1) in
  lpc_at k1 = Some dev /\ gpio_io_base_of k1 dev = gpio_io_base_of k dev /\
  (forall q, io_ports k2 q = io_ports k1 q).
Proof.
  intros Hdev k1 k2.
  destruct (n5550_ich_gpio_setup_present k dev Hdev)
    as (_ & _ & _ & Hcfg & _ & Hdevs).
  fold k1 in Hcfg, Hdevs.
  assert (lpc_at k1 = Some dev) as Hdev1
    by (unfold lpc_at; rewrite Hdevs; exact Hdev).
  assert (gpio_io_base_of k1 dev = gpio_io_base_of k dev) as Hbase.
  { unfold gpio_io_base_of. rewrite Hcfg, upd_nat_same.
    rewrite config_dword_after_ctrl. reflexivity. }
  split; [exact Hdev1|]. split; [exact Hbase|].
  intro q.
  pose proof (n5550_ich_gpio_setup_io k dev Hdev) as Hio1. fold k1 in Hio1.
  pose proof (n5550_ich_gpio_setup_io k1 dev Hdev1) as Hio2. fold k2 in Hio2.
  destruct (n5550_ich_gpio_setup_ports k dev Hdev) as (P0 & P1).
  fold k1 in P0, P1.
  cbv zeta in Hio1, Hio2. rewrite Hbase in Hio2.
  rewrite P0, P1, !lor_absorb in Hio2.
  rewrite Hio2, Hio1, !store_dword_at.
  repeat match goal with
    | |- context [if ?c then _ else _] => destruct c
    end; reflexivity.
Qed.

(** C5.  When the fixup runs (the LPC bridge is there), each pin-ownership
    register holds its old value OR the fixed mask afterwards: the first
    mask has exactly the bits 0, 2, 3, 4, 5, 9 and 28 (0x1000023D), the
    second exactly bit 2 (0x00000004); from registers reading 0 the results
    are these masks; a second run on the result changes no register; and
    every bit set before the fixup is set after it. *)
Theorem n5550_ich_gpio_setup_or_mask (k : kernel) (dev : nat)
  (Hdev : pci_scan N5550_ICH_PCI_VENDOR N5550_ICH_LPC_PCI_DEV 0 (pci_devices k)
          = Some dev) :
  let iobase :=
    Z.land (config_dword (pci_config k dev) N5550_ICH_PCI_GPIO_BASE) 0x0000ff80 in
  let sel0 := iobase + N5550_ICH_GPIO_USE_SEL_0 in
  let sel1 := iobase + N5550_ICH_GPIO_USE_SEL_1 in
  let k1 := state (n5550_ich_gpio_setup k) in
  let k2 := state (n5550_ich_gpio_setup k1) in
  port_value k1 sel0 = Z.lor (port_value k sel0) 0x1000023D /\
  port_value k1 sel1 = Z.lor (port_value k sel1) 0x00000004 /\
  (forall i, Z.testbit 0x1000023D i = true <-> In i [0; 2; 3; 4; 5; 9; 28]) /\
  (forall i, Z.testbit 0x00000004 i = true <-> i = 2) /\
  (port_value k sel0 = 0 -> port_value k1 sel0 = 0x1000023D) /\
  (port_value k sel1 = 0 -> port_value k1 sel1 = 0x00000004) /\
  (forall p, port_value k2 p = port_value k1 p) /\
  (forall p i, Z.testbit (port_value k p) i = true ->
               Z.testbit (port_value k1 p) i = true).
Proof.
  intros iobase sel0 sel1 k1 k2.
  fold (lpc_at k) in Hdev. fold (gpio_io_base_of k dev) in iobase.
  destruct (n5550_ich_gpio_setup_ports k dev Hdev) as (E0 & E1).
  fold k1 iobase sel0 sel1 in E0, E1.
  destruct (n5550_ich_gpio_setup_again k dev Hdev) as (_ & _ & Hsame).
  fold k1 k2 in Hsame.
  split; [exact E0|]. split; [exact E1|].
  split; [exact N5550_ICH_GPIO_PINS_0_bits|].
  split; [exact N5550_ICH_GPIO_PINS_1_bits|].
  split; [intro Hz; rewrite E0, Hz; reflexivity|].
  split; [intro Hz; rewrite E1, Hz; reflexivity|].
  split.
  - intro p. unfold port_value. apply le_dword_ext. exact Hsame.
  - intros p i Hbit. apply (n5550_ich_gpio_setup_keeps_bits k dev p i Hdev).
    exact Hbit.
Qed.

Lemma n5550_ich_gpio_setup_or_mask_witness :
  port_value (state (n5550_ich_gpio_setup n5550)) 0x0500 = 0x1000023D /\
  port_value (state (n5550_ich_gpio_setup n5550)) 0x0530 = 0x00000004.
Proof.
  destruct (n5550_ich_gpio_setup_or_mask n5550 2%nat eq_refl)
    as (_ & _ & _ & _ & H0 & H1 & _).
  split; [apply H0 | apply H1]; reflexivity.
Defined.

(** ** PCI lookup and the fixup's failure *)

Lemma pci_scan_none (v d : Z) (l : list pci_dev) (i : nat) :
  pci_scan v d i l = None <->
  Forall (fun pd => ~ (vendor pd = v /\ device pd = d)) l.
Proof.
  revert i. induction l as [|pd l IH]; intro i; simpl.
  - split; [constructor | reflexivity].
  - destruct ((vendor pd =? v) && (device pd =? d)) eqn:E.
    + apply andb_true_iff in E. destruct E as [Ev Ed].
      apply Z.eqb_eq in Ev, Ed. split; [discriminate|].
      intro H. inversion H; subst. tauto.
    + rewrite IH. split.
      * intro H. constructor; [|exact H].
        intros [Ev Ed]. apply Z.eqb_eq in Ev, Ed.
        rewrite Ev, Ed in E. discriminate.
      * intro H. inversion H; assumption.
Qed.

Lemma pci_scan_some (v d : Z) (l : list pci_dev) (i n : nat) :
  pci_scan v d i l = Some n ->
  exists j pd,
    n = (i + j)%nat /\ l !! j = Some pd /\ vendor pd = v /\ device pd = d.
Proof.
  revert i. induction l as [|pd l IH]; intro i; simpl; [discriminate|].
  destruct ((vendor pd =? v) && (device pd =? d)) eqn:E.
  - intros [= <-]. apply andb_true_iff in E. destruct E as [Ev Ed].
    apply Z.eqb_eq in Ev, Ed. exists 0%nat, pd.
    repeat split; auto.
  - intro H. destruct (IH _ H) as (j & pd' & -> & Hj & Hv & Hd).
    exists (S j), pd'. repeat split; auto; lia.
Qed.

(** C8.  The fixup returns -ENODEV exactly when no PCI function with
    Intel's vendor id and device id 0x3a16 is on the bus; in that case it
    has written no configuration register and no I/O port.  Otherwise it
    returns 0, takes the I/O base from the configuration dword at 0x48
    masked with 0x0000ff80, and stores the byte 0x10 at configuration
    offset 0x4c without reading that register first. *)
Theorem n5550_ich_gpio_setup_enodev_iff_absent (k : kernel) :
  let r := n5550_ich_gpio_setup k in
  let absent :=
    Forall (fun pd => ~ (vendor pd = PCI_VENDOR_ID_INTEL /\ device pd = 0x3a16))
           (pci_devices k) in
  (value r = - ENODEV <-> absent) /\
  (absent ->
     existsb is_register_write (events r) = false /\
     pci_config (state r) = pci_config k /\
     io_ports (state r) = io_ports k) /\
  (~ absent ->
     exists dev pd,
       pci_devices k !! dev = Some pd /\
       vendor pd = PCI_VENDOR_ID_INTEL /\ device pd = 0x3a16 /\
       value r = 0 /\
       let v := config_dword (pci_config k dev) 0x48 in
       let iobase := Z.land v 0x0000ff80 in
       events r =
         [ ev_pci_get_device PCI_VENDOR_ID_INTEL 0x3a16 (Some dev);
           ev_pci_read_config_dword dev 0x48 v;
           ev_pci_write_config_byte dev 0x4c 0x10;
           ev_inl (iobase + 0x00) (port_value k (iobase + 0x00));
           ev_outl (Z.lor (port_value k (iobase + 0x00)) 0x1000023D)
                   (iobase + 0x00);
           ev_inl (iobase + 0x30) (port_value k (iobase + 0x30));
           ev_outl (Z.lor (port_value k (iobase + 0x30)) 0x00000004)
                   (iobase + 0x30);
           ev_pci_dev_put dev ] /\
       pci_config (state r) dev 0x4c = 0x10).
Proof.
  intros r absent.
  pose proof (pci_scan_none N5550_ICH_PCI_VENDOR N5550_ICH_LPC_PCI_DEV
                (pci_devices k) 0) as Hnone.
  fold (lpc_at k) in Hnone. change (lpc_at k = None <-> absent) in Hnone.
  destruct (lpc_at k) as [dev|] eqn:Hdev.
  - assert (~ absent) as Hpresent.
    { intro Ha. apply Hnone in Ha. discriminate. }
    destruct (n5550_ich_gpio_setup_present k dev Hdev)
      as (Hv & Hev & _ & Hcfg & _).
    fold r in Hv, Hev, Hcfg.
    split; [|split].
    + rewrite Hv. split; [discriminate | intro; contradiction].
    + intro; contradiction.
    + intros _. apply pci_scan_some in Hdev.
      destruct Hdev as (j & pd & -> & Hj & Hvd & Hdd).
      exists j, pd. simpl Nat.add in *.
      repeat split; auto.
      rewrite Hcfg, upd_nat_same. apply upd_Z_same.
  - assert absent as Ha by (apply Hnone; reflexivity).
    pose proof (n5550_ich_gpio_setup_absent k Hdev) as Hr. fold r in Hr.
    rewrite Hr. split; [|split].
    + split; auto.
    + intros _. repeat split.
    + intro; contradiction.
Qed.

Lemma n5550_ich_gpio_setup_enodev_iff_absent_witness :
  value (n5550_ich_gpio_setup (board n5550_chips [])) = - ENODEV /\
  existsb is_register_write
          (events (n5550_ich_gpio_setup (board n5550_chips []))) = false.
Proof.
  destruct (n5550_ich_gpio_setup_enodev_iff_absent (board n5550_chips []))
    as ([_ Hv] & Hw & _).
  split; [apply Hv; constructor | apply Hw; constructor].
Defined.

Example n5550_ich_gpio_setup_on_n5550 :
  value (n5550_ich_gpio_setup n5550) = 0 /\
  pci_config (state (n5550_ich_gpio_setup n5550)) 2%nat 0x4c = 0x10.
Proof. split; reflexivity. Qed.

Example n5550_ich_gpio_setup_without_lpc :
  value (n5550_ich_gpio_setup (board n5550_chips [])) = - ENODEV /\
  events (n5550_ich_gpio_setup (board n5550_chips [])) =
    [ev_pci_get_device 0x8086 0x3a16 None].
Proof. split; reflexivity. Qed.

(** ** PCA9532 set-up *)




(** C6.  What the set-up does when registration of the second chip fails:
    with the SMBus adapter there, its owner pinned and the client at 0x64
    created, i2c_new_client_device fails at 0x62 and hands back
    [ERR_PTR(-errno)].  The set-up tests that result against NULL only, so
    it goes on as after a success: it returns 0, not -ENODEV; it does not
    call i2c_unregister_device, and the client at 0x64 stays registered;
    its second pointer holds the error pointer.  The owner's reference is
    still dropped once. *)
Theorem n5550_pca9532_setup_second_fails
  (k : kernel) (dev : nat) (pd : pci_dev) (a : i2c_adapter) (errno : positive)
  (Hdev : pci_scan N5550_ICH_PCI_VENDOR N5550_ICH_I2C_PCI_DEV 0 (pci_devices k)
          = Some dev)
  (Hpd : pci_devices k !! dev = Some pd)
  (Hdrv : drvdata pd = Some a)
  (Hlive : module_going k (owner a) = false)
  (Hfirst : i2c_failure k 0x64 = None)
  (Hsecond : i2c_failure k 0x62 = Some errno) :
  let r := n5550_pca9532_setup k in
  let c0 := {| client_adapter := a; client_type := "pca9532";
               client_addr := 0x64 |} in
  value r = 0 /\
  events r =
    [ ev_pci_get_device N5550_ICH_PCI_VENDOR N5550_ICH_I2C_PCI_DEV (Some dev);
      ev_try_module_get (owner a) true;
      ev_i2c_new_client_device a n5550_pca9532_0_info (ptr c0);
      ev_i2c_new_client_device a n5550_pca9532_1_info (ERR_PTR (Z.neg errno));
      ev_module_put (owner a);
      ev_pci_dev_put dev ] /\
  count is_i2c_unregister_device (events r) = 0%nat /\
  count (fun e => is_some (module_released e)) (events r) = 1%nat /\
  i2c_clients (state r) = c0 :: i2c_clients k /\
  n5550_pca9532_0_client (state r) = ptr c0 /\
  n5550_pca9532_1_client (state r) = ERR_PTR (Z.neg errno).
Proof.
  intros r c0. subst r.
  change 0x64 with (addr n5550_pca9532_0_info) in Hfirst.
  change 0x62 with (addr n5550_pca9532_1_info) in Hsecond.
  unfold n5550_pca9532_setup, pci_get_device, pci_get_drvdata, try_module_get,
    i2c_new_client_device, i2c_unregister_device, module_put, pci_dev_put,
    bind, get, emit, modify, ret.
  rewrite Hdev; run_step. rewrite Hpd; run_step. rewrite Hdrv; run_step.
  rewrite Hlive; run_step. rewrite Hfirst; run_step. rewrite Hsecond; run_step.
  unfold events, state, value, count; cbn [fst snd].
  repeat split.
Qed.

Lemma n5550_pca9532_setup_second_fails_witness :
  value (n5550_pca9532_setup n5550_second_refused) = 0 /\
  count is_i2c_unregister_device
        (events (n5550_pca9532_setup n5550_second_refused)) = 0%nat /\
  i2c_clients (state (n5550_pca9532_setup n5550_second_refused))
    = [pca9532_0_on i801] /\
  n5550_pca9532_1_client (state (n5550_pca9532_setup n5550_second_refused))
    = ERR_PTR (- EBUSY).
Proof.
  destruct (n5550_pca9532_setup_second_fails n5550_second_refused 0%nat
              {| vendor := 0x8086; device := 0x3a30; drvdata := Some i801 |}
              i801 16%positive eq_refl eq_refl eq_refl eq_refl eq_refl eq_refl)
    as (Hv & _ & Hu & _ & Hc & _ & Hp).
  repeat split; assumption.
Defined.

(** ** Disk activity LED set-up *)

(** The loop writes the five pins and nothing else. *)
Lemma led_loop_pins (b : Z) (leds : list gpio_led) :
  length leds = 5%nat ->
  map gpio (led_loop 5 0 b leds)
    = [u32 (b + 0); u32 (b + 2); u32 (b + 3); u32 (b + 4); u32 (b + 5)] /\
  map name (led_loop 5 0 b leds) = map name leds /\
  map default_trigger (led_loop 5 0 b leds) = map default_trigger leds /\
  map active_low (led_loop 5 0 b leds) = map active_low leds /\
  map default_state (led_loop 5 0 b leds) = map default_state leds.
Proof.
  intro Hlen.
  destruct leds as [|l0 [|l1 [|l2 [|l3 [|l4 [|l5 leds]]]]]]; try discriminate Hlen.
  repeat split.
Qed.

(** What the lookup leaves behind: the same state and only log lines. *)
Lemma n5550_get_ich_gpiobase_pure (k : kernel) :
  state (n5550_get_ich_gpiobase k) = k /\
  forallb is_log (events (n5550_get_ich_gpiobase k)) = true.
Proof.
  unfold n5550_get_ich_gpiobase, gpiochip_find, bind, get; simpl.
  destruct (gpiochip_scan n5550_match_ich_gpiochip (gpio_chips k)) as [gc|];
    [destruct (base gc <? 0)|]; split; reflexivity.
Qed.

Lemma count_logs (p : event -> bool) (t : list event) :
  (forall e, is_log e = true -> p e = false) ->
  forallb is_log t = true -> count p t = 0%nat.
Proof.
  intros Hp. unfold count. induction t as [|e t IH]; simpl; [reflexivity|].
  intro H. apply andb_true_iff in H. destruct H as [He Ht].
  rewrite (Hp e He). apply IH. exact Ht.
Qed.

Lemma n5550_ich_gpio_led_setup_unfold (k : kernel) :
  let g := n5550_get_ich_gpiobase k in
  n5550_ich_gpio_led_setup k =
    if value g <? 0 then (value g, k, events g)
    else
      let leds := led_loop 5 0 (value g) (n5550_ich_gpio_leds k) in
      let k1 := set_n5550_ich_gpio_leds leds k in
      let ret := platform_register_ret k in
      (ret,
       if ret =? 0
       then set_platform_devices (n5550_ich_gpio_led_pdev :: platform_devices k) k1
       else k1,
       events g ++ [ev_platform_device_register n5550_ich_gpio_led_pdev leds ret]).
Proof.
  intro g. pose proof (n5550_get_ich_gpiobase_pure k) as [Hs _]. fold g in Hs.
  unfold n5550_ich_gpio_led_setup, bind. fold g.
  destruct g as [[b kg] eg]. unfold state, value, events in *. cbn [fst snd] in *.
  subst kg. destruct (b <? 0).
  - unfold ret. rewrite app_nil_r. reflexivity.
  - unfold platform_device_register, modify, bind, get, emit, ret.
    cbn [n5550_ich_gpio_leds platform_register_ret set_n5550_ich_gpio_leds].
    destruct (platform_register_ret k =? 0); reflexivity.
Qed.

(** C4.  With the five-entry LED table and a lookup result [b] in the range
    of an int: when [b] is negative the set-up returns [b], calls
    platform_device_register not at all and leaves the table and the
    registered platform devices alone; when [b] is not negative the pins of
    the five LEDs are b+0, b+2, b+3, b+4, b+5 (the offsets are 0, 2, 3, 4,
    5), the only call after the lookup is platform_device_register, which is
    handed the table with these pins already in it, and its result is
    returned. *)
Theorem n5550_ich_gpio_led_setup_pins (k : kernel)
  (Hleds : length (n5550_ich_gpio_leds k) = 5%nat)
  (Hint : - 2 ^ 31 <= value (n5550_get_ich_gpiobase k) < 2 ^ 31) :
  let b := value (n5550_get_ich_gpiobase k) in
  let r := n5550_ich_gpio_led_setup k in
  n5550_ich_gpio_led_offsets = [0; 2; 3; 4; 5] /\
  (b < 0 ->
     value r = b /\
     count is_platform_device_register (events r) = 0%nat /\
     n5550_ich_gpio_leds (state r) = n5550_ich_gpio_leds k /\
     platform_devices (state r) = platform_devices k) /\
  (0 <= b ->
     map gpio (n5550_ich_gpio_leds (state r)) = [b + 0; b + 2; b + 3; b + 4; b + 5] /\
     map name (n5550_ich_gpio_leds (state r)) = map name (n5550_ich_gpio_leds k) /\
     exists pdata,
       map gpio pdata = [b + 0; b + 2; b + 3; b + 4; b + 5] /\
       events r = events (n5550_get_ich_gpiobase k) ++
                  [ev_platform_device_register
                     {| pdev_name := "leds-gpio"; pdev_id := -1 |} pdata
                     (platform_register_ret k)] /\
       count is_platform_device_register (events (n5550_get_ich_gpiobase k)) = 0%nat /\
       value r = platform_register_ret k).
Proof.
  intros b r. subst r. rewrite n5550_ich_gpio_led_setup_unfold. cbv zeta.
  fold b. pose proof (n5550_get_ich_gpiobase_pure k) as [_ Hlog].
  assert (count is_platform_device_register (events (n5550_get_ich_gpiobase k))
          = 0%nat) as Hnone.
  { apply count_logs; [|exact Hlog]. intros [] He; try discriminate He; reflexivity. }
  split; [reflexivity|]. split.
  - intro Hneg. apply Z.ltb_lt in Hneg. rewrite Hneg.
    unfold value, state, events; cbn [fst snd]. repeat split. exact Hnone.
  - intro Hpos. pose proof Hpos as Hge. apply Z.ltb_ge in Hge. rewrite Hge.
    destruct (led_loop_pins b (n5550_ich_gpio_leds k) Hleds) as (Hg & Hn & _).
    rewrite !u32_small in Hg by (fold b in Hint; lia).
    unfold value, state, events; cbn [fst snd].
    split; [|split].
    + destruct (platform_register_ret k =? 0); exact Hg.
    + destruct (platform_register_ret k =? 0); exact Hn.
    + exists (led_loop 5 0 b (n5550_ich_gpio_leds k)). repeat split; auto.
Qed.

Lemma n5550_ich_gpio_led_setup_pins_witness :
  map gpio (n5550_ich_gpio_leds (state (n5550_ich_gpio_led_setup n5550)))
  = [100; 102; 103; 104; 105].
Proof.
  assert (length (n5550_ich_gpio_leds n5550) = 5%nat) as Hleds by reflexivity.
  assert (- 2 ^ 31 <= value (n5550_get_ich_gpiobase n5550) < 2 ^ 31) as Hint
    by (vm_compute; split; [discriminate | reflexivity]).
  destruct (n5550_ich_gpio_led_setup_pins n5550 Hleds Hint) as (_ & _ & H).
  destruct H as (Hpins & _); [vm_compute; discriminate | exact Hpins].
Defined.

(** ** Module init and exit: the order of the steps *)

Lemma bind_run {A B} (m : M A) (f : A -> M B) (k : kernel) :
  bind m f k =
    (value (f (value (m k)) (state (m k))),
     state (f (value (m k)) (state (m k))),
     events (m k) ++ events (f (value (m k)) (state (m k)))).
Proof.
  unfold bind, value, state, events.
  destruct (m k) as [[a k1] e1]. cbn [fst snd].
  destruct (f a k1) as [[b k2] e2]. reflexivity.
Qed.

Lemma n5550_board_init_unfold (k : kernel) :
  let r1 := n5550_pca9532_setup k in
  let r2 := n5550_ich_gpio_setup (state r1) in
  let r3 := n5550_ich_gpio_led_setup (state r2) in
  n5550_board_init k =
    if negb (value r1 =? 0) then
      (value r1, state r1, events r1 ++ [failed "n5550_pca9532_setup" (value r1)])
    else if negb (value r2 =? 0) then
      let rc := n5550_pca9532_cleanup (state r2) in
      (value r2, state rc,
       events r1 ++ events r2 ++
       failed "n5550_ich_gpio_setup" (value r2) :: events rc)
    else if negb (value r3 =? 0) then
      let rc := n5550_pca9532_cleanup (state r3) in
      (value r3, state rc,
       events r1 ++ events r2 ++ events r3 ++
       failed "n5550_ich_gpio_led_setup" (value r3) :: events rc)
    else
      (0, state r3, events r1 ++ events r2 ++ events r3).
Proof.
  intros r1 r2 r3. unfold n5550_board_init. rewrite bind_run. fold r1.
  destruct (negb (value r1 =? 0)); [reflexivity|].
  rewrite bind_run. fold r2.
  destruct (negb (value r2 =? 0)).
  - rewrite !bind_run. unfold ret, pr_warn, emit.
    cbn [value state events fst snd]. rewrite app_nil_r. reflexivity.
  - rewrite bind_run. fold r3.
    destruct (negb (value r3 =? 0)).
    + rewrite !bind_run. unfold ret, pr_warn, emit.
      cbn [value state events fst snd]. rewrite app_nil_r. reflexivity.
    + unfold ret. cbn [value state events fst snd].
      rewrite app_nil_r. reflexivity.
Qed.

(** *** Clients and pointers *)

Lemma same_client_eq (c c' : i2c_client) : same_client c c' = true <-> c = c'.
Proof.
  unfold same_client. rewrite !andb_true_iff, !Nat.eqb_eq, String.eqb_eq, Z.eqb_eq.
  destruct c as [[o n] t a], c' as [[o' n'] t' a']. simpl. split.
  - intros [[[-> ->] ->] ->]. reflexivity.
  - intros [= -> -> -> ->]. auto.
Qed.

Lemma same_client_refl (c : i2c_client) : same_client c c = true.
Proof. apply same_client_eq. reflexivity. Qed.

Lemma unregistered_sub (p : i2c_client_ptr) (l : list i2c_client)
    (c : i2c_client) :
  In c (unregistered p l) -> In c l.
Proof.
  destruct p as [| |c']; simpl; auto.
  intro H. apply filter_In in H. tauto.
Qed.

Lemma unregistered_keeps (p : i2c_client_ptr) (l : list i2c_client)
    (c : i2c_client) :
  In c l -> ~ In c (client_at p) -> In c (unregistered p l).
Proof.
  destruct p as [| |c']; simpl; auto.
  intros Hin Hne. apply filter_In. split; [exact Hin|].
  apply negb_true_iff. destruct (same_client c c') eqn:E; [|reflexivity].
  apply same_client_eq in E. subst c'. tauto.
Qed.

Lemma unregistered_gone (p : i2c_client_ptr) (l : list i2c_client)
    (c : i2c_client) :
  In c (client_at p) -> ~ In c (unregistered p l).
Proof.
  destruct p as [| |c']; simpl; try tauto.
  intros [->|[]] H. apply filter_In in H. destruct H as [_ H].
  rewrite same_client_refl in H. discriminate H.
Qed.

Lemma unregistered_new (p : i2c_client_ptr) (l : list i2c_client) :
  Forall (fun c => ~ In c (client_at p)) l ->
  unregistered p (client_at p ++ l) = l.
Proof.
  intro H. destruct p as [| |c']; simpl; try reflexivity.
  rewrite same_client_refl. simpl.
  induction H as [|c l Hc _ IH]; simpl; [reflexivity|].
  destruct (same_client c c') eqn:E.
  - apply same_client_eq in E. subst c'. simpl in Hc. tauto.
  - simpl. rewrite IH. reflexivity.
Qed.

Lemma unregistered_app (p : i2c_client_ptr) (l1 l2 : list i2c_client) :
  unregistered p (l1 ++ l2) = unregistered p l1 ++ unregistered p l2.
Proof. destruct p; simpl; try reflexivity. apply List.filter_app. Qed.

Lemma unregistered_id (p : i2c_client_ptr) (l : list i2c_client) :
  Forall (fun c => ~ In c (client_at p)) l -> unregistered p l = l.
Proof.
  intro H. rewrite <- (unregistered_new p l H) at 2.
  rewrite unregistered_app.
  replace (unregistered p (client_at p)) with (@nil i2c_client); [reflexivity|].
  destruct p as [| |c]; simpl; try reflexivity.
  rewrite same_client_refl. reflexivity.
Qed.

Lemma n5550_pca9532_cleanup_run (k : kernel) :
  events (n5550_pca9532_cleanup k) =
    [ ev_i2c_unregister_device (n5550_pca9532_0_client k);
      ev_i2c_unregister_device (n5550_pca9532_1_client k) ] /\
  i2c_clients (state (n5550_pca9532_cleanup k)) =
    unregistered (n5550_pca9532_1_client k)
      (unregistered (n5550_pca9532_0_client k) (i2c_clients k)) /\
  platform_devices (state (n5550_pca9532_cleanup k)) = platform_devices k.
Proof.
  unfold n5550_pca9532_cleanup, i2c_unregister_device, bind, get, emit, modify,
    ret, events, state.
  destruct (n5550_pca9532_0_client k); cbn;
    destruct (n5550_pca9532_1_client k); cbn; repeat split.
Qed.

(** After the clean-up no client the two pointers point to is registered. *)
Lemma n5550_pca9532_cleanup_gone (k : kernel) (c : i2c_client) :
  In c (client_at (n5550_pca9532_0_client k) ++
        client_at (n5550_pca9532_1_client k)) ->
  ~ In c (i2c_clients (state (n5550_pca9532_cleanup k))).
Proof.
  destruct (n5550_pca9532_cleanup_run k) as (_ & Hcl & _). rewrite Hcl.
  intros Hin H. apply in_app_iff in Hin. destruct Hin as [Hin|Hin].
  - apply unregistered_sub in H. revert H. apply unregistered_gone. exact Hin.
  - revert H. apply unregistered_gone. exact Hin.
Qed.

(** A set-up that returned 0 has found an adapter, and the module's two
    pointers hold what the two registrations on it returned. *)
Lemma n5550_pca9532_setup_up (k : kernel) :
  value (n5550_pca9532_setup k) = 0 ->
  exists a,
    n5550_pca9532_0_client (state (n5550_pca9532_setup k))
      = i2c_new_result k a n5550_pca9532_0_info /\
    n5550_pca9532_1_client (state (n5550_pca9532_setup k))
      = i2c_new_result k a n5550_pca9532_1_info /\
    i2c_clients (state (n5550_pca9532_setup k))
      = client_at (i2c_new_result k a n5550_pca9532_1_info) ++
        client_at (i2c_new_result k a n5550_pca9532_0_info) ++ i2c_clients k.
Proof.
  unfold i2c_new_result.
  pca9532_exits k; unfold value, state; cbn [fst snd]; intro H;
    try (vm_compute in H; discriminate H);
    exists a; rewrite ?Hfail0, ?Hfail1; repeat split.
Qed.

Lemma n5550_ich_gpio_setup_frame (k : kernel) :
  let k' := state (n5550_ich_gpio_setup k) in
  n5550_pca9532_0_client k' = n5550_pca9532_0_client k /\
  n5550_pca9532_1_client k' = n5550_pca9532_1_client k /\
  i2c_clients k' = i2c_clients k /\
  platform_devices k' = platform_devices k.
Proof.
  unfold n5550_ich_gpio_setup, pci_get_device, pci_read_config_dword,
    pci_write_config_byte, inl, outl, pci_dev_put, bind, get, emit, modify, ret.
  destruct (pci_scan N5550_ICH_PCI_VENDOR N5550_ICH_LPC_PCI_DEV 0
              (pci_devices k)); repeat split.
Qed.

Lemma n5550_ich_gpio_led_setup_frame (k : kernel) :
  let k' := state (n5550_ich_gpio_led_setup k) in
  n5550_pca9532_0_client k' = n5550_pca9532_0_client k /\
  n5550_pca9532_1_client k' = n5550_pca9532_1_client k /\
  i2c_clients k' = i2c_clients k.
Proof.
  rewrite n5550_ich_gpio_led_setup_unfold. cbv zeta.
  destruct (value (n5550_get_ich_gpiobase k) <? 0); [repeat split|].
  destruct (platform_register_ret k =? 0); repeat split.
Qed.

(** C2.  With [r1], [r2], [r3] the runs of the PCA9532 set-up, the GPIO
    fixup and the LED set-up in this order: when [r1] fails, init returns
    its code and makes no call after it but the log line (no clean-up);
    when [r1] succeeds and [r2] fails, or [r1] and [r2] succeed and [r3]
    fails, init returns the failing step's code, and its last calls after
    that step are the log line and the clean-up's two
    i2c_unregister_device calls, on the module's two pointers; these hold
    what the registrations at 0x64 and 0x62 returned, and no client they
    point to is registered at the return. *)
Theorem n5550_board_init_rollback (k : kernel) :
  let r := n5550_board_init k in
  let r1 := n5550_pca9532_setup k in
  let r2 := n5550_ich_gpio_setup (state r1) in
  let r3 := n5550_ich_gpio_led_setup (state r2) in
  let p0 := n5550_pca9532_0_client (state r1) in
  let p1 := n5550_pca9532_1_client (state r1) in
  let rolled_back (steps : list event) (fn : string) (err : Z) :=
    value r = err /\
    events r = steps ++ rollback fn err p0 p1 /\
    (exists a, p0 = i2c_new_result k a n5550_pca9532_0_info /\
               p1 = i2c_new_result k a n5550_pca9532_1_info) /\
    (forall c, In c (client_at p0 ++ client_at p1) ->
               ~ In c (i2c_clients (state r))) in
  (value r1 <> 0 ->
     value r = value r1 /\
     events r = events r1 ++ [failed "n5550_pca9532_setup" (value r1)] /\
     state r = state r1) /\
  (value r1 = 0 -> value r2 <> 0 ->
     rolled_back (events r1 ++ events r2) "n5550_ich_gpio_setup" (value r2)) /\
  (value r1 = 0 -> value r2 = 0 -> value r3 <> 0 ->
     rolled_back (events r1 ++ events r2 ++ events r3)
                 "n5550_ich_gpio_led_setup" (value r3)).
Proof.
  intros r r1 r2 r3 p0 p1 rolled_back. subst rolled_back r. cbv beta.
  rewrite n5550_board_init_unfold. cbv zeta. fold r1. fold r2. fold r3.
  split; [|split].
  - intro H1. apply Z.eqb_neq in H1. rewrite H1. repeat split.
  - intros H1 H2. rewrite H1. apply Z.eqb_neq in H2. rewrite H2.
    cbn [negb Z.eqb value state events fst snd].
    destruct (n5550_pca9532_setup_up k H1) as (a & Hc0 & Hc1 & _).
    fold r1 in Hc0, Hc1. fold p0 in Hc0. fold p1 in Hc1.
    destruct (n5550_ich_gpio_setup_frame (state r1)) as (F0 & F1 & _).
    fold r2 p0 in F0. fold r2 p1 in F1.
    destruct (n5550_pca9532_cleanup_run (state r2)) as (Hev & _).
    pose proof (n5550_pca9532_cleanup_gone (state r2)) as Hgone.
    rewrite F0, F1 in Hev, Hgone.
    split; [reflexivity|]. split; [|split].
    + rewrite Hev, <- !app_assoc. reflexivity.
    + exists a. split; assumption.
    + exact Hgone.
  - intros H1 H2 H3. rewrite H1, H2. apply Z.eqb_neq in H3. rewrite H3.
    cbn [negb Z.eqb value state events fst snd].
    destruct (n5550_pca9532_setup_up k H1) as (a & Hc0 & Hc1 & _).
    fold r1 in Hc0, Hc1. fold p0 in Hc0. fold p1 in Hc1.
    destruct (n5550_ich_gpio_setup_frame (state r1)) as (F0 & F1 & _).
    fold r2 p0 in F0. fold r2 p1 in F1.
    destruct (n5550_ich_gpio_led_setup_frame (state r2)) as (G0 & G1 & _).
    fold r3 in G0, G1. rewrite F0 in G0. rewrite F1 in G1.
    destruct (n5550_pca9532_cleanup_run (state r3)) as (Hev & _).
    pose proof (n5550_pca9532_cleanup_gone (state r3)) as Hgone.
    rewrite G0, G1 in Hev, Hgone.
    split; [reflexivity|]. split; [|split].
    + rewrite Hev, <- !app_assoc. reflexivity.
    + exists a. split; assumption.
    + exact Hgone.
Qed.

Lemma n5550_board_init_rollback_witness :
  value (n5550_board_init n5550_no_ich) = - ENODEV /\
  ~ In (pca9532_0_on i801) (i2c_clients (state (n5550_board_init n5550_no_ich))) /\
  platform_devices (state (n5550_board_init n5550_no_ich)) = [].
Proof.
  destruct (n5550_board_init_rollback n5550_no_ich) as (_ & _ & H).
  destruct H as (Hv & _ & _ & Hgone);
    [reflexivity | reflexivity | discriminate |].
  split; [rewrite Hv; reflexivity|]. split; [|reflexivity].
  apply Hgone. left. reflexivity.
Defined.

(** A failed init on a machine where another adapter has a client at 0x64
    too: the module's own clients go, the other adapter's client stays. *)
Example n5550_board_init_rollback_two_buses :
  value (n5550_board_init (set_i2c_clients [other_client] n5550_no_ich))
    = - ENODEV /\
  i2c_clients (state (n5550_board_init
                        (set_i2c_clients [other_client] n5550_no_ich)))
    = [other_client].
Proof. split; reflexivity. Qed.

Lemma n5550_board_init_up (k : kernel) :
  value (n5550_board_init k) = 0 ->
  let r1 := n5550_pca9532_setup k in
  let r2 := n5550_ich_gpio_setup (state r1) in
  let r3 := n5550_ich_gpio_led_setup (state r2) in
  value r1 = 0 /\ value r2 = 0 /\ value r3 = 0 /\
  state (n5550_board_init k) = state r3 /\
  events (n5550_board_init k) = events r1 ++ events r2 ++ events r3.
Proof.
  intros H r1 r2 r3. rewrite n5550_board_init_unfold in H |- *.
  cbv zeta in H |- *. fold r1 r2 r3 in H |- *.
  destruct (value r1 =? 0) eqn:E1; cbn [negb] in H |- *;
    [apply Z.eqb_eq in E1 | apply Z.eqb_neq in E1; contradiction].
  destruct (value r2 =? 0) eqn:E2; cbn [negb] in H |- *;
    [apply Z.eqb_eq in E2 | apply Z.eqb_neq in E2; contradiction].
  destruct (value r3 =? 0) eqn:E3; cbn [negb] in H |- *;
    [apply Z.eqb_eq in E3 | apply Z.eqb_neq in E3; contradiction].
  repeat split; assumption.
Qed.

Lemma n5550_board_exit_run (k : kernel) :
  events (n5550_board_exit k) =
    [ ev_i2c_unregister_device (n5550_pca9532_0_client k);
      ev_i2c_unregister_device (n5550_pca9532_1_client k);
      ev_platform_device_unregister n5550_ich_gpio_led_pdev ] /\
  i2c_clients (state (n5550_board_exit k))
    = i2c_clients (state (n5550_pca9532_cleanup k)) /\
  platform_devices (state (n5550_board_exit k))
    = List.filter (fun p => negb (same_platform_device p n5550_ich_gpio_led_pdev))
                  (platform_devices k).
Proof.
  destruct (n5550_pca9532_cleanup_run k) as (Hev & _ & Hpd).
  unfold n5550_board_exit. rewrite bind_run. rewrite Hev.
  set (kc := state (n5550_pca9532_cleanup k)) in *.
  unfold n5550_ich_gpio_led_cleanup, platform_device_unregister, bind, modify,
    emit, state, events, value.
  cbn. rewrite Hpd. repeat split.
Qed.

(** The pointers and the registered clients when init has returned 0. *)
Lemma n5550_board_init_pointers (k : kernel) :
  value (n5550_board_init k) = 0 ->
  let k' := state (n5550_board_init k) in
  exists a,
    n5550_pca9532_0_client k' = i2c_new_result k a n5550_pca9532_0_info /\
    n5550_pca9532_1_client k' = i2c_new_result k a n5550_pca9532_1_info /\
    i2c_clients k'
      = client_at (i2c_new_result k a n5550_pca9532_1_info) ++
        client_at (i2c_new_result k a n5550_pca9532_0_info) ++ i2c_clients k.
Proof.
  intros Hup k'.
  destruct (n5550_board_init_up k Hup) as (H1 & _ & _ & Hst & _).
  destruct (n5550_pca9532_setup_up k H1) as (a & Hc0 & Hc1 & Hcl).
  destruct (n5550_ich_gpio_setup_frame (state (n5550_pca9532_setup k)))
    as (F0 & F1 & F2 & _).
  destruct (n5550_ich_gpio_led_setup_frame
              (state (n5550_ich_gpio_setup (state (n5550_pca9532_setup k)))))
    as (G0 & G1 & G2).
  subst k'. rewrite Hst. exists a. rewrite G0, G1, G2, F0, F1, F2.
  repeat split; assumption.
Qed.

(** C1.  At unload after a successful init the calls made are three:
    i2c_unregister_device on each of the module's two pointers, which hold
    what the registrations at 0x64 and 0x62 returned, and
    platform_device_unregister on the LED device.  Both
    i2c_unregister_device calls come before the platform_device_unregister
    call, with no test in between; afterwards no client the pointers point
    to and no "leds-gpio" device is registered. *)
Theorem n5550_board_exit_dimmers_then_leds (k0 : kernel)
  (Hup : value (n5550_board_init k0) = 0) :
  let k := state (n5550_board_init k0) in
  let r := n5550_board_exit k in
  let p0 := n5550_pca9532_0_client k in
  let p1 := n5550_pca9532_1_client k in
  let leds := {| pdev_name := "leds-gpio"; pdev_id := -1 |} in
  length (events r) = 3%nat /\
  count is_i2c_unregister_device (events r) = 2%nat /\
  In (ev_i2c_unregister_device p0) (events r) /\
  In (ev_i2c_unregister_device p1) (events r) /\
  In (ev_platform_device_unregister leds) (events r) /\
  all_before is_i2c_unregister_device is_platform_device_unregister (events r)
    = true /\
  precedes is_i2c_unregister_device is_platform_device_unregister (events r)
    = true /\
  (exists a, p0 = i2c_new_result k0 a n5550_pca9532_0_info /\
             p1 = i2c_new_result k0 a n5550_pca9532_1_info) /\
  (forall c, In c (client_at p0 ++ client_at p1) ->
             ~ In c (i2c_clients (state r))) /\
  Forall (fun p => p <> leds) (platform_devices (state r)).
Proof.
  intros k r p0 p1 leds.
  destruct (n5550_board_init_pointers k0 Hup) as (a & Hc0 & Hc1 & _).
  fold k in Hc0, Hc1. fold p0 in Hc0. fold p1 in Hc1.
  destruct (n5550_board_exit_run k) as (Hev & Hcl & Hpd).
  fold r p0 p1 in Hev. fold r in Hcl, Hpd.
  pose proof (n5550_pca9532_cleanup_gone k) as Hgone. fold p0 p1 in Hgone.
  rewrite Hev.
  split; [reflexivity|]. split; [reflexivity|].
  split; [simpl; tauto|]. split; [simpl; tauto|]. split; [simpl; tauto|].
  split; [reflexivity|]. split; [reflexivity|].
  split; [exists a; split; assumption|].
  split; [rewrite Hcl; exact Hgone|].
  rewrite Hpd. apply List.Forall_forall. intros p Hin.
  apply filter_In in Hin. destruct Hin as [_ Hp].
  apply negb_true_iff in Hp. intros ->. discriminate Hp.
Qed.

Lemma n5550_board_exit_dimmers_then_leds_witness :
  all_before is_i2c_unregister_device is_platform_device_unregister
    (events (n5550_board_exit (state (n5550_board_init n5550_two_buses))))
    = true /\
  ~ In (pca9532_0_on i801)
       (i2c_clients (state (n5550_board_exit
                              (state (n5550_board_init n5550_two_buses))))).
Proof.
  destruct (n5550_board_exit_dimmers_then_leds n5550_two_buses eq_refl)
    as (_ & _ & _ & _ & _ & Hord & _ & _ & Hgone & _).
  split; [exact Hord|]. apply Hgone. left. reflexivity.
Defined.

(** Unload on the machine where another adapter has a client at 0x64 too:
    that client is still registered afterwards. *)
Example n5550_board_exit_two_buses :
  i2c_clients (state (n5550_board_exit (state (n5550_board_init n5550_two_buses))))
    = [other_client].
Proof. reflexivity. Qed.

(** On the N5550 the LED device is the last of the three to go: the
    sequence "LED device first, dimmers second" is not the one run. *)
Lemma n5550_board_exit_led_device_last :
  value (n5550_board_init n5550) = 0 /\
  events (n5550_board_exit (state (n5550_board_init n5550))) =
    [ ev_i2c_unregister_device (ptr (pca9532_0_on i801));
      ev_i2c_unregister_device (ptr (pca9532_1_on i801));
      ev_platform_device_unregister
        {| pdev_name := "leds-gpio"; pdev_id := -1 |} ] /\
  precedes is_platform_device_unregister is_i2c_unregister_device
    (events (n5550_board_exit (state (n5550_board_init n5550)))) = false.
Proof. repeat split. Qed.

(** ** The pin tables of the two dimmers *)

(** C9.  The table registered at bus address 0x64 has 16 slots: slots 0 to
    4 are the LEDs "n5550:red:disk-stat-0" to "n5550:red:disk-stat-4",
    off, and slots 5 to 15 are unused.  The table registered at 0x62 has 16
    slots: slots 0 to 3 and 15 are GPIO pins, off; slot 9 is the LED
    "n5550:orange:busy", slot 10 "n5550:blue:usb", slot 12
    "n5550:red:fail", all off; slots 4 to 8, 11, 13 and 14 are unused.
    All PWM and PSC values of both chips are 0. *)
Theorem n5550_pca9532_tables :
  let chip0 := platform_data n5550_pca9532_0_info in
  let chip1 := platform_data n5550_pca9532_1_info in
  addr n5550_pca9532_0_info = 0x64 /\
  addr n5550_pca9532_1_info = 0x62 /\
  length (leds chip0) = 16%nat /\
  length (leds chip1) = 16%nat /\
  (forall i, (i < 5)%nat ->
     slot chip0 i =
       Some (Some (Led ("n5550:red:disk-stat-" ++ digit i)%string PCA9532_OFF))) /\
  (forall i, (5 <= i < 16)%nat -> slot chip0 i = Some (Some Absent)) /\
  (forall i, In i [0; 1; 2; 3; 15]%nat ->
     slot chip1 i = Some (Some (MultiplexedGpio PCA9532_OFF))) /\
  slot chip1 9 = Some (Some (Led "n5550:orange:busy" PCA9532_OFF)) /\
  slot chip1 10 = Some (Some (Led "n5550:blue:usb" PCA9532_OFF)) /\
  slot chip1 12 = Some (Some (Led "n5550:red:fail" PCA9532_OFF)) /\
  (forall i, In i [4; 5; 6; 7; 8; 11; 13; 14]%nat ->
     slot chip1 i = Some (Some Absent)) /\
  Forall (fun v => v = 0)
         (pwm chip0 ++ psc chip0 ++ pwm chip1 ++ psc chip1).
Proof.
  intros chip0 chip1. subst chip0 chip1.
  repeat match goal with |- _ /\ _ => split end;
    try reflexivity.
  - intros i Hi.
    do 5 (destruct i as [|i]; [reflexivity|]). lia.
  - intros i Hi.
    do 16 (destruct i as [|i]; [try lia; reflexivity|]). lia.
  - intros i Hi. simpl in Hi.
    repeat (destruct Hi as [<-|Hi]; [reflexivity|]). contradiction.
  - intros i Hi. simpl in Hi.
    repeat (destruct Hi as [<-|Hi]; [reflexivity|]). contradiction.
  - repeat constructor.
Qed.

(** Slot by slot, as [i2c_new_client_device] is handed them on the N5550. *)
Example n5550_pca9532_slots :
  slot n5550_pca9532_1_pdata 9 = Some (Some (Led "n5550:orange:busy" PCA9532_OFF)) /\
  slot n5550_pca9532_1_pdata 15 = Some (Some (MultiplexedGpio PCA9532_OFF)) /\
  slot n5550_pca9532_0_pdata 4 = Some (Some (Led "n5550:red:disk-stat-4" PCA9532_OFF)) /\
  slot n5550_pca9532_0_pdata 5 = Some (Some Absent) /\
  slot n5550_pca9532_0_pdata 16 = None.
Proof. repeat split. Qed.

(** ** More on the PCA9532 set-up *)

(** X1.  [n5550_pca9532_setup] returns 0, -ENODEV or -EBUSY and nothing
    else.  It returns 0 exactly when the SMBus bridge is found with its
    adapter bound and the adapter's owner can be pinned, whatever the two
    registrations return: i2c_new_client_device reports a failure as an
    error pointer and never as NULL, and the set-up tests for NULL only.  It
    returns -EBUSY exactly when the adapter is bound and its owner cannot be
    pinned; and -ENODEV exactly when the bridge is not found or has no
    adapter bound. *)
Theorem n5550_pca9532_setup_result (k : kernel) :
  let r := n5550_pca9532_setup k in
  (value r = 0 \/ value r = - ENODEV \/ value r = - EBUSY) /\
  (value r = 0 <-> smbus_ready k) /\
  (value r = - EBUSY <-> smbus_owner_going k) /\
  (value r = - ENODEV <->
     smbus_at k = None \/
     exists dev, smbus_at k = Some dev /\
       (pci_devices k !! dev) ≫= drvdata = None) /\
  (forall failure, value (n5550_pca9532_setup (set_i2c_failure failure k))
                   = value r).
Proof.
  unfold smbus_ready, smbus_owner_going.
  split; [|split; [|split; [|split]]].
  5: { intro failure.
       unfold n5550_pca9532_setup, pci_get_device, pci_get_drvdata,
         try_module_get, i2c_new_client_device, i2c_unregister_device,
         module_put, pci_dev_put, bind, get, emit, modify, ret, value.
       cbn [pci_devices set_i2c_failure fst snd]. fold (smbus_at k).
       destruct (smbus_at k) as [dev|]; run_step; [|reflexivity].
       destruct (pci_devices k !! dev) as [pd|]; run_step; [|reflexivity].
       destruct (drvdata pd) as [a|]; run_step; [|reflexivity].
       destruct (module_going k (owner a)); run_step; [reflexivity|].
       destruct (failure (addr n5550_pca9532_0_info)); run_step;
         destruct (failure (addr n5550_pca9532_1_info)); run_step;
         destruct (i2c_failure k (addr n5550_pca9532_0_info)); run_step;
         destruct (i2c_failure k (addr n5550_pca9532_1_info)); run_step;
         reflexivity. }
  all: pca9532_exits k; unfold value; cbn [fst snd]; fold_addrs;
    try (left; reflexivity); try (right; left; reflexivity);
    try (right; right; reflexivity);
    split;
    try (intro H; vm_compute in H; discriminate H);
    try (intros (dev' & pd' & a' & E1 & E2 & E3 & E4); congruence);
    try (intros [E|(dev' & E1 & E2)];
         [discriminate E
         | injection E1 as <-; rewrite ?Hpd in E2; cbn in E2; congruence]);
    try reflexivity;
    try (intros _; eauto 10; fail);
    try (intros _; right; exists dev; rewrite ?Hpd; cbn; auto; fail);
    try (intros _; left; reflexivity).
Qed.

(** What [n5550_pca9532_setup] never changes. *)
Lemma n5550_pca9532_setup_frame (k : kernel) :
  let k' := state (n5550_pca9532_setup k) in
  gpio_chips k' = gpio_chips k /\
  pci_devices k' = pci_devices k /\
  pci_config k' = pci_config k /\
  io_ports k' = io_ports k /\
  module_going k' = module_going k /\
  i2c_failure k' = i2c_failure k /\
  platform_register_ret k' = platform_register_ret k /\
  platform_devices k' = platform_devices k /\
  n5550_ich_gpio_leds k' = n5550_ich_gpio_leds k.
Proof.
  cbv zeta. pca9532_exits k; unfold state; cbn [fst snd]; repeat split.
Qed.

Lemma n5550_pca9532_setup_refcounts (k : kernel) :
  let r := n5550_pca9532_setup k in
  (forall d, pci_refcount (state r) d = pci_refcount k d) /\
  (forall m, module_refcount (state r) m = module_refcount k m) /\
  held_after pci_acquired pci_released [] (events r) = Some [] /\
  held_after module_acquired module_released [] (events r) = Some [].
Proof.
  cbv zeta.
  pca9532_exits k; unfold events, state; cbn [fst snd];
    simpl; rewrite ?Nat.eqb_refl; simpl;
    repeat split; try reflexivity; intro x; try apply upd_nat_inc_dec;
    reflexivity.
Qed.





(** ** More on the chipset GPIO fixup *)

Lemma mask_bit_in (mask : Z) (pins : list Z) (i : Z) :
  (Z.testbit mask i = true <-> In i pins) ->
  Z.testbit mask i = existsb (Z.eqb i) pins.
Proof.
  intro H. apply eq_iff_eq_true. rewrite H, existsb_exists. split.
  - intro Hin. exists i. split; [exact Hin | apply Z.eqb_refl].
  - intros (x & Hin & Hx). apply Z.eqb_eq in Hx. subst x. exact Hin.
Qed.

(** X4.  After the fixup (the LPC bridge being there), bit by bit: a bit of
    the first pin-ownership register is set exactly when it was set before
    or stands for one of the pins 0, 2, 3, 4, 5, 9, 28; a bit of the second
    exactly when it was set before or stands for pin 34.  So the eight pins
    are GPIO-owned whatever the BIOS left, and no other pin changes
    owner. *)
Theorem n5550_ich_gpio_setup_bits (k : kernel) (dev : nat)
  (Hdev : lpc_at k = Some dev) :
  let k1 := state (n5550_ich_gpio_setup k) in
  let sel0 := gpio_io_base_of k dev + N5550_ICH_GPIO_USE_SEL_0 in
  let sel1 := gpio_io_base_of k dev + N5550_ICH_GPIO_USE_SEL_1 in
  (forall i, Z.testbit (port_value k1 sel0) i
             = Z.testbit (port_value k sel0) i || existsb (Z.eqb i) enabled_pins_0) /\
  (forall i, Z.testbit (port_value k1 sel1) i
             = Z.testbit (port_value k sel1) i || existsb (Z.eqb i) enabled_pins_1) /\
  (forall pin, In pin enabled_pins_0 -> Z.testbit (port_value k1 sel0) pin = true) /\
  Z.testbit (port_value k1 sel1) (34 - 32) = true.
Proof.
  intros k1 sel0 sel1.
  destruct (n5550_ich_gpio_setup_ports k dev Hdev) as (H0 & H1).
  fold k1 sel0 sel1 in H0, H1.
  assert (forall i, Z.testbit (port_value k1 sel0) i
             = Z.testbit (port_value k sel0) i || existsb (Z.eqb i) enabled_pins_0)
    as B0.
  { intro i. rewrite H0, Z.lor_spec.
    f_equal. apply mask_bit_in, N5550_ICH_GPIO_PINS_0_bits. }
  assert (forall i, Z.testbit (port_value k1 sel1) i
             = Z.testbit (port_value k sel1) i || existsb (Z.eqb i) enabled_pins_1)
    as B1.
  { intro i. rewrite H1, Z.lor_spec.
    f_equal. apply mask_bit_in. rewrite N5550_ICH_GPIO_PINS_1_bits.
    simpl. intuition lia. }
  repeat split; auto.
  - intros pin Hin. rewrite B0. apply orb_true_iff. right.
    apply existsb_exists. exists pin. split; [exact Hin | apply Z.eqb_refl].
  - rewrite B1. apply orb_true_r.
Qed.

Lemma n5550_ich_gpio_setup_bits_witness :
  Z.testbit (port_value (state (n5550_ich_gpio_setup n5550)) 0x0500) 28 = true /\
  Z.testbit (port_value (state (n5550_ich_gpio_setup n5550)) 0x0500) 1 = false.
Proof.
  destruct (n5550_ich_gpio_setup_bits n5550 2%nat eq_refl) as (B0 & _ & _).
  change 0x0500 with (gpio_io_base_of n5550 2 + N5550_ICH_GPIO_USE_SEL_0).
  split; [rewrite (B0 28) | rewrite (B0 1)]; reflexivity.
Defined.

(** X5.  The fixup (the LPC bridge being there) touches nothing but the
    eight bytes of the two pin-ownership registers and the control byte:
    every other byte of the I/O port space is as before, so every 32-bit
    read that overlaps neither register returns what it returned before, in
    particular that of the third select register at offset 0x40, on which
    no call is made; every other configuration byte of every PCI function
    is as before; and the LED table, the registered I2C clients and
    platform devices and the module reference counts are as before. *)
Theorem n5550_ich_gpio_setup_touches_two_ports (k : kernel) (dev : nat)
  (Hdev : lpc_at k = Some dev) :
  let r := n5550_ich_gpio_setup k in
  let iobase := gpio_io_base_of k dev in
  let sel0 := iobase + N5550_ICH_GPIO_USE_SEL_0 in
  let sel1 := iobase + N5550_ICH_GPIO_USE_SEL_1 in
  (forall q, ~ sel0 <= q < sel0 + 4 -> ~ sel1 <= q < sel1 + 4 ->
             io_ports (state r) q = io_ports k q) /\
  (forall p, p + 4 <= sel0 \/ sel0 + 4 <= p ->
             p + 4 <= sel1 \/ sel1 + 4 <= p ->
             port_value (state r) p = port_value k p) /\
  port_value (state r) (iobase + N5550_ICH_GPIO_USE_SEL_2)
    = port_value k (iobase + N5550_ICH_GPIO_USE_SEL_2) /\
  Forall (fun e => port_of e <> Some (iobase + N5550_ICH_GPIO_USE_SEL_2))
         (events r) /\
  (forall d reg, d <> dev \/ reg <> N5550_ICH_PCI_GPIO_CTRL ->
                 pci_config (state r) d reg = pci_config k d reg) /\
  n5550_ich_gpio_leds (state r) = n5550_ich_gpio_leds k /\
  i2c_clients (state r) = i2c_clients k /\
  platform_devices (state r) = platform_devices k /\
  module_refcount (state r) = module_refcount k.
Proof.
  intros r iobase sel0 sel1.
  pose proof (n5550_ich_gpio_setup_io k dev Hdev) as Hio.
  fold r iobase sel0 sel1 in Hio.
  destruct (n5550_ich_gpio_setup_present k dev Hdev)
    as (_ & Hev & _ & Hcfg & _).
  fold r in Hev, Hcfg. fold (gpio_io_base_of k dev) in Hev. fold iobase in Hev.
  assert (forall p, p + 4 <= sel0 \/ sel0 + 4 <= p ->
             p + 4 <= sel1 \/ sel1 + 4 <= p ->
             port_value (state r) p = port_value k p) as Hother.
  { intros p H0 H1. apply (n5550_ich_gpio_setup_far k dev p Hdev); assumption. }
  split.
  { intros q H0 H1. rewrite Hio, !store_dword_at.
    destruct (Z.leb_spec sel1 q); destruct (Z.ltb_spec q (sel1 + 4));
      destruct (Z.leb_spec sel0 q); destruct (Z.ltb_spec q (sel0 + 4));
      simpl; try reflexivity; lia. }
  split; [exact Hother|]. split.
  { apply Hother; unfold sel0, sel1;
      unfold N5550_ICH_GPIO_USE_SEL_0, N5550_ICH_GPIO_USE_SEL_1,
        N5550_ICH_GPIO_USE_SEL_2; lia. }
  split.
  { rewrite Hev.
    repeat constructor; simpl; try discriminate; intros [= E]; revert E;
      unfold N5550_ICH_GPIO_USE_SEL_0, N5550_ICH_GPIO_USE_SEL_1,
        N5550_ICH_GPIO_USE_SEL_2; lia. }
  split.
  { intros d reg Hd. rewrite Hcfg. unfold upd_nat.
    destruct (Nat.eqb d dev) eqn:E; [|reflexivity].
    apply Nat.eqb_eq in E. subst d. apply upd_Z_other.
    destruct Hd as [Hd|Hd]; [contradiction | exact Hd]. }
  subst r. unfold lpc_at in Hdev.
  unfold n5550_ich_gpio_setup, pci_get_device, pci_read_config_dword,
    pci_write_config_byte, inl, outl, pci_dev_put, bind, get, emit, modify, ret.
  rewrite Hdev. repeat split.
Qed.

Lemma n5550_ich_gpio_setup_touches_two_ports_witness :
  port_value (state (n5550_ich_gpio_setup n5550)) 0x0540 = 0 /\
  pci_config (state (n5550_ich_gpio_setup n5550)) 2%nat 0x49 = 0x05.
Proof.
  destruct (n5550_ich_gpio_setup_touches_two_ports n5550 2%nat eq_refl)
    as (_ & _ & Hsel2 & _ & Hcfg & _).
  split.
  - change 0x0540 with (gpio_io_base_of n5550 2 + N5550_ICH_GPIO_USE_SEL_2).
    rewrite Hsel2. reflexivity.
  - rewrite Hcfg; [reflexivity | right; discriminate].
Defined.

(** A 32-bit read that overlaps a register does change: on the N5550 the
    read at the port one above the first register sees the register's upper
    three bytes. *)
Example n5550_ich_gpio_setup_overlapping_read :
  port_value n5550 0x0501 = 0 /\
  port_value (state (n5550_ich_gpio_setup n5550)) 0x0501 = 0x00100002.
Proof. split; reflexivity. Qed.

(** ** More on the lookup and the LED set-up *)

Lemma gpiochip_scan_app (pre post : list gpio_chip) (gc : gpio_chip) :
  Forall (fun c => ~ is_ich c) pre -> is_ich gc ->
  gpiochip_scan n5550_match_ich_gpiochip (pre ++ gc :: post) = Some gc.
Proof.
  intros Hpre Hgc. induction Hpre as [|c pre Hc _ IH]; simpl.
  - apply n5550_match_ich_gpiochip_nonzero in Hgc. rewrite Hgc. reflexivity.
  - destruct (n5550_match_ich_gpiochip c =? 0) eqn:E; [exact IH|].
    apply n5550_match_ich_gpiochip_nonzero in E. contradiction.
Qed.

Lemma n5550_get_ich_gpiobase_value (k : kernel) :
  value (n5550_get_ich_gpiobase k) =
    match gpiochip_scan n5550_match_ich_gpiochip (gpio_chips k) with
    | None => - ENODEV
    | Some gc => if base gc <? 0 then - EINVAL else base gc
    end.
Proof.
  unfold n5550_get_ich_gpiobase, gpiochip_find, bind, get; simpl.
  destruct (gpiochip_scan n5550_match_ich_gpiochip (gpio_chips k)) as [gc|];
    [destruct (base gc <? 0)|]; reflexivity.
Qed.

Lemma n5550_get_ich_gpiobase_usable (k : kernel) :
  0 <= value (n5550_get_ich_gpiobase k) <-> ich_gpio_usable k.
Proof.
  rewrite n5550_get_ich_gpiobase_value. unfold ich_gpio_usable. split.
  - pose proof (gpiochip_scan_first (gpio_chips k)) as H.
    destruct (gpiochip_scan n5550_match_ich_gpiochip (gpio_chips k)) as [gc|].
    + destruct H as (pre & post & Hl & Hpre & Hgc).
      destruct (base gc <? 0) eqn:Hb; [intro Hc; vm_compute in Hc; contradiction|].
      intros _. exists pre, gc, post. apply Z.ltb_ge in Hb. auto.
    + intro Hc. vm_compute in Hc. contradiction.
  - intros (pre & gc & post & Hl & Hpre & Hgc & Hb).
    rewrite Hl, (gpiochip_scan_app pre post gc Hpre Hgc).
    apply Z.ltb_ge in Hb. rewrite Hb. apply Z.ltb_ge. exact Hb.
Qed.

Lemma n5550_get_ich_gpiobase_negative (k : kernel) :
  value (n5550_get_ich_gpiobase k) < 0 ->
  value (n5550_get_ich_gpiobase k) = - ENODEV \/
  value (n5550_get_ich_gpiobase k) = - EINVAL.
Proof.
  rewrite n5550_get_ich_gpiobase_value.
  destruct (gpiochip_scan n5550_match_ich_gpiochip (gpio_chips k)) as [gc|];
    [|auto].
  destruct (base gc <? 0) eqn:Hb; [auto|].
  apply Z.ltb_ge in Hb. lia.
Qed.

(** X6.  [n5550_ich_gpio_led_setup] returns 0 exactly when a controller
    labelled "gpio_ich" is registered, the first such controller has a
    non-negative base, and platform_device_register returns 0; then the LED
    device, and nothing else, is added to the registered platform devices.
    In every other case the registered platform devices are as before, and
    the value returned is -ENODEV, -EINVAL or what platform_device_register
    returned. *)
Theorem n5550_ich_gpio_led_setup_result (k : kernel) :
  let r := n5550_ich_gpio_led_setup k in
  (value r = 0 <-> ich_gpio_usable k /\ platform_register_ret k = 0) /\
  (value r = 0 ->
     platform_devices (state r) = n5550_ich_gpio_led_pdev :: platform_devices k) /\
  (value r <> 0 ->
     platform_devices (state r) = platform_devices k /\
     (value r = - ENODEV \/ value r = - EINVAL \/
      value r = platform_register_ret k)).
Proof.
  intro r. subst r. rewrite n5550_ich_gpio_led_setup_unfold. cbv zeta.
  pose proof (n5550_get_ich_gpiobase_usable k) as Hu.
  pose proof (n5550_get_ich_gpiobase_negative k) as Hn.
  set (b := value (n5550_get_ich_gpiobase k)) in *.
  destruct (b <? 0) eqn:Hb; cbn [value state fst snd].
  - apply Z.ltb_lt in Hb. split; [|split].
    + split; [lia|]. intros [Hus _]. apply Hu in Hus. lia.
    + lia.
    + intros _. split; [reflexivity|]. destruct (Hn Hb) as [->| ->]; auto.
  - apply Z.ltb_ge in Hb. apply Hu in Hb.
    destruct (platform_register_ret k =? 0) eqn:Hr.
    + apply Z.eqb_eq in Hr. split; [|split]; [tauto|reflexivity|contradiction].
    + apply Z.eqb_neq in Hr. split; [|split]; [tauto|contradiction|auto].
Qed.

Lemma n5550_ich_gpio_led_setup_result_witness :
  value (n5550_ich_gpio_led_setup n5550_no_memory) = -12 /\
  platform_devices (state (n5550_ich_gpio_led_setup n5550_no_memory)) = [].
Proof.
  destruct (n5550_ich_gpio_led_setup_result n5550_no_memory) as (_ & _ & H).
  destruct H as (Hpd & _); [vm_compute; discriminate|].
  split; [reflexivity | exact Hpd].
Defined.

Lemma map_alter_same {A B} (f : A -> B) (g : A -> A) (i : nat) (l : list A) :
  (forall x, f (g x) = f x) -> map f (alter g i l) = map f l.
Proof.
  intro Hfg. revert i. induction l as [|x l IH]; intros [|i]; simpl;
    try reflexivity.
  - rewrite Hfg. reflexivity.
  - f_equal. apply IH.
Qed.

Lemma led_loop_keeps {B} (f : gpio_led -> B) (n i : nat) (b : Z)
    (leds : list gpio_led) :
  (forall pin l, f (set_gpio pin l) = f l) ->
  map f (led_loop n i b leds) = map f leds.
Proof.
  intro Hf. revert i leds. induction n as [|n IH]; intros i leds; simpl;
    [reflexivity|].
  rewrite IH. apply map_alter_same. intro x. apply Hf.
Qed.

(** X7.  Whatever the outcome of [n5550_ich_gpio_led_setup] and whatever
    the table held, the set-up changes nothing of the LED table but the
    gpio numbers: the table has as many entries as before, with the same
    names, default triggers, polarities and default states, in the same
    order. *)
Theorem n5550_ich_gpio_led_setup_keeps_table (k : kernel) :
  let after := n5550_ich_gpio_leds (state (n5550_ich_gpio_led_setup k)) in
  let before := n5550_ich_gpio_leds k in
  length after = length before /\
  map name after = map name before /\
  map default_trigger after = map default_trigger before /\
  map active_low after = map active_low before /\
  map default_state after = map default_state before.
Proof.
  intros after before. subst after before.
  rewrite n5550_ich_gpio_led_setup_unfold. cbv zeta.
  assert (forall l' l : list gpio_led, map name l' = map name l ->
            length l' = length l) as Hlen.
  { intros l' l H. rewrite <- (length_map name l'), H. apply length_map. }
  destruct (value (n5550_get_ich_gpiobase k) <? 0); cbn [state fst snd];
    [repeat split|].
  destruct (platform_register_ret k =? 0);
    cbn [n5550_ich_gpio_leds set_platform_devices set_n5550_ich_gpio_leds];
    (split; [apply Hlen|]); repeat split; apply led_loop_keeps; reflexivity.
Qed.

(** ** More on init and exit: how the steps compose *)

Lemma n5550_pca9532_setup_zero_iff (k : kernel) :
  value (n5550_pca9532_setup k) = 0 <-> smbus_ready k.
Proof.
  unfold smbus_ready.
  pca9532_exits k; unfold value; cbn [fst snd]; fold_addrs; split;
    try (intro H; vm_compute in H; discriminate H);
    try (intros (dev' & pd' & a' & E1 & E2 & E3 & E4); congruence);
    intros _; eauto 10.
Qed.

Lemma n5550_pca9532_setup_codes (k : kernel) :
  value (n5550_pca9532_setup k) = 0 \/
  value (n5550_pca9532_setup k) = - ENODEV \/
  value (n5550_pca9532_setup k) = - EBUSY.
Proof.
  pca9532_exits k; unfold value; cbn [fst snd]; auto.
Qed.

(** A set-up that fails leaves the registered clients as they were. *)
Lemma n5550_pca9532_setup_clients (k : kernel) :
  value (n5550_pca9532_setup k) <> 0 ->
  i2c_clients (state (n5550_pca9532_setup k)) = i2c_clients k.
Proof.
  pca9532_exits k; unfold value, state; cbn [fst snd]; intro H;
    try contradiction; reflexivity.
Qed.

Lemma n5550_ich_gpio_setup_value (k : kernel) :
  value (n5550_ich_gpio_setup k) =
    match lpc_at k with
    | Some _ => 0
    | None => - ENODEV
    end.
Proof.
  destruct (lpc_at k) as [dev|] eqn:Hdev.
  - destruct (n5550_ich_gpio_setup_present k dev Hdev) as (Hv & _). exact Hv.
  - rewrite (n5550_ich_gpio_setup_absent k Hdev). reflexivity.
Qed.

(** What [n5550_ich_gpio_setup] never changes, besides what
    [n5550_ich_gpio_setup_frame] lists. *)
Lemma n5550_ich_gpio_setup_keeps (k : kernel) :
  let k' := state (n5550_ich_gpio_setup k) in
  gpio_chips k' = gpio_chips k /\
  pci_devices k' = pci_devices k /\
  module_going k' = module_going k /\
  module_refcount k' = module_refcount k /\
  i2c_failure k' = i2c_failure k /\
  platform_register_ret k' = platform_register_ret k /\
  n5550_ich_gpio_leds k' = n5550_ich_gpio_leds k /\
  (forall d, pci_refcount k' d = pci_refcount k d).
Proof.
  unfold n5550_ich_gpio_setup, pci_get_device, pci_read_config_dword,
    pci_write_config_byte, inl, outl, pci_dev_put, bind, get, emit, modify, ret.
  destruct (pci_scan N5550_ICH_PCI_VENDOR N5550_ICH_LPC_PCI_DEV 0
              (pci_devices k)); repeat split.
  intro d. apply upd_nat_inc_dec.
Qed.

Lemma n5550_ich_gpio_led_setup_keeps (k : kernel) :
  let k' := state (n5550_ich_gpio_led_setup k) in
  pci_devices k' = pci_devices k /\
  pci_refcount k' = pci_refcount k /\
  pci_config k' = pci_config k /\
  io_ports k' = io_ports k /\
  module_refcount k' = module_refcount k.
Proof.
  rewrite n5550_ich_gpio_led_setup_unfold. cbv zeta.
  destruct (value (n5550_get_ich_gpiobase k) <? 0); [repeat split|].
  destruct (platform_register_ret k =? 0); repeat split.
Qed.

Lemma n5550_pca9532_cleanup_keeps (k : kernel) :
  let k' := state (n5550_pca9532_cleanup k) in
  pci_refcount k' = pci_refcount k /\
  pci_config k' = pci_config k /\
  io_ports k' = io_ports k /\
  module_refcount k' = module_refcount k /\
  n5550_ich_gpio_leds k' = n5550_ich_gpio_leds k.
Proof.
  cbv zeta.
  unfold n5550_pca9532_cleanup, i2c_unregister_device, bind, get, emit, modify,
    ret, state.
  destruct (n5550_pca9532_0_client k); cbn;
    destruct (n5550_pca9532_1_client k); cbn; repeat split.
Qed.

Lemma n5550_ich_gpio_led_setup_zero_iff (k : kernel) :
  value (n5550_ich_gpio_led_setup k) = 0 <->
  ich_gpio_usable k /\ platform_register_ret k = 0.
Proof.
  rewrite n5550_ich_gpio_led_setup_unfold. cbv zeta.
  pose proof (n5550_get_ich_gpiobase_usable k) as Hu.
  set (b := value (n5550_get_ich_gpiobase k)) in *.
  destruct (b <? 0) eqn:Hb; cbn [value fst snd].
  - apply Z.ltb_lt in Hb. split; [lia|]. intros [Hus _]. apply Hu in Hus. lia.
  - apply Z.ltb_ge in Hb. apply Hu in Hb. tauto.
Qed.

Lemma n5550_ich_gpio_led_setup_codes (k : kernel) :
  value (n5550_ich_gpio_led_setup k) = - ENODEV \/
  value (n5550_ich_gpio_led_setup k) = - EINVAL \/
  value (n5550_ich_gpio_led_setup k) = platform_register_ret k.
Proof.
  rewrite n5550_ich_gpio_led_setup_unfold. cbv zeta.
  pose proof (n5550_get_ich_gpiobase_negative k) as Hn.
  set (b := value (n5550_get_ich_gpiobase k)) in *.
  destruct (b <? 0) eqn:Hb; cbn [value fst snd]; [|auto].
  apply Z.ltb_lt in Hb. destruct (Hn Hb); auto.
Qed.

Lemma n5550_board_init_value (k : kernel) :
  let r1 := n5550_pca9532_setup k in
  let r2 := n5550_ich_gpio_setup (state r1) in
  let r3 := n5550_ich_gpio_led_setup (state r2) in
  value (n5550_board_init k) =
    if negb (value r1 =? 0) then value r1
    else if negb (value r2 =? 0) then value r2
    else value r3.
Proof.
  intros r1 r2 r3. rewrite n5550_board_init_unfold. cbv zeta.
  fold r1 r2 r3.
  destruct (value r1 =? 0); [|reflexivity].
  destruct (value r2 =? 0); [|reflexivity].
  destruct (value r3 =? 0) eqn:E; [|reflexivity].
  apply Z.eqb_eq in E. rewrite E. reflexivity.
Qed.

(** The later steps see the machine the first step saw. *)
Lemma n5550_board_init_inputs (k : kernel) :
  let k1 := state (n5550_pca9532_setup k) in
  let k2 := state (n5550_ich_gpio_setup k1) in
  lpc_at k1 = lpc_at k /\
  (ich_gpio_usable k2 <-> ich_gpio_usable k) /\
  platform_register_ret k2 = platform_register_ret k /\
  gpio_chips k2 = gpio_chips k.
Proof.
  intros k1 k2.
  destruct (n5550_pca9532_setup_frame k)
    as (Hc1 & Hd1 & _ & _ & _ & _ & Hr1 & _). fold k1 in Hc1, Hd1, Hr1.
  destruct (n5550_ich_gpio_setup_keeps k1) as (Hc2 & _ & _ & _ & _ & Hr2 & _).
  fold k2 in Hc2, Hr2.
  split; [unfold lpc_at; rewrite Hd1; reflexivity|].
  split; [unfold ich_gpio_usable; rewrite Hc2, Hc1; reflexivity|].
  split; congruence.
Qed.

(** X8.  Init returns 0 exactly when, on the machine it starts on: the
    SMBus bridge is found with its adapter bound and the adapter's owner
    can be pinned; the LPC bridge is found; a controller labelled
    "gpio_ich" is registered and the first one has a non-negative base; and
    platform_device_register returns 0.  Whether i2c_new_client_device
    fails at 0x64 or 0x62 has no part in it: init returns the same value
    whatever the two registrations return. *)
Theorem n5550_board_init_succeeds_iff (k : kernel) :
  (value (n5550_board_init k) = 0 <->
   smbus_ready k /\
   (exists dev, lpc_at k = Some dev) /\
   ich_gpio_usable k /\
   platform_register_ret k = 0) /\
  (forall failure,
     value (n5550_board_init (set_i2c_failure failure k)) = 0 <->
     value (n5550_board_init k) = 0).
Proof.
  assert (forall k, value (n5550_board_init k) = 0 <->
   smbus_ready k /\
   (exists dev, lpc_at k = Some dev) /\
   ich_gpio_usable k /\
   platform_register_ret k = 0) as Hiff; [clear k; intro k|
    split; [apply Hiff|intro failure; rewrite !Hiff; reflexivity]].
  rewrite n5550_board_init_value. cbv zeta.
  destruct (n5550_board_init_inputs k) as (Hlpc & Hus & Hret & _).
  pose proof (n5550_pca9532_setup_zero_iff k) as H1.
  pose proof (n5550_ich_gpio_setup_value (state (n5550_pca9532_setup k))) as H2.
  pose proof (n5550_ich_gpio_led_setup_zero_iff
                (state (n5550_ich_gpio_setup (state (n5550_pca9532_setup k)))))
    as H3.
  rewrite Hlpc in H2. rewrite Hus, Hret in H3.
  destruct (value (n5550_pca9532_setup k) =? 0) eqn:E1; cbn [negb].
  - apply Z.eqb_eq in E1. apply H1 in E1. rewrite H2.
    destruct (lpc_at k) as [dev|] eqn:Hdev; cbn [negb Z.eqb].
    + rewrite H3. split; [intros [Hu Hr]|intros (_ & _ & Hu & Hr)]; eauto.
    + split; [intro Hc; vm_compute in Hc; discriminate Hc|].
      intros (_ & (dev & Hc) & _). discriminate Hc.
  - apply Z.eqb_neq in E1. split; [contradiction|].
    intros (Hs & _). apply H1 in Hs. contradiction.
Qed.

(** X9.  Whatever the machine, init returns 0, -ENODEV, -EBUSY, -EINVAL or
    the value platform_device_register returned, and no other value. *)
Theorem n5550_board_init_codes (k : kernel) :
  value (n5550_board_init k) = 0 \/
  value (n5550_board_init k) = - ENODEV \/
  value (n5550_board_init k) = - EBUSY \/
  value (n5550_board_init k) = - EINVAL \/
  value (n5550_board_init k) = platform_register_ret k.
Proof.
  rewrite n5550_board_init_value. cbv zeta.
  destruct (n5550_board_init_inputs k) as (Hlpc & _ & Hret & _).
  destruct (value (n5550_pca9532_setup k) =? 0); cbn [negb].
  - rewrite n5550_ich_gpio_setup_value.
    destruct (lpc_at (state (n5550_pca9532_setup k))); cbn [negb Z.eqb];
      [|auto].
    rewrite <- Hret.
    destruct (n5550_ich_gpio_led_setup_codes
                (state (n5550_ich_gpio_setup (state (n5550_pca9532_setup k)))))
      as [H|[H|H]]; auto 6.
  - destruct (n5550_pca9532_setup_codes k) as [H|[H|H]]; auto.
Qed.

Lemma n5550_board_init_state (k : kernel) :
  let r1 := n5550_pca9532_setup k in
  let r2 := n5550_ich_gpio_setup (state r1) in
  let r3 := n5550_ich_gpio_led_setup (state r2) in
  state (n5550_board_init k) =
    if negb (value r1 =? 0) then state r1
    else if negb (value r2 =? 0) then state (n5550_pca9532_cleanup (state r2))
    else if negb (value r3 =? 0) then state (n5550_pca9532_cleanup (state r3))
    else state r3.
Proof.
  intros r1 r2 r3. rewrite n5550_board_init_unfold. cbv zeta.
  fold r1 r2 r3.
  destruct (value r1 =? 0); [|reflexivity].
  destruct (value r2 =? 0); [|reflexivity].
  destruct (value r3 =? 0); reflexivity.
Qed.

Lemma n5550_board_init_events (k : kernel) :
  let r1 := n5550_pca9532_setup k in
  let r2 := n5550_ich_gpio_setup (state r1) in
  let r3 := n5550_ich_gpio_led_setup (state r2) in
  events (n5550_board_init k) =
    if negb (value r1 =? 0) then
      events r1 ++ [failed "n5550_pca9532_setup" (value r1)]
    else if negb (value r2 =? 0) then
      events r1 ++ events r2 ++
      failed "n5550_ich_gpio_setup" (value r2)
        :: events (n5550_pca9532_cleanup (state r2))
    else if negb (value r3 =? 0) then
      events r1 ++ events r2 ++ events r3 ++
      failed "n5550_ich_gpio_led_setup" (value r3)
        :: events (n5550_pca9532_cleanup (state r3))
    else events r1 ++ events r2 ++ events r3.
Proof.
  intros r1 r2 r3. rewrite n5550_board_init_unfold. cbv zeta.
  fold r1 r2 r3.
  destruct (value r1 =? 0); [|reflexivity].
  destruct (value r2 =? 0); [|reflexivity].
  destruct (value r3 =? 0); reflexivity.
Qed.

Lemma filter_all {A} (f : A -> bool) (l : list A) :
  Forall (fun x => f x = true) l -> List.filter f l = l.
Proof.
  induction 1 as [|x l Hx _ IH]; simpl; [reflexivity|].
  rewrite Hx, IH. reflexivity.
Qed.

(** Creating what two registrations return and unregistering it again, on
    the registered clients. *)
Lemma create_then_unregister (l : list i2c_client) (p0 p1 : i2c_client_ptr) :
  let l' := unregistered p1 (unregistered p0 (client_at p1 ++ client_at p0 ++ l)) in
  (forall c, In c l' -> In c l) /\
  (forall c, In c l -> ~ In c (client_at p0) -> ~ In c (client_at p1) ->
             In c l').
Proof.
  intro l'. subst l'. split.
  - intros c Hin.
    pose proof (unregistered_sub _ _ _ Hin) as Hin0.
    pose proof (unregistered_sub _ _ _ Hin0) as Hin1.
    apply in_app_iff in Hin1. destruct Hin1 as [Hin1|Hin1].
    { destruct (unregistered_gone p1 _ c Hin1 Hin). }
    apply in_app_iff in Hin1. destruct Hin1 as [Hin1|Hin1]; [|exact Hin1].
    destruct (unregistered_gone p0 _ c Hin1 Hin0).
  - intros c Hin H0 H1.
    apply unregistered_keeps; [|exact H1].
    apply unregistered_keeps; [|exact H0].
    apply in_app_iff. right. apply in_app_iff. right. exact Hin.
Qed.

(** Unregistering what two registrations returned undoes them, when the
    clients created are not among those registered before. *)
Lemma create_then_unregister_all (l : list i2c_client)
    (p0 p1 : i2c_client_ptr) :
  Forall (fun c => ~ In c (client_at p0)) l ->
  Forall (fun c => ~ In c (client_at p1)) l ->
  Forall (fun c => ~ In c (client_at p0)) (client_at p1) ->
  unregistered p1 (unregistered p0 (client_at p1 ++ client_at p0 ++ l)) = l.
Proof.
  intros H0 H1 H01.
  rewrite (unregistered_app p0), (unregistered_id p0 _ H01).
  rewrite (unregistered_new p0 l H0). apply unregistered_new. exact H1.
Qed.

(** After a successful set-up and any later steps that keep them, the
    module's pointers and the registered clients. *)
Lemma n5550_board_init_after_setup (k : kernel) :
  value (n5550_pca9532_setup k) = 0 ->
  let k1 := state (n5550_pca9532_setup k) in
  let k2 := state (n5550_ich_gpio_setup k1) in
  let k3 := state (n5550_ich_gpio_led_setup k2) in
  exists dev pd a,
    let p0 := i2c_new_result k a n5550_pca9532_0_info in
    let p1 := i2c_new_result k a n5550_pca9532_1_info in
    (smbus_at k = Some dev /\ pci_devices k !! dev = Some pd /\
     drvdata pd = Some a) /\
    i2c_clients k1 = client_at p1 ++ client_at p0 ++ i2c_clients k /\
    i2c_clients k2 = i2c_clients k1 /\ i2c_clients k3 = i2c_clients k1 /\
    n5550_pca9532_0_client k2 = p0 /\
    n5550_pca9532_1_client k2 = p1 /\
    n5550_pca9532_0_client k3 = p0 /\
    n5550_pca9532_1_client k3 = p1.
Proof.
  intros H1 k1 k2 k3. revert H1. subst k3 k2 k1.
  destruct (n5550_ich_gpio_led_setup_frame
              (state (n5550_ich_gpio_setup (state (n5550_pca9532_setup k)))))
    as (G0 & G1 & G2).
  destruct (n5550_ich_gpio_setup_frame (state (n5550_pca9532_setup k)))
    as (F0 & F1 & F2 & _).
  rewrite G0, G1, G2, F0, F1, F2. unfold i2c_new_result.
  pca9532_exits k; unfold value, state; cbn [fst snd]; intro H;
    try (vm_compute in H; discriminate H);
    exists dev, pd, a; rewrite ?Hfail0, ?Hfail1; repeat split; assumption.
Qed.

(** What a registration at 0x64 or 0x62 returns points to no client at
    another address. *)
Lemma i2c_new_result_addr (k : kernel) (a : i2c_adapter) (c : i2c_client) :
  In c (client_at (i2c_new_result k a n5550_pca9532_0_info) ++
        client_at (i2c_new_result k a n5550_pca9532_1_info)) ->
  client_addr c = 0x64 \/ client_addr c = 0x62.
Proof.
  unfold i2c_new_result. intro H. apply in_app_iff in H.
  destruct H as [H|H];
    [destruct (i2c_failure k (addr n5550_pca9532_0_info))
    |destruct (i2c_failure k (addr n5550_pca9532_1_info))];
    simpl in H; try tauto; destruct H as [<-|[]]; auto.
Qed.

Lemma n5550_ich_gpio_led_setup_devices (k : kernel) :
  platform_devices (state (n5550_ich_gpio_led_setup k)) =
    if value (n5550_ich_gpio_led_setup k) =? 0
    then n5550_ich_gpio_led_pdev :: platform_devices k
    else platform_devices k.
Proof.
  rewrite n5550_ich_gpio_led_setup_unfold. cbv zeta.
  destruct (value (n5550_get_ich_gpiobase k) <? 0) eqn:Hb; cbn [value state fst snd].
  - apply Z.ltb_lt in Hb. replace (_ =? 0) with false; [reflexivity|].
    symmetry. apply Z.eqb_neq. lia.
  - destruct (platform_register_ret k =? 0); reflexivity.
Qed.

(** X10.  A failed init leaves nothing registered: when init returns
    non-zero, the registered platform devices are those before the call,
    no I2C client is registered that was not registered before, and every
    client registered before at another address than 0x64 and 0x62 is still
    registered. *)
Theorem n5550_board_init_failure_unregistered (k : kernel)
  (Hfail : value (n5550_board_init k) <> 0) :
  let k' := state (n5550_board_init k) in
  platform_devices k' = platform_devices k /\
  (forall c, In c (i2c_clients k') -> In c (i2c_clients k)) /\
  (forall c, In c (i2c_clients k) ->
             client_addr c <> 0x64 -> client_addr c <> 0x62 ->
             In c (i2c_clients k')).
Proof.
  intro k'. subst k'. revert Hfail.
  rewrite n5550_board_init_value, n5550_board_init_state. cbv zeta.
  destruct (n5550_pca9532_setup_frame k) as (_ & _ & _ & _ & _ & _ & _ & P1 & _).
  pose proof (n5550_pca9532_setup_clients k) as Cfail.
  set (k1 := state (n5550_pca9532_setup k)) in *.
  destruct (n5550_ich_gpio_setup_frame k1) as (_ & _ & _ & P2).
  set (k2 := state (n5550_ich_gpio_setup k1)) in *.
  pose proof (n5550_ich_gpio_led_setup_devices k2) as P3.
  set (r3 := n5550_ich_gpio_led_setup k2) in *.
  destruct (value (n5550_pca9532_setup k) =? 0) eqn:E1; cbn [negb].
  - apply Z.eqb_eq in E1.
    destruct (n5550_board_init_after_setup k E1)
      as (dev & pd & a & _ & Hc1 & Hc2 & Hc3 & S02 & S12 & S03 & S13).
    fold k1 k2 r3 in Hc1, Hc2, Hc3, S02, S12, S03, S13.
    destruct (create_then_unregister (i2c_clients k)
                (i2c_new_result k a n5550_pca9532_0_info)
                (i2c_new_result k a n5550_pca9532_1_info)) as (Hsub & Hkeep).
    assert (forall c, In c (i2c_clients k) ->
              client_addr c <> 0x64 -> client_addr c <> 0x62 ->
              In c (unregistered (i2c_new_result k a n5550_pca9532_1_info)
                      (unregistered (i2c_new_result k a n5550_pca9532_0_info)
                         (client_at (i2c_new_result k a n5550_pca9532_1_info) ++
                          client_at (i2c_new_result k a n5550_pca9532_0_info) ++
                          i2c_clients k)))) as Hkeep'.
    { intros c Hin H0 H1.
      apply Hkeep; [exact Hin| |]; intro Hc;
        destruct (i2c_new_result_addr k a c); try contradiction;
        apply in_app_iff; auto. }
    destruct (value (n5550_ich_gpio_setup k1) =? 0) eqn:E2; cbn [negb].
    + destruct (value r3 =? 0) eqn:E3; cbn [negb].
      * apply Z.eqb_eq in E3. intro Hc. contradiction.
      * intros _.
        destruct (n5550_pca9532_cleanup_run (state r3)) as (_ & Hcl & Pc).
        rewrite Hcl, Pc, P3, P2, P1, S03, S13, Hc3, Hc1.
        split; [reflexivity|]. split; assumption.
    + intros _.
      destruct (n5550_pca9532_cleanup_run k2) as (_ & Hcl & Pc).
      rewrite Hcl, Pc, P2, P1, S02, S12, Hc2, Hc1.
      split; [reflexivity|]. split; assumption.
  - apply Z.eqb_neq in E1. intros _. rewrite (Cfail E1).
    split; [exact P1|]. split; auto.
Qed.

Lemma n5550_board_init_failure_unregistered_witness :
  platform_devices (state (n5550_board_init n5550_no_memory)) = [] /\
  i2c_clients (state (n5550_board_init n5550_no_memory)) = [].
Proof.
  assert (value (n5550_board_init n5550_no_memory) <> 0) as Hfail
    by (vm_compute; discriminate).
  destruct (n5550_board_init_failure_unregistered n5550_no_memory Hfail)
    as (Hpd & Hsub & _).
  split; [exact Hpd|].
  destruct (i2c_clients (state (n5550_board_init n5550_no_memory)))
    as [|c l]; [reflexivity|].
  destruct (Hsub c (or_introl eq_refl)).
Defined.

(** X11.  When init returns 0 (the LED table having its five entries and
    the lookup result being an int): the module's two pointers hold what
    the registrations at 0x64 and 0x62 on the bridge's adapter returned, a
    client or an error pointer; the clients created and the LED platform
    device have been added to what was registered, and nothing was removed;
    and the LED pins are the controller's base plus 0, 2, 3, 4, 5.  When no
    registration fails, the clients added are those at 0x64 and 0x62. *)
Theorem n5550_board_init_success (k : kernel)
  (Hok : value (n5550_board_init k) = 0)
  (Hleds : length (n5550_ich_gpio_leds k) = 5%nat)
  (Hint : value (n5550_get_ich_gpiobase k) < 2 ^ 31) :
  let k' := state (n5550_board_init k) in
  let b := value (n5550_get_ich_gpiobase k) in
  exists dev pd a,
    let p0 := i2c_new_result k a n5550_pca9532_0_info in
    let p1 := i2c_new_result k a n5550_pca9532_1_info in
    (smbus_at k = Some dev /\ pci_devices k !! dev = Some pd /\
     drvdata pd = Some a) /\
    n5550_pca9532_0_client k' = p0 /\
    n5550_pca9532_1_client k' = p1 /\
    i2c_clients k' = client_at p1 ++ client_at p0 ++ i2c_clients k /\
    (i2c_failure k 0x64 = None -> i2c_failure k 0x62 = None ->
       i2c_clients k' = pca9532_1_on a :: pca9532_0_on a :: i2c_clients k) /\
    platform_devices k' = n5550_ich_gpio_led_pdev :: platform_devices k /\
    0 <= b /\
    map gpio (n5550_ich_gpio_leds k') = [b + 0; b + 2; b + 3; b + 4; b + 5].
Proof.
  intros k' b.
  destruct (n5550_board_init_up k Hok) as (H1 & H2 & H3 & Hst & _).
  destruct (n5550_board_init_after_setup k H1)
    as (dev & pd & a & Hbridge & Hc1 & _ & Hc3 & _ & _ & S03 & S13).
  destruct (n5550_pca9532_setup_frame k)
    as (_ & _ & _ & _ & _ & _ & _ & P1 & L1).
  destruct (n5550_board_init_inputs k) as (_ & _ & _ & Hchips).
  set (k1 := state (n5550_pca9532_setup k)) in *.
  destruct (n5550_ich_gpio_setup_frame k1) as (_ & _ & _ & P2).
  destruct (n5550_ich_gpio_setup_keeps k1) as (_ & _ & _ & _ & _ & _ & L2 & _).
  set (k2 := state (n5550_ich_gpio_setup k1)) in *.
  pose proof (n5550_ich_gpio_led_setup_devices k2) as P3.
  assert (value (n5550_get_ich_gpiobase k2) = b) as Hb.
  { unfold b. rewrite !n5550_get_ich_gpiobase_value, Hchips. reflexivity. }
  assert (0 <= b) as Hpos.
  { rewrite <- Hb. apply n5550_get_ich_gpiobase_usable.
    apply n5550_ich_gpio_led_setup_zero_iff. exact H3. }
  assert (map gpio (n5550_ich_gpio_leds (state (n5550_ich_gpio_led_setup k2)))
          = [b + 0; b + 2; b + 3; b + 4; b + 5]) as Hpins.
  { rewrite n5550_ich_gpio_led_setup_unfold. cbv zeta. rewrite Hb.
    pose proof Hpos as Hge. apply Z.ltb_ge in Hge. rewrite Hge.
    assert (length (n5550_ich_gpio_leds k2) = 5%nat) as Hl
      by (rewrite L2, L1; exact Hleds).
    destruct (led_loop_pins b (n5550_ich_gpio_leds k2) Hl) as (Hg & _).
    rewrite !u32_small in Hg by (fold b in Hint; lia).
    destruct (platform_register_ret k2 =? 0); exact Hg. }
  rewrite H3 in P3. cbn [Z.eqb] in P3.
  subst k'. rewrite Hst. fold k1 k2.
  exists dev, pd, a. cbv zeta. rewrite Hc3, Hc1, P3, P2, P1.
  split; [exact Hbridge|].
  split; [exact S03|]. split; [exact S13|]. split; [reflexivity|].
  split; [|repeat split; assumption].
  unfold i2c_new_result. fold_addrs. intros -> ->. reflexivity.
Qed.

Lemma n5550_board_init_success_witness :
  i2c_clients (state (n5550_board_init n5550))
    = [pca9532_1_on i801; pca9532_0_on i801] /\
  platform_devices (state (n5550_board_init n5550)) = [n5550_ich_gpio_led_pdev] /\
  map gpio (n5550_ich_gpio_leds (state (n5550_board_init n5550)))
    = [100; 102; 103; 104; 105].
Proof.
  destruct (n5550_board_init_success n5550 eq_refl eq_refl eq_refl)
    as (dev & pd & a & (Hd & Hpd & Ha) & _ & _ & _ & Hc & Hp & _ & Hg).
  injection Hd as <-. injection Hpd as <-. injection Ha as <-.
  split; [apply Hc; reflexivity|]. split; [exact Hp | exact Hg].
Defined.

(** Init on the machine where the registration at 0x62 fails returns 0
    all the same, with the error pointer in the module's second pointer and
    one client registered. *)
Example n5550_board_init_second_refused :
  value (n5550_board_init n5550_second_refused) = 0 /\
  n5550_pca9532_1_client (state (n5550_board_init n5550_second_refused))
    = ERR_PTR (- 16) /\
  i2c_clients (state (n5550_board_init n5550_second_refused))
    = [pca9532_0_on i801].
Proof. repeat split. Qed.

Lemma held_after_app (acq rel : event -> option nat) (t1 t2 : list event)
    (h : list nat) :
  held_after acq rel h (t1 ++ t2) =
    match held_after acq rel h t1 with
    | Some h' => held_after acq rel h' t2
    | None => None
    end.
Proof.
  revert h. induction t1 as [|e t1 IH]; intro h; simpl; [reflexivity|].
  destruct (acq e); [apply IH|].
  destruct (rel e); [|apply IH].
  destruct (existsb (Nat.eqb n) h); [apply IH | reflexivity].
Qed.

Lemma held_after_neutral (acq rel : event -> option nat) (t : list event)
    (h : list nat) :
  forallb (neutral acq rel) t = true -> held_after acq rel h t = Some h.
Proof.
  induction t as [|e t IH]; simpl; [reflexivity|].
  intro H. apply andb_true_iff in H. destruct H as [He Ht].
  unfold neutral in He. apply andb_true_iff in He. destruct He as [Ha Hr].
  destruct (acq e); [discriminate Ha|].
  destruct (rel e); [discriminate Hr|]. apply IH. exact Ht.
Qed.

Lemma logs_neutral (acq rel : event -> option nat) (t : list event) :
  (forall e, is_log e = true -> neutral acq rel e = true) ->
  forallb is_log t = true -> forallb (neutral acq rel) t = true.
Proof.
  intros Hn. induction t as [|e t IH]; simpl; [reflexivity|].
  intro H. apply andb_true_iff in H. destruct H as [He Ht].
  rewrite (Hn e He), (IH Ht). reflexivity.
Qed.

Lemma n5550_ich_gpio_led_setup_neutral (acq rel : event -> option nat)
    (k : kernel) :
  (forall e, is_log e = true -> neutral acq rel e = true) ->
  (forall pdev pdata ret,
      neutral acq rel (ev_platform_device_register pdev pdata ret) = true) ->
  forallb (neutral acq rel) (events (n5550_ich_gpio_led_setup k)) = true.
Proof.
  intros Hlog Hreg. rewrite n5550_ich_gpio_led_setup_unfold. cbv zeta.
  pose proof (n5550_get_ich_gpiobase_pure k) as [_ Hl].
  apply (logs_neutral acq rel _ Hlog) in Hl.
  destruct (value (n5550_get_ich_gpiobase k) <? 0); cbn [events snd];
    [exact Hl|].
  rewrite forallb_app, Hl. simpl. rewrite Hreg. reflexivity.
Qed.

Lemma n5550_pca9532_cleanup_neutral (acq rel : event -> option nat)
    (k : kernel) :
  (forall c, neutral acq rel (ev_i2c_unregister_device c) = true) ->
  forallb (neutral acq rel) (events (n5550_pca9532_cleanup k)) = true.
Proof.
  intro Hu. destruct (n5550_pca9532_cleanup_run k) as (Hev & _).
  rewrite Hev. simpl. rewrite !Hu. reflexivity.
Qed.

Lemma n5550_ich_gpio_setup_held (k : kernel) :
  held_after pci_acquired pci_released [] (events (n5550_ich_gpio_setup k))
    = Some [] /\
  forallb (neutral module_acquired module_released)
          (events (n5550_ich_gpio_setup k)) = true.
Proof.
  destruct (lpc_at k) as [dev|] eqn:Hdev.
  - destruct (n5550_ich_gpio_setup_present k dev Hdev) as (_ & Hev & _).
    rewrite Hev. simpl. rewrite Nat.eqb_refl. split; reflexivity.
  - rewrite (n5550_ich_gpio_setup_absent k Hdev). split; reflexivity.
Qed.

(** X12.  On every exit of init the references are balanced over the whole
    run: no PCI device reference and no module reference is dropped that
    is not held, none is held at the return, and every PCI device's and
    every module's reference count is what it was before the call. *)
Theorem n5550_board_init_references (k : kernel) :
  let r := n5550_board_init k in
  held_after pci_acquired pci_released [] (events r) = Some [] /\
  held_after module_acquired module_released [] (events r) = Some [] /\
  (forall d, pci_refcount (state r) d = pci_refcount k d) /\
  (forall m, module_refcount (state r) m = module_refcount k m).
Proof.
  intro r. subst r.
  rewrite n5550_board_init_events, n5550_board_init_state. cbv zeta.
  destruct (n5550_pca9532_setup_refcounts k) as (Rp1 & Rm1 & Hp1 & Hm1).
  set (r1 := n5550_pca9532_setup k) in *.
  destruct (n5550_ich_gpio_setup_held (state r1)) as (Hp2 & Hm2).
  destruct (n5550_ich_gpio_setup_keeps (state r1))
    as (_ & _ & _ & Rm2 & _ & _ & _ & Rp2).
  set (r2 := n5550_ich_gpio_setup (state r1)) in *.
  destruct (n5550_ich_gpio_led_setup_keeps (state r2))
    as (_ & Rp3 & _ & _ & Rm3).
  pose proof (n5550_ich_gpio_led_setup_neutral pci_acquired pci_released
                (state r2)) as Hp3.
  pose proof (n5550_ich_gpio_led_setup_neutral module_acquired module_released
                (state r2)) as Hm3.
  set (r3 := n5550_ich_gpio_led_setup (state r2)) in *.
  assert (forall acq rel h t,
            forallb (neutral acq rel) t = true ->
            held_after acq rel h t = Some h) as Hn
    by (intros; apply held_after_neutral; assumption).
  assert (forall k0 fn err,
      held_after pci_acquired pci_released []
        (failed fn err :: events (n5550_pca9532_cleanup k0)) = Some [] /\
      held_after module_acquired module_released []
        (failed fn err :: events (n5550_pca9532_cleanup k0)) = Some []) as Hc.
  { intros k0 fn err. split; apply Hn; simpl;
      apply n5550_pca9532_cleanup_neutral; reflexivity. }
  specialize (Hp3 ltac:(intros [] He; try discriminate He; reflexivity)
                  ltac:(reflexivity)).
  specialize (Hm3 ltac:(intros [] He; try discriminate He; reflexivity)
                  ltac:(reflexivity)).
  assert (forall acq rel t1 t2,
            held_after acq rel [] t1 = Some [] ->
            held_after acq rel [] t2 = Some [] ->
            held_after acq rel [] (t1 ++ t2) = Some []) as Happ.
  { intros acq rel t1 t2 H1 H2. rewrite held_after_app, H1. exact H2. }
  apply Hn with (h := []) in Hp3, Hm3, Hm2.
  destruct (value r1 =? 0); cbn [negb].
  - destruct (value r2 =? 0); cbn [negb].
    + destruct (value r3 =? 0); cbn [negb].
      * split; [|split; [|split]].
        -- repeat (apply Happ; [assumption|]); assumption.
        -- repeat (apply Happ; [assumption|]); assumption.
        -- intro x. rewrite Rp3, Rp2. auto.
        -- intro x. rewrite Rm3, Rm2. auto.
      * destruct (n5550_pca9532_cleanup_keeps (state r3))
          as (Rp4 & _ & _ & Rm4 & _).
        destruct (Hc (state r3) "n5550_ich_gpio_led_setup" (value r3))
          as (Hpc & Hmc).
        split; [|split; [|split]].
        -- repeat (apply Happ; [assumption|]); assumption.
        -- repeat (apply Happ; [assumption|]); assumption.
        -- intro x. rewrite Rp4, Rp3, Rp2. auto.
        -- intro x. rewrite Rm4, Rm3, Rm2. auto.
    + destruct (n5550_pca9532_cleanup_keeps (state r2))
        as (Rp4 & _ & _ & Rm4 & _).
      destruct (Hc (state r2) "n5550_ich_gpio_setup" (value r2)) as (Hpc & Hmc).
      split; [|split; [|split]].
      * repeat (apply Happ; [assumption|]); assumption.
      * repeat (apply Happ; [assumption|]); assumption.
      * intro x. rewrite Rp4, Rp2. auto.
      * intro x. rewrite Rm4, Rm2. auto.
  - split; [|split; [|split]]; auto; apply Happ; auto.
Qed.

(** X13.  Init followed by exit is a round trip on the registrations: when
    init returns 0 on a machine with no client at 0x64 or 0x62 and no
    "leds-gpio" device of id -1 registered, then after exit the registered
    I2C clients and platform devices are exactly those before init, and so
    are the PCI and module reference counts. *)
Theorem n5550_board_init_exit_round_trip (k : kernel)
  (Hok : value (n5550_board_init k) = 0)
  (Hclients : Forall (fun c => client_addr c <> 0x64 /\ client_addr c <> 0x62)
                     (i2c_clients k))
  (Hdevices : Forall (fun p => same_platform_device p n5550_ich_gpio_led_pdev
                               = false)
                     (platform_devices k)) :
  let k' := state (n5550_board_exit (state (n5550_board_init k))) in
  i2c_clients k' = i2c_clients k /\
  platform_devices k' = platform_devices k /\
  (forall d, pci_refcount k' d = pci_refcount k d) /\
  (forall m, module_refcount k' m = module_refcount k m).
Proof.
  intro k'.
  destruct (n5550_board_init_up k Hok) as (H1 & H2 & H3 & Hst & _).
  destruct (n5550_board_init_after_setup k H1)
    as (dev & pd & a & _ & Hc1 & _ & Hc3 & _ & _ & S03 & S13).
  destruct (n5550_pca9532_setup_frame k)
    as (_ & _ & _ & _ & _ & _ & _ & P1 & _).
  destruct (n5550_pca9532_setup_refcounts k) as (Rp1 & Rm1 & _).
  set (k1 := state (n5550_pca9532_setup k)) in *.
  destruct (n5550_ich_gpio_setup_frame k1) as (_ & _ & _ & P2).
  destruct (n5550_ich_gpio_setup_keeps k1)
    as (_ & _ & _ & Rm2 & _ & _ & _ & Rp2).
  set (k2 := state (n5550_ich_gpio_setup k1)) in *.
  pose proof (n5550_ich_gpio_led_setup_devices k2) as P3.
  destruct (n5550_ich_gpio_led_setup_keeps k2) as (_ & Rp3 & _ & _ & Rm3).
  rewrite H3 in P3. cbn [Z.eqb] in P3.
  set (k3 := state (n5550_ich_gpio_led_setup k2)) in *.
  destruct (n5550_board_exit_run k3) as (_ & Hcl & Hpd).
  destruct (n5550_pca9532_cleanup_run k3) as (_ & Hw & _).
  assert (pci_refcount (state (n5550_board_exit k3)) = pci_refcount k3 /\
          module_refcount (state (n5550_board_exit k3)) = module_refcount k3)
    as (Rp4 & Rm4).
  { unfold n5550_board_exit, n5550_pca9532_cleanup, n5550_ich_gpio_led_cleanup,
      i2c_unregister_device, platform_device_unregister, bind, get, emit,
      modify, ret, state.
    destruct (n5550_pca9532_0_client k3); cbn;
      destruct (n5550_pca9532_1_client k3); cbn; split; reflexivity. }
  subst k'. rewrite Hst. fold k1 k2 k3.
  split; [|split; [|split]].
  - rewrite Hcl, Hw, S03, S13, Hc3, Hc1.
    apply create_then_unregister_all.
    + eapply List.Forall_impl; [|exact Hclients]. intros c [Hc _] Hin.
      apply Hc. unfold i2c_new_result in Hin.
      destruct (i2c_failure k (addr n5550_pca9532_0_info)); simpl in Hin;
        [tauto|]. destruct Hin as [<-|[]]. reflexivity.
    + eapply List.Forall_impl; [|exact Hclients]. intros c [_ Hc] Hin.
      apply Hc. unfold i2c_new_result in Hin.
      destruct (i2c_failure k (addr n5550_pca9532_1_info)); simpl in Hin;
        [tauto|]. destruct Hin as [<-|[]]. reflexivity.
    + unfold i2c_new_result.
      destruct (i2c_failure k (addr n5550_pca9532_1_info)); simpl;
        [constructor|].
      constructor; [|constructor].
      destruct (i2c_failure k 0x64); simpl; [tauto|].
      intros [E|[]]. discriminate E.
  - rewrite Hpd, P3, P2, P1. simpl. apply filter_all.
    eapply List.Forall_impl; [|exact Hdevices].
    intros p Hp. simpl in Hp. rewrite Hp. reflexivity.
  - intro d. rewrite Rp4, Rp3, Rp2. apply Rp1.
  - intro m. rewrite Rm4, Rm3, Rm2. apply Rm1.
Qed.

Lemma n5550_board_init_exit_round_trip_witness :
  i2c_clients (state (n5550_board_exit (state (n5550_board_init n5550)))) = [] /\
  platform_devices (state (n5550_board_exit (state (n5550_board_init n5550))))
    = [].
Proof.
  destruct (n5550_board_init_exit_round_trip n5550 eq_refl
              (List.Forall_nil _) (List.Forall_nil _)) as (Hc & Hp & _).
  split; [exact Hc | exact Hp].
Defined.

(** X14.  Nothing undoes the fixup: when the PCA9532 set-up succeeds and
    the LPC bridge is there, then at the return of init, whether it
    succeeds or fails at the LED step, every I/O port reads what it read
    right after the fixup; so the pins 0, 2, 3, 4, 5, 9, 28 and 34 are
    GPIO-owned at the return. *)
Theorem n5550_board_init_keeps_fixup (k : kernel) (dev : nat)
  (Hsmbus : smbus_ready k)
  (Hdev : lpc_at k = Some dev) :
  let k' := state (n5550_board_init k) in
  let fixed := state (n5550_ich_gpio_setup (state (n5550_pca9532_setup k))) in
  let sel0 := gpio_io_base_of k dev + N5550_ICH_GPIO_USE_SEL_0 in
  let sel1 := gpio_io_base_of k dev + N5550_ICH_GPIO_USE_SEL_1 in
  (forall p, port_value k' p = port_value fixed p) /\
  (forall pin, In pin enabled_pins_0 -> Z.testbit (port_value k' sel0) pin = true) /\
  (forall pin, In pin enabled_pins_1 -> Z.testbit (port_value k' sel1) pin = true).
Proof.
  intros k' fixed sel0 sel1.
  apply n5550_pca9532_setup_zero_iff in Hsmbus.
  destruct (n5550_pca9532_setup_frame k)
    as (_ & Hd1 & Hcfg1 & Hio1 & _).
  set (k1 := state (n5550_pca9532_setup k)) in *.
  assert (lpc_at k1 = Some dev) as Hdev1
    by (unfold lpc_at; rewrite Hd1; exact Hdev).
  assert (gpio_io_base_of k1 dev = gpio_io_base_of k dev) as Hbase
    by (unfold gpio_io_base_of; rewrite Hcfg1; reflexivity).
  destruct (n5550_ich_gpio_setup_ports k1 dev Hdev1) as (Hport0 & Hport1).
  rewrite Hbase in Hport0, Hport1. fold fixed sel0 sel1 in Hport0, Hport1.
  pose proof (n5550_ich_gpio_setup_value k1) as Hv2. rewrite Hdev1 in Hv2.
  assert (io_ports k' = io_ports fixed) as Hio.
  { subst k'. rewrite n5550_board_init_state. cbv zeta. fold k1.
    rewrite Hsmbus, Hv2. cbn [negb Z.eqb]. fold fixed.
    destruct (n5550_ich_gpio_led_setup_keeps fixed) as (_ & _ & _ & Hio3 & _).
    destruct (negb (value (n5550_ich_gpio_led_setup fixed) =? 0));
      [|exact Hio3].
    destruct (n5550_pca9532_cleanup_keeps
                (state (n5550_ich_gpio_led_setup fixed))) as (_ & _ & Hio4 & _).
    rewrite Hio4. exact Hio3. }
  assert (forall p, port_value k' p = port_value fixed p) as Hsame
    by (intro p; unfold port_value; rewrite Hio; reflexivity).
  split; [exact Hsame|]. split; intros pin Hin; rewrite Hsame.
  - rewrite Hport0, Z.lor_spec.
    apply orb_true_iff. right. apply N5550_ICH_GPIO_PINS_0_bits. exact Hin.
  - rewrite Hport1, Z.lor_spec. apply orb_true_iff. right.
    apply N5550_ICH_GPIO_PINS_1_bits. simpl in Hin. intuition lia.
Qed.

Lemma n5550_board_init_keeps_fixup_witness :
  value (n5550_board_init n5550_no_ich) = - ENODEV /\
  Z.testbit (port_value (state (n5550_board_init n5550_no_ich)) 0x0500) 9 = true.
Proof.
  assert (smbus_ready n5550_no_ich) as Hs.
  { exists 0%nat, {| vendor := 0x8086; device := 0x3a30; drvdata := Some i801 |},
      i801. repeat split. }
  destruct (n5550_board_init_keeps_fixup n5550_no_ich 2%nat Hs eq_refl)
    as (_ & H0 & _).
  split; [reflexivity|].
  apply (H0 9). simpl. tauto.
Defined.

Lemma count_app (p : event -> bool) (t1 t2 : list event) :
  count p (t1 ++ t2) = (count p t1 + count p t2)%nat.
Proof. unfold count. rewrite List.filter_app, List.length_app. reflexivity. Qed.

Lemma n5550_pca9532_setup_no_platform_call (k : kernel) :
  count is_platform_device_register (events (n5550_pca9532_setup k)) = 0%nat /\
  count is_platform_device_unregister (events (n5550_pca9532_setup k)) = 0%nat.
Proof.
  pca9532_exits k; unfold events, count; cbn [fst snd]; split; reflexivity.
Qed.

Lemma n5550_ich_gpio_setup_no_platform_call (k : kernel) :
  count is_platform_device_register (events (n5550_ich_gpio_setup k)) = 0%nat /\
  count is_platform_device_unregister (events (n5550_ich_gpio_setup k)) = 0%nat.
Proof.
  destruct (lpc_at k) as [dev|] eqn:Hdev.
  - destruct (n5550_ich_gpio_setup_present k dev Hdev) as (_ & Hev & _).
    rewrite Hev. split; reflexivity.
  - rewrite (n5550_ich_gpio_setup_absent k Hdev). split; reflexivity.
Qed.

Lemma n5550_pca9532_cleanup_no_platform_call (k : kernel) :
  count is_platform_device_register (events (n5550_pca9532_cleanup k)) = 0%nat /\
  count is_platform_device_unregister (events (n5550_pca9532_cleanup k)) = 0%nat.
Proof.
  destruct (n5550_pca9532_cleanup_run k) as (Hev & _).
  rewrite Hev. split; reflexivity.
Qed.

Lemma n5550_ich_gpio_led_setup_platform_calls (k : kernel) :
  count is_platform_device_register (events (n5550_ich_gpio_led_setup k))
    = (if value (n5550_get_ich_gpiobase k) <? 0 then 0%nat else 1%nat) /\
  count is_platform_device_unregister (events (n5550_ich_gpio_led_setup k))
    = 0%nat.
Proof.
  rewrite n5550_ich_gpio_led_setup_unfold. cbv zeta.
  pose proof (n5550_get_ich_gpiobase_pure k) as [_ Hlog].
  assert (count is_platform_device_register (events (n5550_get_ich_gpiobase k))
          = 0%nat) as R0.
  { apply count_logs; [|exact Hlog]. intros [] He; try discriminate He; reflexivity. }
  assert (count is_platform_device_unregister (events (n5550_get_ich_gpiobase k))
          = 0%nat) as U0.
  { apply count_logs; [|exact Hlog]. intros [] He; try discriminate He; reflexivity. }
  destruct (value (n5550_get_ich_gpiobase k) <? 0); cbn [events snd].
  - split; assumption.
  - rewrite !count_app, R0, U0. split; reflexivity.
Qed.

(** X15.  Init calls platform_device_register at most once, and it calls it
    exactly when the PCA9532 set-up and the GPIO fixup have succeeded and
    the controller lookup gives a usable base (on the machine init starts
    on: SMBus ready, LPC bridge found, first "gpio_ich" controller with a
    non-negative base).  Init never calls platform_device_unregister, not
    even when the registration fails. *)
Theorem n5550_board_init_led_registration (k : kernel) :
  let t := events (n5550_board_init k) in
  (count is_platform_device_register t <= 1)%nat /\
  (count is_platform_device_register t = 1%nat <->
     smbus_ready k /\ (exists dev, lpc_at k = Some dev) /\ ich_gpio_usable k) /\
  count is_platform_device_unregister t = 0%nat.
Proof.
  intro t. subst t. rewrite n5550_board_init_events. cbv zeta.
  destruct (n5550_board_init_inputs k) as (Hlpc & Hus & _ & _).
  pose proof (n5550_pca9532_setup_zero_iff k) as H1.
  destruct (n5550_pca9532_setup_no_platform_call k) as (R1 & U1).
  set (r1 := n5550_pca9532_setup k) in *.
  pose proof (n5550_ich_gpio_setup_value (state r1)) as H2. rewrite Hlpc in H2.
  destruct (n5550_ich_gpio_setup_no_platform_call (state r1)) as (R2 & U2).
  set (r2 := n5550_ich_gpio_setup (state r1)) in *.
  pose proof (n5550_get_ich_gpiobase_usable (state r2)) as H3.
  rewrite Hus in H3.
  destruct (n5550_ich_gpio_led_setup_platform_calls (state r2)) as (R3 & U3).
  set (r3 := n5550_ich_gpio_led_setup (state r2)) in *.
  assert (forall k0 fn err,
    count is_platform_device_register
          (failed fn err :: events (n5550_pca9532_cleanup k0)) = 0%nat /\
    count is_platform_device_unregister
          (failed fn err :: events (n5550_pca9532_cleanup k0)) = 0%nat) as Hc.
  { intros k0 fn err.
    destruct (n5550_pca9532_cleanup_no_platform_call k0) as (Rc & Uc).
    split; [exact Rc | exact Uc]. }
  destruct (value r1 =? 0) eqn:E1; cbn [negb].
  - apply Z.eqb_eq in E1. apply H1 in E1. rewrite H2.
    destruct (lpc_at k) as [dev|] eqn:Hdev; cbn [negb Z.eqb].
    + assert (count is_platform_device_register (events r3) = 1%nat <->
              ich_gpio_usable k) as Hr3.
      { rewrite R3, <- H3.
        destruct (value (n5550_get_ich_gpiobase (state r2)) <? 0) eqn:Hb.
        - apply Z.ltb_lt in Hb. split; [discriminate | lia].
        - apply Z.ltb_ge in Hb. tauto. }
      assert (count is_platform_device_register (events r3) <= 1)%nat as Hle.
      { rewrite R3. destruct (_ <? 0); lia. }
      destruct (value r3 =? 0); cbn [negb].
      * rewrite !count_app, R1, R2, U1, U2, U3. cbn [Nat.add].
        split; [exact Hle|]. split; [|reflexivity].
        rewrite Hr3. split; [eauto | tauto].
      * destruct (Hc (state r3) "n5550_ich_gpio_led_setup" (value r3))
          as (Rc & Uc).
        rewrite !count_app, R1, R2, U1, U2, U3, Rc, Uc, Nat.add_0_r.
        cbn [Nat.add].
        split; [exact Hle|]. split; [|reflexivity].
        rewrite Hr3. split; [eauto | tauto].
    + destruct (Hc (state r2) "n5550_ich_gpio_setup" (- ENODEV)) as (Rc & Uc).
      change (- ENODEV =? 0) with false. cbn [negb].
      rewrite !count_app, R1, R2, U1, U2, Rc, Uc. cbn [Nat.add].
      split; [lia|]. split; [|reflexivity].
      split; [discriminate|]. intros (_ & (dev & Hc') & _). discriminate Hc'.
  - apply Z.eqb_neq in E1. rewrite !count_app, R1, U1. cbn.
    split; [lia|]. split; [|reflexivity].
    split; [discriminate|]. intros (Hs & _). apply H1 in Hs. contradiction.
Qed.

Lemma n5550_pca9532_setup_no_warning (k : kernel) :
  count is_pr_warn (events (n5550_pca9532_setup k)) = 0%nat.
Proof.
  pca9532_exits k; unfold events, count; cbn [fst snd]; reflexivity.
Qed.

Lemma n5550_ich_gpio_setup_no_warning (k : kernel) :
  count is_pr_warn (events (n5550_ich_gpio_setup k)) = 0%nat.
Proof.
  destruct (lpc_at k) as [dev|] eqn:Hdev.
  - destruct (n5550_ich_gpio_setup_present k dev Hdev) as (_ & Hev & _).
    rewrite Hev. reflexivity.
  - rewrite (n5550_ich_gpio_setup_absent k Hdev). reflexivity.
Qed.

Lemma n5550_ich_gpio_led_setup_no_warning (k : kernel) :
  0 <= value (n5550_get_ich_gpiobase k) ->
  count is_pr_warn (events (n5550_ich_gpio_led_setup k)) = 0%nat.
Proof.
  intro Hb. rewrite n5550_ich_gpio_led_setup_unfold. cbv zeta.
  pose proof Hb as Hge. apply Z.ltb_ge in Hge. rewrite Hge. cbn [events snd].
  rewrite count_app. revert Hb.
  unfold n5550_get_ich_gpiobase, gpiochip_find, bind, get; simpl.
  destruct (gpiochip_scan n5550_match_ich_gpiochip (gpio_chips k)) as [gc|].
  - destruct (base gc <? 0); simpl; intro Hb; [|reflexivity].
    vm_compute in Hb. contradiction.
  - simpl. intro Hb. vm_compute in Hb. contradiction.
Qed.

Lemma step_failures_app (t1 t2 : list event) :
  step_failures (t1 ++ t2) = step_failures t1 ++ step_failures t2.
Proof.
  induction t1 as [|e t1 IH]; simpl; [reflexivity|].
  destruct (failed_step e); simpl; rewrite IH; reflexivity.
Qed.

Lemma step_failures_quiet (t : list event) :
  count is_pr_warn t = 0%nat -> step_failures t = [].
Proof.
  unfold count. induction t as [|e t IH]; simpl; [reflexivity|].
  destruct e; simpl; try exact IH. discriminate.
Qed.

(** The lookup's own warnings name no step. *)
Lemma n5550_ich_gpio_led_setup_names_no_step (k : kernel) :
  step_failures (events (n5550_ich_gpio_led_setup k)) = [].
Proof.
  rewrite n5550_ich_gpio_led_setup_unfold. cbv zeta.
  assert (step_failures (events (n5550_get_ich_gpiobase k)) = []) as Hg.
  { unfold n5550_get_ich_gpiobase, gpiochip_find, bind, get; simpl.
    destruct (gpiochip_scan n5550_match_ich_gpiochip (gpio_chips k)) as [gc|];
      [destruct (base gc <? 0)|]; reflexivity. }
  destruct (value (n5550_get_ich_gpiobase k) <? 0); cbn [events snd];
    [exact Hg|].
  rewrite step_failures_app, Hg. reflexivity.
Qed.

(** X16.  A failing init says which step failed: its calls include exactly
    one line "<step> failed (%d)", and that line names the step that
    failed, with the code this step returned, which is the value init
    returns: n5550_pca9532_setup when that fails; n5550_ich_gpio_setup when
    the first step succeeds and that fails; n5550_ich_gpio_led_setup when
    the first two succeed and that fails.  A successful init logs no
    warning at all. *)
Theorem n5550_board_init_warns (k : kernel) :
  let r := n5550_board_init k in
  let r1 := n5550_pca9532_setup k in
  let r2 := n5550_ich_gpio_setup (state r1) in
  let r3 := n5550_ich_gpio_led_setup (state r2) in
  (value r1 <> 0 ->
     value r = value r1 /\
     step_failures (events r) = [("n5550_pca9532_setup"%string, value r1)]) /\
  (value r1 = 0 -> value r2 <> 0 ->
     value r = value r2 /\
     step_failures (events r) = [("n5550_ich_gpio_setup"%string, value r2)]) /\
  (value r1 = 0 -> value r2 = 0 -> value r3 <> 0 ->
     value r = value r3 /\
     step_failures (events r)
       = [("n5550_ich_gpio_led_setup"%string, value r3)]) /\
  (value r <> 0 ->
     exists fn, In fn init_steps /\
                step_failures (events r) = [(fn, value r)]) /\
  (value r = 0 -> count is_pr_warn (events r) = 0%nat).
Proof.
  intros r r1 r2 r3.
  assert (step_failures (events r1) = []) as S1
    by apply step_failures_quiet, n5550_pca9532_setup_no_warning.
  assert (step_failures (events r2) = []) as S2
    by apply step_failures_quiet, n5550_ich_gpio_setup_no_warning.
  assert (step_failures (events r3) = []) as S3
    by apply n5550_ich_gpio_led_setup_names_no_step.
  assert (forall k0, step_failures (events (n5550_pca9532_cleanup k0)) = [])
    as Sc.
  { intro k0. destruct (n5550_pca9532_cleanup_run k0) as (Hev & _).
    rewrite Hev. reflexivity. }
  assert (value r1 <> 0 ->
     value r = value r1 /\
     step_failures (events r) = [("n5550_pca9532_setup"%string, value r1)])
    as A1.
  { intro H1. subst r.
    rewrite n5550_board_init_value, n5550_board_init_events. cbv zeta.
    fold r1. apply Z.eqb_neq in H1. rewrite H1. cbn [negb].
    split; [reflexivity|]. rewrite step_failures_app, S1. reflexivity. }
  assert (value r1 = 0 -> value r2 <> 0 ->
     value r = value r2 /\
     step_failures (events r) = [("n5550_ich_gpio_setup"%string, value r2)])
    as A2.
  { intros H1 H2. subst r.
    rewrite n5550_board_init_value, n5550_board_init_events. cbv zeta.
    fold r1 r2. rewrite H1. apply Z.eqb_neq in H2. rewrite H2.
    cbn [negb Z.eqb].
    split; [reflexivity|].
    rewrite !step_failures_app, S1, S2.
    change (failed "n5550_ich_gpio_setup" (value r2)
              :: events (n5550_pca9532_cleanup (state r2)))
      with ([failed "n5550_ich_gpio_setup" (value r2)]
              ++ events (n5550_pca9532_cleanup (state r2))).
    rewrite step_failures_app, Sc. reflexivity. }
  assert (value r1 = 0 -> value r2 = 0 -> value r3 <> 0 ->
     value r = value r3 /\
     step_failures (events r)
       = [("n5550_ich_gpio_led_setup"%string, value r3)]) as A3.
  { intros H1 H2 H3. subst r.
    rewrite n5550_board_init_value, n5550_board_init_events. cbv zeta.
    fold r1 r2 r3. rewrite H1, H2. apply Z.eqb_neq in H3. rewrite H3.
    cbn [negb Z.eqb].
    split; [reflexivity|].
    rewrite !step_failures_app, S1, S2, S3.
    change (failed "n5550_ich_gpio_led_setup" (value r3)
              :: events (n5550_pca9532_cleanup (state r3)))
      with ([failed "n5550_ich_gpio_led_setup" (value r3)]
              ++ events (n5550_pca9532_cleanup (state r3))).
    rewrite step_failures_app, Sc. reflexivity. }
  split; [exact A1|]. split; [exact A2|]. split; [exact A3|]. split.
  - intro Hfail.
    destruct (Z.eq_dec (value r1) 0) as [H1|H1].
    + destruct (Z.eq_dec (value r2) 0) as [H2|H2].
      * destruct (Z.eq_dec (value r3) 0) as [H3|H3].
        -- exfalso. apply Hfail. subst r. rewrite n5550_board_init_value.
           cbv zeta. fold r1 r2 r3. rewrite H1, H2. exact H3.
        -- destruct (A3 H1 H2 H3) as (Hv & Hs). rewrite Hs, Hv.
           exists "n5550_ich_gpio_led_setup"%string. split; [simpl; tauto|].
           reflexivity.
      * destruct (A2 H1 H2) as (Hv & Hs). rewrite Hs, Hv.
        exists "n5550_ich_gpio_setup"%string. split; [simpl; tauto|].
        reflexivity.
    + destruct (A1 H1) as (Hv & Hs). rewrite Hs, Hv.
      exists "n5550_pca9532_setup"%string. split; [simpl; tauto|].
      reflexivity.
  - intro Hok.
    destruct (n5550_board_init_up k Hok) as (_ & _ & H3 & _ & Hev).
    subst r. rewrite Hev, !count_app.
    rewrite n5550_pca9532_setup_no_warning, n5550_ich_gpio_setup_no_warning.
    rewrite n5550_ich_gpio_led_setup_no_warning; [reflexivity|].
    apply n5550_get_ich_gpiobase_usable.
    apply n5550_ich_gpio_led_setup_zero_iff. exact H3.
Qed.

Lemma n5550_board_init_warns_witness :
  step_failures (events (n5550_board_init n5550_no_ich))
    = [("n5550_ich_gpio_led_setup"%string, - ENODEV)] /\
  step_failures (events (n5550_board_init n5550_i801_going))
    = [("n5550_pca9532_setup"%string, - EBUSY)] /\
  count is_pr_warn (events (n5550_board_init n5550)) = 0%nat.
Proof.
  destruct (n5550_board_init_warns n5550_no_ich) as (_ & _ & H3 & _).
  destruct (n5550_board_init_warns n5550_i801_going) as (H1 & _).
  destruct (n5550_board_init_warns n5550) as (_ & _ & _ & _ & Hquiet).
  split; [|split].
  - destruct H3 as (_ & Hs); [reflexivity | reflexivity | discriminate |].
    exact Hs.
  - destruct H1 as (_ & Hs); [discriminate|]. exact Hs.
  - apply Hquiet. reflexivity.
Defined.
